(** * Execution core of the iptables dependencies (package [dependencies])

    A shallow embedding of [execute], [runInSandbox], [mount] and
    [executeXTables], the functions that run iptables-family commands on the
    host or, in CNI mode, from the host file system inside the pod network
    namespace.  Go values of type [error] are [option GoError] ([None] is
    [nil]); code with effects is written in a state monad over the state of
    the host, a log of the calls that left the process, and the
    [bytes.Buffer] objects allocated by the functions. *)

From Stdlib Require Import ZArith NArith Lia Ascii.
From stdpp Require Import base decidable option list strings gmap pretty.

Open Scope Z_scope.

(** ** Go errors *)

(** An [error] value is observed through its [Error()] method only. *)
Record GoError : Type := errorString { Error : string }.

Definition error : Type := option GoError.

(** [fmt.Errorf] with a format that ends in [": %v"] applied to an error. *)
Definition Errorf (prefix : string) (err : GoError) : GoError :=
  errorString (prefix +:+ ": " +:+ Error err).

Global Instance GoError_eq_dec : EqDecision GoError.
Proof. solve_decision. Defined.

(** ** Versions ([k8s.io/apimachinery/pkg/util/version])

    Both thresholds are built with [MustParseGeneric], so at every
    comparison made by this package [!v.semver || !other.semver] holds and
    [compareInternal] returns before it looks at pre-release identifiers.
    The model keeps the part that decides: the numeric components. *)
Module utilversion.

Record Version : Type := generic { components : list N }.

Definition onlyZeros (array : list N) : bool :=
  forallb (N.eqb 0) array.

(** The loop over the common prefix; [Some r] when the loop returns [r]. *)
Fixpoint compareCommon (vs os : list N) : option Z :=
  match vs, os with
  | x :: vs', y :: os' =>
      if (y <? x)%N then Some 1
      else if (x <? y)%N then Some (-1)
      else compareCommon vs' os'
  | _, _ => None
  end.

Definition compareComponents (vs os : list N) : Z :=
  let vLen := length vs in
  let oLen := length os in
  match compareCommon vs os with
  | Some r => r
  | None =>
      if (oLen <? vLen)%nat && negb (onlyZeros (drop oLen vs)) then 1
      else if (vLen <? oLen)%nat && negb (onlyZeros (drop vLen os)) then -1
      else 0
  end.

Definition compareInternal (v other : Version) : Z :=
  compareComponents (components v) (components other).

Definition LessThan (v other : Version) : bool :=
  compareInternal v other =? -1.

(** The order the comparison is meant to decide: component [i] of a version
    is [0] when the version has fewer than [i+1] components, and versions
    are ordered lexicographically on their components. *)
Definition component (v : Version) (i : nat) : N :=
  nth i (components v) 0%N.

Definition lt (v w : Version) : Prop :=
  ∃ i, (∀ j, (j < i)%nat → component v j = component w j)
       ∧ (component v i < component w i)%N.

Definition equiv (v w : Version) : Prop :=
  ∀ i, component v i = component w i.

Definition le (v w : Version) : Prop := lt v w ∨ equiv v w.

End utilversion.

Import utilversion.

(** IptablesRestoreLocking is the version where locking and -w is added to
    iptables-restore; IptablesLockfileEnv is the version where
    XTABLES_LOCKFILE is added to iptables. *)
Definition IptablesRestoreLocking : Version := generic [1; 6; 2]%N.
Definition IptablesLockfileEnv : Version := generic [1; 8; 6]%N.

(** Modelled from the spec: the type of the field [IptablesVersion] is
    declared in another file of the package (the spec calls it ToolVersion);
    [executeXTables] reads its field [version]. *)
Record ToolVersion : Type := { version : Version }.

(** Modelled from the spec: the method [NoLocks] is declared in another
    file of the package.  It is true when the version predates the
    introduction of the [--wait]/locking flag (threshold 1.6.2). *)
Definition NoLocks (v : ToolVersion) : bool :=
  LessThan (version v) IptablesRestoreLocking.

(** [RealDependencies] is declared in another file of the package; these
    are the fields that the functions below read. *)
Record RealDependencies : Type := {
  IptablesVersion : ToolVersion;
  NetworkNamespace : string;
  CNIMode : bool;
}.

(** ** Strings *)

Definition newline : string := String (ascii_of_nat 10) "".

Fixpoint string_map (f : ascii → ascii) (s : string) : string :=
  match s with
  | EmptyString => EmptyString
  | String c s' => String (f c) (string_map f s')
  end.

(** The test [strings.ToUpper] and [strings.ToLower] start with: no byte
    of the string is [utf8.RuneSelf] (0x80) or above. *)
Fixpoint isASCII (s : string) : bool :=
  match s with
  | EmptyString => true
  | String c s' => (N_of_ascii c <? 128)%N && isASCII s'
  end.

(** What [strings.ToUpper] does to a byte of a string of ASCII characters:
    [if 'a' <= c && c <= 'z' { c -= 'a' - 'A' }]. *)
Definition upper_ascii (c : ascii) : ascii :=
  let n := N_of_ascii c in
  if (97 <=? n)%N && (n <=? 122)%N then ascii_of_N (n - 32) else c.

(** [strings.NewReplacer("-", "_").Replace]. *)
Definition dash_to_underscore (c : ascii) : ascii :=
  if decide (c = "-"%char) then "_"%char else c.

Definition repl_Replace : string → string := string_map dash_to_underscore.

Definition Join (elems : list string) (sep : string) : string :=
  String.concat sep elems.

(** ** The host and the calls that leave the process *)

(** Flags of [unshare(2)] and [mount(2)] on Linux. *)
Definition CLONE_NEWNS : Z := 0x20000.
Definition MS_RDONLY : Z := 0x1.
Definition MS_BIND : Z := 0x1000.
Definition MS_REC : Z := 0x4000.
Definition MS_PRIVATE : Z := Z.shiftl 1 18.

(** What lies outside the package: the kernel, the process runner, the
    configuration store behind [viper] and the verbs of [fmt]. *)
Record Platform : Type := {
  World : Type;
  NetNS : Type;
  Reader : Type;
  any : Type;
  host_GetCurrentNS : World → (NetNS + GoError) * World;
  host_SetNS : NetNS → World → error * World;
  host_Unshare : Z → World → error * World;
  host_Mount : string → string → string → Z → string → World → error * World;
  host_LockOSThread : World → World;
  (** runs the process with these arguments, environment and standard input;
      gives the error of [Cmd.Run] and what the process wrote to its standard
      output and to its standard error *)
  host_Run : list string → list string → option Reader → World →
             (error * string * string) * World;
  host_AllKeys : World → list string;
  host_Get : string → World → option any;
  fmt_v : any → string;
  fmt_q : string → string;
  (** [strings.Map(unicode.ToUpper, s)]: what [strings.ToUpper] gives for a
      string that holds a byte outside ASCII *)
  unicode_ToUpper : string → string;
}.

Inductive Syscall : Type :=
  | ScGetCurrentNS
  | ScLockOSThread
  | ScUnshare (flags : Z)
  | ScSetNS
  | ScMount (source target fstype : string) (flags : Z) (data : string).

Inductive Level : Type := DebugLevel | InfoLevel | WarnLevel | ErrorLevel.

(** What the log of a run records: a line handed to the logger, a call of the
    kernel, a run of an external command with its arguments, its environment
    and the error it gave, an invocation of the operation handed to
    [runInSandbox] with the error it gave. *)
Inductive Event : Type :=
  | EvLog (lvl : Level) (msg : string)
  | EvSyscall (c : Syscall)
  | EvExec (args env : list string) (err : error)
  | EvInvoke (err : error).

Global Instance Syscall_eq_dec : EqDecision Syscall.
Proof. solve_decision. Defined.

Global Instance Level_eq_dec : EqDecision Level.
Proof. solve_decision. Defined.

Global Instance Event_eq_dec : EqDecision Event.
Proof. solve_decision. Defined.

(** A [*bytes.Buffer] is the index of its contents in the heap. *)
Definition Buffer : Type := nat.

Record State (P : Platform) : Type := mkState {
  world : World P;
  trace : list Event;
  heap : list string;
}.

Arguments mkState {P} _ _ _.
Arguments world {P} _.
Arguments trace {P} _.
Arguments heap {P} _.

(** [exec.Cmd]; [Args] holds the command name followed by the arguments. *)
Record Cmd (P : Platform) : Type := mkCmd {
  Args : list string;
  Env : list string;
  Stdin : option (Reader P);
  Stdout : option Buffer;
  Stderr : option Buffer;
}.

Arguments mkCmd {P} _ _ _ _ _.
Arguments Args {P} _.
Arguments Env {P} _.
Arguments Stdin {P} _.
Arguments Stdout {P} _.
Arguments Stderr {P} _.

(** Observations on a log of events. *)
Definition invoked (tr : list Event) : list error :=
  omap (λ e, match e with EvInvoke r => Some r | _ => None end) tr.

Definition invocations (tr : list Event) : nat := length (invoked tr).

Definition logged (lvl : Level) (tr : list Event) : list string :=
  omap (λ e, match e with
             | EvLog l msg => if decide (l = lvl) then Some msg else None
             | _ => None
             end) tr.

Definition syscalls (tr : list Event) : list Syscall :=
  omap (λ e, match e with EvSyscall c => Some c | _ => None end) tr.

Definition executed (tr : list Event)
  : list (list string * list string * error) :=
  omap (λ e, match e with EvExec a v r => Some (a, v, r) | _ => None end) tr.

Definition is_log (e : Event) : bool :=
  match e with EvLog _ _ => true | _ => false end.

(** The warning of [runInSandbox] when the setup of the sandbox has failed. *)
Definition warning (detail : string) : Event :=
  EvLog WarnLevel
    ("failed to setup execution environment, attempting to continue anyways: "
     +:+ detail).

Section dependencies.

Context {P : Platform}.

(** ** The monad *)

Definition M (A : Type) : Type := State P → A * State P.

Definition ret {A} (a : A) : M A := λ s, (a, s).

Definition bind {A B} (m : M A) (k : A → M B) : M B :=
  λ s, let '(a, s') := m s in k a s'.

Notation "x <- m ;; k" := (bind m (λ x, k))
  (at level 100, m at next level, right associativity).
Notation "m ;;; k" := (bind m (λ _, k))
  (at level 100, right associativity).

(** A call that acts on the host, recorded in the log with its result. *)
Definition call {A} (ev : A → Event) (op : World P → A * World P) : M A :=
  λ s, let '(a, w) := op (world s) in
       (a, mkState w (trace s ++ [ev a]) (heap s)).

(** An operation handed to [runInSandbox], with its invocations recorded. *)
Definition invoke (op : World P → error * World P) : M error :=
  call EvInvoke op.

Definition logf (lvl : Level) (msg : string) : M unit :=
  λ s, (tt, mkState (world s) (trace s ++ [EvLog lvl msg]) (heap s)).

(** ** Calls of the libraries *)

Definition GetCurrentNS : M (NetNS P + GoError) :=
  call (λ _, EvSyscall ScGetCurrentNS) (host_GetCurrentNS P).

Definition LockOSThread : M unit :=
  call (λ _, EvSyscall ScLockOSThread) (λ w, (tt, host_LockOSThread P w)).

Definition Unshare (flags : Z) : M error :=
  call (λ _, EvSyscall (ScUnshare flags)) (host_Unshare P flags).

Definition NetNS_Set (n : NetNS P) : M error :=
  call (λ _, EvSyscall ScSetNS) (host_SetNS P n).

Definition Mount (source target fstype : string) (flags : Z) (data : string)
  : M error :=
  call (λ _, EvSyscall (ScMount source target fstype flags data))
       (host_Mount P source target fstype flags data).

Definition viper_AllKeys : M (list string) :=
  λ s, (host_AllKeys P (world s), s).

Definition viper_Get (k : string) : M (option (any P)) :=
  λ s, (host_Get P k (world s), s).

(** [&bytes.Buffer{}] *)
Definition newBuffer : M Buffer :=
  λ s, (length (heap s), mkState (world s) (trace s) (heap s ++ [""])).

Definition Buffer_String (b : Buffer) : M string :=
  λ s, (default "" (heap s !! b), s).

Definition write_to (w : option Buffer) (data : string) (h : list string)
  : list string :=
  match w with
  | Some b => alter (λ old, old +:+ data) b h
  | None => h
  end.

(** [exec.Command(name, arg...)] *)
Definition exec_Command (name : string) (arg : list string) : Cmd P :=
  mkCmd (name :: arg) [] None None None.

Definition Cmd_Run (c : Cmd P) : M error :=
  λ s, let '(err, out, errout, w) :=
         host_Run P (Args c) (Env c) (Stdin c) (world s) in
       (err, mkState w (trace s ++ [EvExec (Args c) (Env c) err])
                     (write_to (Stderr c) errout
                        (write_to (Stdout c) out (heap s)))).

Definition with_Env (c : Cmd P) (env : list string) : Cmd P :=
  mkCmd (Args c) env (Stdin c) (Stdout c) (Stderr c).

Definition with_streams (c : Cmd P) (stdout stderr : Buffer)
    (stdin : option (Reader P)) : Cmd P :=
  mkCmd (Args c) (Env c) stdin (Some stdout) (Some stderr).

Definition when (b : bool) (m : M unit) : M unit :=
  if b then m else ret tt.

(** ** execute *)

(** [strings.ToUpper]: a string of ASCII characters has its letters a to z
    turned into A to Z, byte by byte; any other string goes through the
    mapping of package [unicode]. *)
Definition ToUpper (s : string) : string :=
  if isASCII s then string_map upper_ascii s else unicode_ToUpper P s.

(** The loop over [viper.AllKeys()]. *)
Fixpoint propagate_config (keys : list string) (c : Cmd P) : M (Cmd P) :=
  match keys with
  | [] => ret c
  | k :: keys' =>
      v <- viper_Get k ;;
      match v with
      | None => propagate_config keys' c
      | Some v =>
          propagate_config keys'
            (with_Env c (Env c ++
               [ToUpper (repl_Replace k) +:+ "=" +:+ fmt_v P v]))
      end
  end.

Definition execute (cmd : string) (ignoreErrors : bool)
    (stdin : option (Reader P)) (args : list string) : M error :=
  logf InfoLevel ("Running command: " +:+ cmd +:+ " " +:+ Join args " ") ;;;
  let externalCommand := exec_Command cmd args in
  stdout <- newBuffer ;;
  stderr <- newBuffer ;;
  let externalCommand := with_streams externalCommand stdout stderr stdin in
  keys <- viper_AllKeys ;;
  externalCommand <- propagate_config keys externalCommand ;;
  err <- Cmd_Run externalCommand ;;
  out <- Buffer_String stdout ;;
  when (negb (String.length out =? 0)%nat)
       (logf InfoLevel ("Command output: " +:+ newline +:+ out)) ;;;
  errout <- Buffer_String stderr ;;
  when (negb ignoreErrors && negb (String.length errout =? 0)%nat)
       (logf ErrorLevel ("Command error output: " +:+ newline +:+ errout)) ;;;
  ret err.

(** ** runInSandbox *)

Definition mount (src dst : string) : M error :=
  Mount src dst "" (Z.lor MS_BIND MS_RDONLY) "".

(** [if err := m; err != nil { return wrap(err) }], followed by [k]. *)
Definition check (m : M error) (wrap : GoError → GoError) (k : M error)
  : M error :=
  err <- m ;;
  match err with
  | Some err => ret (Some (wrap err))
  | None => k
  end.

Definition setupSandbox (n : NetNS P) (lockFile : string) : M error :=
  check (Unshare CLONE_NEWNS)
        (Errorf "failed to unshare to new mount namespace")
  (check (NetNS_Set n)
        (Errorf "failed to reset network namespace")
  (check (Mount "" "/" "" (Z.lor MS_PRIVATE MS_REC) "")
        (Errorf "failed to remount /")
  ((if decide (lockFile ≠ "")
    then check (mount lockFile "/run/xtables.lock")
               (λ err, errorString ("bind mount of " +:+ fmt_q P lockFile
                                    +:+ " failed: " +:+ Error err))
    else (λ k, k))
  (check (mount "/dev/null" "/etc/nsswitch.conf")
        (λ err, errorString ("bind mount to " +:+ fmt_q P "/etc/nsswitch.conf"
                             +:+ " failed: " +:+ Error err))
  (ret None))))).

(** The body of the goroutine: what it sends on [chErr], and the value of
    [executed] when it has sent it.  The caller blocks on [<-chErr], so the
    goroutine has run to its end when the caller goes on. *)
Definition sandboxed (n : NetNS P) (lockFile : string) (f : M error)
  : M (error * bool) :=
  LockOSThread ;;;
  err <- setupSandbox n lockFile ;;
  match err with
  | Some err => ret (Some err, false)
  | None => err <- f ;; ret (err, true)
  end.

Definition runInSandbox (lockFile : string) (f : M error) : M error :=
  r <- GetCurrentNS ;;
  match r with
  | inr nerr => ret (Some (Errorf "failed to get current namespace" nerr))
  | inl n =>
      r <- sandboxed n lockFile f ;;
      let '(err, executed) := r in
      match err with
      | Some e =>
          if negb executed then
            logf WarnLevel
              ("failed to setup execution environment, attempting to continue anyways: "
               +:+ Error e) ;;;
            f
          else ret err
      | None => ret err
      end
  end.

(** ** executeXTables *)

(** [XTablesWriteCmds] and [transformToXTablesErrorMessage] are declared
    in another file of the package: they are parameters here. *)
Context (XTablesWriteCmds : gset string).
Context (transformToXTablesErrorMessage : string → GoError → string).

(** The closure [run]: the command is run as it is, or through
    [runInSandbox] with the lock file the closure has captured. *)
Inductive Runner : Type :=
  | RunDirect
  | RunInSandbox (lockFile : string).

Definition run (how : Runner) (c : Cmd P) : M error :=
  match how with
  | RunDirect => Cmd_Run c
  | RunInSandbox lockFile => runInSandbox lockFile (Cmd_Run c)
  end.

(** The values of [mode], [c], [args] and [run] when [executeXTables]
    reaches its logging of the command line. *)
Record Invocation : Type := mkInvocation {
  inv_mode : string;
  inv_c : Cmd P;
  inv_args : list string;
  inv_run : Runner;
}.

Definition isWriteCommand (cmd : string) : bool :=
  bool_decide (cmd ∈ XTablesWriteCmds).

Definition needLock (r : RealDependencies) (cmd : string) : bool :=
  isWriteCommand cmd && negb (NoLocks (IptablesVersion r)).

(** The first part of [executeXTables], from [mode := "without lock"] to
    the end of the [if r.CNIMode] block: the choice of the mode, of the
    command, of its arguments and of the closure [run]. *)
Definition prepare (r : RealDependencies) (cmd : string) (args : list string)
  : Invocation :=
  let mode := "without lock" in
  if CNIMode r then
    let c := exec_Command cmd args in
    let lockFile := "" in
    if needLock r cmd then
      if LessThan (version (IptablesVersion r)) IptablesLockfileEnv then
        mkInvocation "without lock by mount and nss" c args
                     (RunInSandbox (NetworkNamespace r))
      else
        mkInvocation "without lock by env and nss"
                     (with_Env c (Env c ++
                        ["XTABLES_LOCKFILE=" +:+ NetworkNamespace r]))
                     args (RunInSandbox lockFile)
    else
      mkInvocation "without nss" c args (RunInSandbox lockFile)
  else
    if needLock r cmd then
      let args := args ++ ["--wait=30"] in
      let c := exec_Command cmd args in
      mkInvocation "with wait lock" c args RunDirect
    else
      mkInvocation mode (exec_Command cmd args) args RunDirect.

Definition executeXTables (r : RealDependencies) (cmd : string)
    (ignoreErrors : bool) (stdin : option (Reader P)) (args : list string)
  : M error :=
  let i := prepare r cmd args in
  when (negb (CNIMode r) && needLock r cmd)
       (logf DebugLevel "running with lock") ;;;
  logf InfoLevel ("Running command (" +:+ inv_mode i +:+ "): " +:+ cmd
                  +:+ " " +:+ Join (inv_args i) " ") ;;;
  stdout <- newBuffer ;;
  stderr <- newBuffer ;;
  let c := with_streams (inv_c i) stdout stderr stdin in
  err <- run (inv_run i) c ;;
  out <- Buffer_String stdout ;;
  when (negb (String.length out =? 0)%nat)
       (logf InfoLevel ("Command output: " +:+ newline +:+ out)) ;;;
  stderrStr <- Buffer_String stderr ;;
  when ((bool_decide (err ≠ None) || negb (String.length stderrStr =? 0)%nat)
        && negb ignoreErrors)
       (let stderrStr :=
          match err with
          | Some e => transformToXTablesErrorMessage stderrStr e
          | None => stderrStr
          end in
        logf ErrorLevel ("Command error output: " +:+ stderrStr)) ;;;
  ret err.

(** ** The steps of the sandbox setup, one by one

    The calls [setupSandbox] makes, in the order it makes them; the step
    that mounts over the lock file is there when a lock file was given. *)
Definition setup_calls (lockFile : string) : list Syscall :=
  [ScUnshare CLONE_NEWNS; ScSetNS;
   ScMount "" "/" "" (Z.lor MS_PRIVATE MS_REC) ""]
  ++ (if decide (lockFile ≠ "")
      then [ScMount lockFile "/run/xtables.lock" "" (Z.lor MS_BIND MS_RDONLY) ""]
      else [])
  ++ [ScMount "/dev/null" "/etc/nsswitch.conf" "" (Z.lor MS_BIND MS_RDONLY) ""].

(** What the host answers to one call of the setup. *)
Definition perform (n : NetNS P) (c : Syscall) (w : World P)
  : error * World P :=
  match c with
  | ScUnshare flags => host_Unshare P flags w
  | ScSetNS => host_SetNS P n w
  | ScMount source target fstype flags data =>
      host_Mount P source target fstype flags data w
  | ScLockOSThread => (None, host_LockOSThread P w)
  | ScGetCurrentNS =>
      let '(r, w') := host_GetCurrentNS P w in
      (match r with inl _ => None | inr e => Some e end, w')
  end.

(** The host after the calls [cs], when each of them has succeeded. *)
Fixpoint succeed (n : NetNS P) (cs : list Syscall) (w : World P)
  : option (World P) :=
  match cs with
  | [] => Some w
  | c :: cs' =>
      match perform n c w with
      | (None, w') => succeed n cs' w'
      | (Some _, _) => None
      end
  end.

(** The calls of the kernel a runner may make, in order. *)
Definition sandbox_calls (how : Runner) : list Syscall :=
  match how with
  | RunDirect => []
  | RunInSandbox lockFile =>
      ScGetCurrentNS :: ScLockOSThread :: setup_calls lockFile
  end.

(** The lines [executeXTables] logs before it runs the command. *)
Definition announce (r : RealDependencies) (cmd : string)
    (args : list string) : list Event :=
  (if negb (CNIMode r) && needLock r cmd
   then [EvLog DebugLevel "running with lock"] else [])
  ++ [EvLog InfoLevel
        ("Running command (" +:+ inv_mode (prepare r cmd args) +:+ "): "
         +:+ cmd +:+ " " +:+ Join (inv_args (prepare r cmd args)) " ")].

(** The environment entry [execute] derives from a key of the store. *)
Definition config_entry (w : World P) (k : string) : option string :=
  match host_Get P k w with
  | Some v => Some (ToUpper (repl_Replace k) +:+ "=" +:+ fmt_v P v)
  | None => None
  end.

(** The environment as the specification words it: the key upper-cased
    with every character that is neither a letter nor a digit turned into
    an underscore, the value as a string, and the pairs with an absent or
    an empty value left out. *)
Definition is_alphanumeric (c : ascii) : bool :=
  let n := N_of_ascii c in
  ((48 <=? n) && (n <=? 57) || (65 <=? n) && (n <=? 90)
   || (97 <=? n) && (n <=? 122))%N.

Definition claimed_name (k : string) : string :=
  string_map (λ c, if is_alphanumeric c then upper_ascii c else "_"%char) k.

Definition claimed_entry (w : World P) (k : string) : option string :=
  match host_Get P k w with
  | Some v =>
      if decide (fmt_v P v = "") then None
      else Some (claimed_name k +:+ "=" +:+ fmt_v P v)
  | None => None
  end.

Definition claimed_environment (w : World P) : list string :=
  omap (claimed_entry w) (host_AllKeys P w).

(** The setup written as a list of steps: each call with the wrapping of
    its error. *)
Definition setup_steps (lockFile : string)
  : list (Syscall * (GoError → GoError)) :=
  [(ScUnshare CLONE_NEWNS, Errorf "failed to unshare to new mount namespace");
   (ScSetNS, Errorf "failed to reset network namespace");
   (ScMount "" "/" "" (Z.lor MS_PRIVATE MS_REC) "",
    Errorf "failed to remount /")]
  ++ (if decide (lockFile ≠ "")
      then [(ScMount lockFile "/run/xtables.lock" ""
               (Z.lor MS_BIND MS_RDONLY) "",
             λ err, errorString ("bind mount of " +:+ fmt_q P lockFile
                                 +:+ " failed: " +:+ Error err))]
      else [])
  ++ [(ScMount "/dev/null" "/etc/nsswitch.conf" ""
         (Z.lor MS_BIND MS_RDONLY) "",
       λ err, errorString ("bind mount to " +:+ fmt_q P "/etc/nsswitch.conf"
                           +:+ " failed: " +:+ Error err))].

Fixpoint run_steps (n : NetNS P)
    (steps : list (Syscall * (GoError → GoError))) : M error :=
  match steps with
  | [] => ret None
  | (c, wrap) :: steps' =>
      check (call (λ _, EvSyscall c) (perform n c)) wrap (run_steps n steps')
  end.

End dependencies.

Arguments M : clear implicits.
Arguments ToUpper : clear implicits.
Arguments Invocation : clear implicits.
Arguments announce : clear implicits.

(** ** A scripted host

    A host whose answers are read off a script: which calls fail and with
    which error, what the external command gives, what the configuration
    store holds.  The lemmas on concrete runs are stated on it. *)
Module Sim.

Record Host : Type := {
  getns_err : error;
  unshare_err : error;
  setns_err : error;
  remount_err : error;
  lockmount_err : error;
  nssmount_err : error;
  run_err : error;
  run_stdout : string;
  run_stderr : string;
  config : list (string * option string);
}.

Fixpoint lookup_config (k : string) (cfg : list (string * option string))
  : option string :=
  match cfg with
  | [] => None
  | (k', v) :: cfg' => if String.eqb k k' then v else lookup_config k cfg'
  end.

Definition quote (s : string) : string :=
  String (ascii_of_nat 34) s +:+ String (ascii_of_nat 34) "".

Definition platform : Platform := {|
  World := Host;
  NetNS := unit;
  Reader := string;
  any := string;
  host_GetCurrentNS w :=
    (match getns_err w with Some e => inr e | None => inl tt end, w);
  host_SetNS _ w := (setns_err w, w);
  host_Unshare _ w := (unshare_err w, w);
  host_Mount _ target _ _ _ w :=
    (if decide (target = "/") then remount_err w
     else if decide (target = "/run/xtables.lock") then lockmount_err w
     else nssmount_err w, w);
  host_LockOSThread w := w;
  host_Run _ _ _ w := ((run_err w, run_stdout w, run_stderr w), w);
  host_AllKeys w := (config w).*1;
  host_Get k w := lookup_config k (config w);
  fmt_v v := v;
  fmt_q := quote;
  unicode_ToUpper s := s;
|}.

Definition EPERM : GoError := errorString "operation not permitted".
Definition exit1 : GoError := errorString "exit status 1".

(** A host where every call succeeds and the command gives [err]. *)
Definition host (err : error) : Host := {|
  getns_err := None; unshare_err := None; setns_err := None;
  remount_err := None; lockmount_err := None; nssmount_err := None;
  run_err := err; run_stdout := ""; run_stderr := ""; config := [];
|}.

Definition unshare_denied (err : error) : Host := {|
  getns_err := None; unshare_err := Some EPERM; setns_err := None;
  remount_err := None; lockmount_err := None; nssmount_err := None;
  run_err := err; run_stdout := ""; run_stderr := ""; config := [];
|}.

Definition getns_denied (err : error) : Host := {|
  getns_err := Some EPERM; unshare_err := None; setns_err := None;
  remount_err := None; lockmount_err := None; nssmount_err := None;
  run_err := err; run_stdout := ""; run_stderr := ""; config := [];
|}.

Definition configured (cfg : list (string * option string)) : Host := {|
  getns_err := None; unshare_err := None; setns_err := None;
  remount_err := None; lockmount_err := None; nssmount_err := None;
  run_err := None; run_stdout := ""; run_stderr := ""; config := cfg;
|}.

Definition writeCmds : gset string :=
  {[ "iptables"; "ip6tables"; "iptables-restore"; "ip6tables-restore" ]}.

Definition translate (stderrStr : string) (err : GoError) : string :=
  "hint: " +:+ stderrStr +:+ Error err.

Definition deps (v : list N) (cni : bool) : RealDependencies := {|
  IptablesVersion := {| version := generic v |};
  NetworkNamespace := "/var/run/netns/pod1";
  CNIMode := cni;
|}.

(** An operation that gives what the script says. *)
Definition op : World platform → error * World platform :=
  λ w, (run_err w, w).

Definition start (w : Host) : State platform := mkState (P:=platform) w [] [].

End Sim.

(** * The post-install verifier (package [verifier])

    [StatusVerifier] checks, against the cluster, the resources of an
    installation.  The cluster, the objects of the Kubernetes libraries and
    the functions of the other packages are what [Cluster] holds; the logger
    of the verifier is the list of the lines it was handed. *)
Module verifier.

(** ** Go values *)

(** [int] on a 64-bit platform: a sum wraps around. *)
Definition wrap (z : Z) : Z := (z + 2 ^ 63) mod 2 ^ 64 - 2 ^ 63.

Definition int_add (a b : Z) : Z := wrap (a + b).

Definition incr (a : Z) : Z := int_add a 1.

(** [m[k]] on a map of strings: the empty string when the key is absent. *)
Definition index (m : gmap string string) (k : string) : string :=
  default "" (m !! k).

(** [%v] on an [error]. *)
Definition fmt_error (err : error) : string :=
  match err with
  | Some e => Error e
  | None => "<nil>"
  end.

Definition dquote : string := String (ascii_of_nat 34) "".

(** What [strings.ToLower] does to a byte of a string of ASCII characters:
    [if 'A' <= c && c <= 'Z' { c += 'a' - 'A' }]. *)
Definition lower_ascii (c : ascii) : ascii :=
  let n := N_of_ascii c in
  if (65 <=? n)%N && (n <=? 90)%N then ascii_of_N (n + 32) else c.

(** [strings.HasPrefix(s, prefix)] *)
Definition HasPrefix (s prefix : string) : bool := String.prefix prefix s.

(** [label.IoIstioRev.Name], of istio.io/api. *)
Definition IoIstioRev_Name : string := "istio.io/rev".

(** What is read of a pod and of a webhook configuration: the labels of
    [ObjectMeta] (and the name of the webhook, to tell two apart). *)
Record Pod : Type := { pod_Labels : gmap string string }.

Record MutatingWebhookConfiguration : Type := {
  hook_Name : string;
  hook_Labels : gmap string string;
}.

(** A line handed to the logger, by [LogAndPrintf] or by [LogAndErrorf]. *)
Inductive Line : Type :=
  | Printed (msg : string)
  | Errored (msg : string).

(** ** The cluster and the other packages *)

Record Cluster : Type := {
  CWorld : Type;
  IstioOperator : Type;
  Unstructured : Type;
  GroupVersionKind : Type;
  Info : Type;
  Deployment : Type;
  Job : Type;
  DaemonSet : Type;
  (** [*v1alpha1.IstioOperator]: [iop.Spec.Revision], [iop.GetName()],
      [iop.Spec.InstallPackagePath = path], [v1alpha1.Namespace(iop.Spec)],
      [v1alpha1.SetNamespace(iop.Spec, ns)] *)
  iop_Revision : IstioOperator → string;
  iop_GetName : IstioOperator → string;
  iop_SetInstallPackagePath : string → IstioOperator → IstioOperator;
  iop_Namespace : IstioOperator → string;
  iop_SetNamespace : string → IstioOperator → IstioOperator;
  (** [*unstructured.Unstructured] *)
  un_GetKind : Unstructured → string;
  un_GetName : Unstructured → string;
  un_GetNamespace : Unstructured → string;
  un_GroupVersionKind : Unstructured → GroupVersionKind;
  un_SetCreationTimestamp_zero : Unstructured → Unstructured;
  un_SetManagedFields_empty : Unstructured → Unstructured;
  (** functions of other files and packages *)
  findResourceInSpec : GroupVersionKind → string;
  (** [util.ToYAML(un)] and [util.ToYAML(un.Object)] *)
  util_ToYAML : Unstructured → string;
  util_ToYAML_Object : Unstructured → string;
  UnmarshalIstioOperator : string → bool → IstioOperator + GoError;
  manifest_GetProfile : IstioOperator → string;
  yaml_Marshal : IstioOperator → string + GoError;
  verifyDeploymentStatus : Deployment → error;
  verifyJobPostInstall : Job → error;
  verifyDaemonSetStatus : DaemonSet → error;
  multierror_Error : list GoError → string;
  ToUnstructured : Info → Unstructured + GoError;
  fmt_q : string → string;
  (** [strings.Map(unicode.ToLower, s)]: what [strings.ToLower] gives for a
      string that holds a byte outside ASCII *)
  unicode_ToLower : string → string;
  (** calls that reach the cluster *)
  client_PodsForSelector :
    string → string → CWorld → (list Pod + GoError) * CWorld;
  client_ListMutatingWebhookConfigurations :
    CWorld → (list MutatingWebhookConfiguration + GoError) * CWorld;
  dynamic_List : CWorld → (list Unstructured + GoError) * CWorld;
  (** [manifest.GetMergedIOP] is handed the client and the logger *)
  manifest_GetMergedIOP :
    string → string → string → string → CWorld * list Line →
    (IstioOperator + GoError) * (CWorld * list Line);
  (** [info.Client.Get().Resource(kinds).Namespace(ns).Name(name)
      .VersionedParams(...).Do(ctx).Into(obj)] for each typed object, and
      [info.Client.Get().Resource(kinds)[.Namespace(ns)].Name(name)
      .Do(ctx).Error()]; the namespace is [None] when it is not set *)
  get_Deployment :
    Info → string → string → string → CWorld →
    (Deployment + GoError) * CWorld;
  get_Job :
    Info → string → string → string → CWorld → (Job + GoError) * CWorld;
  get_DaemonSet :
    Info → string → string → string → CWorld →
    (DaemonSet + GoError) * CWorld;
  get_Error : Info → string → option string → string → CWorld → error * CWorld;
}.

(** The fields of [StatusVerifier] other than the client and the logger;
    [Revision] is [controlPlaneOpts.Revision]. *)
Record StatusVerifier (C : Cluster) : Type := mkStatusVerifier {
  istioNamespace : string;
  manifestsPath : string;
  filenames : list string;
  Revision : string;
  iop : option (IstioOperator C);
  successMarker : string;
  failureMarker : string;
}.

Arguments mkStatusVerifier {C} _ _ _ _ _ _ _.
Arguments istioNamespace {C} _.
Arguments manifestsPath {C} _.
Arguments filenames {C} _.
Arguments Revision {C} _.
Arguments iop {C} _.
Arguments successMarker {C} _.
Arguments failureMarker {C} _.

Record VState (C : Cluster) : Type := mkVState {
  cluster : CWorld C;
  output : list Line;
}.

Arguments mkVState {C} _ _.
Arguments cluster {C} _.
Arguments output {C} _.

(** The counters of [verifyPostInstall]. *)
Record Counters : Type := mkCounters {
  crdCount : Z;
  istioDeploymentCount : Z;
  daemonSetCount : Z;
}.

(** [specialKinds] is a map of special kinds to their corresponding kind
    names, which do not follow the standard convention of pluralizing the
    kind name. *)
Definition specialKinds : gmap string string :=
  {[ "NetworkAttachmentDefinition" := "network-attachment-definitions" ]}.

Section with_cluster.

Context {C : Cluster}.

Definition V (A : Type) : Type := VState C → A * VState C.

Definition vret {A} (a : A) : V A := λ s, (a, s).

Definition vbind {A B} (m : V A) (k : A → V B) : V B :=
  λ s, let '(a, s') := m s in k a s'.

Notation "x <- m ;; k" := (vbind m (λ x, k))
  (at level 100, m at next level, right associativity).
Notation "m ;;; k" := (vbind m (λ _, k))
  (at level 100, right associativity).

Definition reach {A} (op : CWorld C → A * CWorld C) : V A :=
  λ s, let '(a, w) := op (cluster s) in (a, mkVState w (output s)).

Definition reach_and_log {A}
    (op : CWorld C * list Line → A * (CWorld C * list Line)) : V A :=
  λ s, let '(a, (w, out)) := op (cluster s, output s) in (a, mkVState w out).

Definition LogAndPrintf (msg : string) : V unit :=
  λ s, (tt, mkVState (cluster s) (output s ++ [Printed msg])).

Definition LogAndErrorf (msg : string) : V unit :=
  λ s, (tt, mkVState (cluster s) (output s ++ [Errored msg])).

(** ** getRevision *)

Definition rev_of_pod (pod : Pod) : string :=
  index (pod_Labels pod) IoIstioRev_Name.

(** The loop over [pods.Items]: the values of [revision] and [revCount]
    when it ends. *)
Fixpoint getRevision_loop (items : list Pod) (revision : string)
    (revCount : Z) : string * Z :=
  match items with
  | [] => (revision, revCount)
  | pod :: items' =>
      let rev := rev_of_pod pod in
      let revCount := incr revCount in
      if decide (rev = "default")
      then getRevision_loop items' revision revCount
      else getRevision_loop items' rev revCount
  end.

Definition getRevision (v : StatusVerifier C) : V (string * error) :=
  r <- reach (client_PodsForSelector C (istioNamespace v) "app=istiod") ;;
  match r with
  | inr err =>
      vret ("", Some (errorString ("failed to fetch istiod pod, error: "
                                   +:+ Error err)))
  | inl pods =>
      let '(revision, revCount) := getRevision_loop pods "" 0 in
      let revs := if decide (revision = "") then "default" else revision in
      LogAndPrintf (pretty revCount
                    +:+ " Istio control planes detected, checking --revision "
                    +:+ fmt_q C revs +:+ " only") ;;;
      vret (revision, None)
  end.

(** ** injectorFromCluster *)

Definition rev_of_hook (hook : MutatingWebhookConfiguration) : string :=
  index (hook_Labels hook) IoIstioRev_Name.

(** The loop over [hooks.Items]: the values of [revision], [revCount] and
    [hookmatch] when it ends. *)
Fixpoint injector_loop (items : list MutatingWebhookConfiguration)
    (revision : string) (revCount : Z)
    (hookmatch : option MutatingWebhookConfiguration)
  : string * Z * option MutatingWebhookConfiguration :=
  match items with
  | [] => (revision, revCount, hookmatch)
  | hook :: items' =>
      let rev := rev_of_hook hook in
      if decide (rev ≠ "") then
        let revCount := incr revCount in
        let revision := rev in
        let hookmatch :=
          if decide (revision = "" ∨ revision = rev)
          then Some hook else hookmatch in
        injector_loop items' revision revCount hookmatch
      else injector_loop items' revision revCount hookmatch
  end.

Definition injectorFromCluster (v : StatusVerifier C) (revision : string)
  : V (option MutatingWebhookConfiguration * error) :=
  r <- reach (client_ListMutatingWebhookConfigurations C) ;;
  match r with
  | inr err => vret (None, Some err)
  | inl hooks =>
      let '(revision, revCount, hookmatch) :=
        injector_loop hooks revision 0 None in
      LogAndPrintf (pretty revCount +:+ " Istio injectors detected") ;;;
      match hookmatch with
      | Some hook => vret (Some hook, None)
      | None =>
          vret (None, Some (errorString ("Istio injector revision "
                                         +:+ fmt_q C revision
                                         +:+ " not found")))
      end
  end.

(** ** AllOperatorsInCluster and operatorsFromCluster *)

Definition fixTimestampRelatedUnmarshalIssues (un : Unstructured C)
  : Unstructured C :=
  un_SetManagedFields_empty C (un_SetCreationTimestamp_zero C un).

(** The loop over [ul.Items], [retval] being what has been gathered. *)
Fixpoint unmarshal_items (items : list (Unstructured C))
    (retval : list (IstioOperator C)) : list (IstioOperator C) + GoError :=
  match items with
  | [] => inl retval
  | un :: items' =>
      let un := fixTimestampRelatedUnmarshalIssues un in
      let by_ := util_ToYAML_Object C un in
      match UnmarshalIstioOperator C by_ true with
      | inr err => inr err
      | inl iop => unmarshal_items items' (retval ++ [iop])
      end
  end.

Definition AllOperatorsInCluster : V (list (IstioOperator C) + GoError) :=
  r <- reach (dynamic_List C) ;;
  match r with
  | inr err => vret (inr err)
  | inl items => vret (unmarshal_items items [])
  end.

(** The condition under which [operatorsFromCluster] keeps an operator. *)
Definition revision_matches (specRevision revision : string) : bool :=
  bool_decide (specRevision = revision)
  || (bool_decide (specRevision = "default") && bool_decide (revision = ""))
  || (bool_decide (specRevision = "") && bool_decide (revision = "default")).

Fixpoint operators_loop (iops iopsMatch : list (IstioOperator C))
    (revision : string) : list (IstioOperator C) :=
  match iops with
  | [] => iopsMatch
  | iop :: iops' =>
      if revision_matches (iop_Revision C iop) revision
      then operators_loop iops' (iopsMatch ++ [iop]) revision
      else operators_loop iops' iopsMatch revision
  end.

Definition operatorsFromCluster (v : StatusVerifier C) (revision : string)
  : V (list (IstioOperator C) + GoError) :=
  r <- AllOperatorsInCluster ;;
  match r with
  | inr err => vret (inr err)
  | inl iops =>
      let iopsMatch := operators_loop iops [] revision in
      if (0 <? length iopsMatch)%nat then vret (inl iopsMatch)
      else vret (inr (errorString ("control plane revision "
                                   +:+ fmt_q C revision +:+ " not found")))
  end.

(** ** reportStatus, reportFailure, istioVerificationFailureError *)

Definition reportStatus (v : StatusVerifier C)
    (crdCount istioDeploymentCount daemonSetCount : Z) (err : error)
  : V error :=
  LogAndPrintf ("Checked " +:+ pretty crdCount
                +:+ " custom resource definitions") ;;;
  LogAndPrintf ("Checked " +:+ pretty istioDeploymentCount
                +:+ " Istio Deployments") ;;;
  (if (0 <? daemonSetCount)%Z
   then LogAndPrintf ("Checked " +:+ pretty daemonSetCount
                      +:+ " Istio Daemonsets")
   else vret tt) ;;;
  if (istioDeploymentCount =? 0)%Z then
    (match err with
     | Some e => LogAndPrintf ("! No Istio installation found: " +:+ Error e)
     | None => LogAndPrintf "! No Istio installation found"
     end) ;;;
    vret (Some (errorString "no Istio installation found"))
  else
    match err with
    | Some _ => vret (Some (errorString "Istio installation failed"))
    | None =>
        LogAndPrintf (successMarker v
                      +:+ " Istio is installed and verified successfully") ;;;
        vret None
    end.

Definition istioVerificationFailureError (filename : string)
    (reason : error) : GoError :=
  errorString ("Istio installation failed, incomplete or does not match "
               +:+ dquote +:+ filename +:+ dquote +:+ ": "
               +:+ fmt_error reason).

Definition reportFailure (v : StatusVerifier C)
    (kind name namespace : string) (err : error) : V unit :=
  LogAndPrintf (failureMarker v +:+ " " +:+ kind +:+ ": " +:+ name +:+ "."
                +:+ namespace +:+ ": " +:+ fmt_error err).

(** ** resourceKinds *)

(** [strings.ToLower]: a string of ASCII characters has its letters A to Z
    turned into a to z, byte by byte; any other string goes through the
    mapping of package [unicode]. *)
Definition ToLower (s : string) : string :=
  if isASCII s then string_map lower_ascii s else unicode_ToLower C s.

Definition resourceKinds (un : Unstructured C) : string :=
  let kinds := findResourceInSpec C (un_GroupVersionKind C un) in
  let kinds :=
    if decide (kinds = "") then ToLower (un_GetKind C un) +:+ "s"
    else kinds in
  match specialKinds !! un_GetKind C un with
  | Some specialKind => specialKind
  | None => kinds
  end.

(** ** verifyPostInstall *)

(** [verifyPostInstallIstioOperator] renders the manifests of an operator
    with the operator packages and comes back to [verifyPostInstall] with
    them: it is taken as it comes, whatever it does. *)
Context (verifyPostInstallIstioOperator :
           IstioOperator C → string → V (Z * Z * Z * error)).

(** The line that ends the visit of a resource that is as it should. *)
Definition success_line (v : StatusVerifier C) (kind name namespace : string)
  : string :=
  successMarker v +:+ " " +:+ kind +:+ ": " +:+ name +:+ "." +:+ namespace
  +:+ " checked successfully".

(** The function handed to [visitor.Visit], [n] being the counters when it
    is called; it gives the error it returns and the counters it leaves. *)
Definition visit (v : StatusVerifier C) (filename : string) (info : Info C)
    (err : error) (n : Counters) : V (error * Counters) :=
  match err with
  | Some e => vret (Some e, n)
  | None =>
  match ToUnstructured C info with
  | inr e => vret (Some e, n)
  | inl un =>
    let kind := un_GetKind C un in
    let name := un_GetName C un in
    let namespace := un_GetNamespace C un in
    let kinds := resourceKinds un in
    let namespace :=
      if decide (namespace = "") then istioNamespace v else namespace in
    (** the switch gives the error to return, if any, and the counters *)
    r <-
      (if decide (kind = "Deployment") then
         r <- reach (get_Deployment C info kinds namespace name) ;;
         match r with
         | inr e =>
             reportFailure v kind name namespace (Some e) ;;;
             vret (Some e, n)
         | inl deployment =>
             match verifyDeploymentStatus C deployment with
             | Some e =>
                 let ivf := istioVerificationFailureError filename (Some e) in
                 reportFailure v kind name namespace (Some ivf) ;;;
                 vret (Some ivf, n)
             | None =>
                 if bool_decide (namespace = istioNamespace v)
                    && HasPrefix name "istio"
                 then vret (None,
                            mkCounters (crdCount n)
                              (incr (istioDeploymentCount n))
                              (daemonSetCount n))
                 else vret (None, n)
             end
         end
       else if decide (kind = "Job") then
         r <- reach (get_Job C info kinds namespace name) ;;
         match r with
         | inr e =>
             reportFailure v kind name namespace (Some e) ;;;
             vret (Some e, n)
         | inl job =>
             match verifyJobPostInstall C job with
             | Some e =>
                 let ivf := istioVerificationFailureError filename (Some e) in
                 reportFailure v kind name namespace (Some ivf) ;;;
                 vret (Some ivf, n)
             | None => vret (None, n)
             end
         end
       else if decide (kind = "IstioOperator") then
         let un := fixTimestampRelatedUnmarshalIssues un in
         let by_ := util_ToYAML C un in
         match UnmarshalIstioOperator C by_ true with
         | inr e =>
             reportFailure v kind name namespace (Some e) ;;;
             vret (Some e, n)
         | inl unmergedIOP =>
             let profile := manifest_GetProfile C unmergedIOP in
             r <- reach_and_log (manifest_GetMergedIOP C by_ profile
                                   (manifestsPath v) (Revision v)) ;;
             match r with
             | inr e =>
                 reportFailure v kind name namespace (Some e) ;;;
                 vret (Some e, n)
             | inl iop =>
                 let iop :=
                   if decide (manifestsPath v ≠ "")
                   then iop_SetInstallPackagePath C (manifestsPath v) iop
                   else iop in
                 let iop :=
                   if decide (iop_Namespace C iop = "")
                   then iop_SetNamespace C (istioNamespace v) iop
                   else iop in
                 g <- verifyPostInstallIstioOperator iop filename ;;
                 let '(generatedCrds, generatedDeployments,
                       generatedDaemonSets, err) := g in
                 vret (err,
                       mkCounters
                         (int_add (crdCount n) generatedCrds)
                         (int_add (istioDeploymentCount n)
                            generatedDeployments)
                         (int_add (daemonSetCount n) generatedDaemonSets))
             end
         end
       else if decide (kind = "DaemonSet") then
         r <- reach (get_DaemonSet C info kinds namespace name) ;;
         match r with
         | inr e =>
             reportFailure v kind name namespace (Some e) ;;;
             vret (Some e, n)
         | inl ds =>
             let n := mkCounters (crdCount n) (istioDeploymentCount n)
                        (incr (daemonSetCount n)) in
             match verifyDaemonSetStatus C ds with
             | Some e =>
                 let ivf := istioVerificationFailureError filename (Some e) in
                 reportFailure v kind name namespace (Some ivf) ;;;
                 vret (Some ivf, n)
             | None => vret (None, n)
             end
         end
       else
         e1 <- reach (get_Error C info kinds None name) ;;
         found <-
           (match e1 with
            | None => vret None
            | Some _ => reach (get_Error C info kinds (Some namespace) name)
            end) ;;
         match found with
         | Some e =>
             reportFailure v kind name namespace (Some e) ;;;
             vret (Some (istioVerificationFailureError filename
                           (Some (errorString
                                    ("the required " +:+ kind +:+ ":"
                                     +:+ name +:+ " is not ready due to: "
                                     +:+ Error e)))),
                   n)
         | None =>
             if decide (kind = "CustomResourceDefinition")
             then vret (None,
                        mkCounters (incr (crdCount n))
                          (istioDeploymentCount n) (daemonSetCount n))
             else vret (None, n)
         end) ;;
    let '(err, n) := r in
    match err with
    | Some e => vret (Some e, n)
    | None =>
        LogAndPrintf (success_line v kind name namespace) ;;;
        vret (None, n)
    end
  end
  end.

(** A [resource.Visitor]: it is handed the function and the counters the
    function works on. *)
Definition Visitor : Type :=
  (Info C → error → Counters → V (error * Counters)) →
  Counters → V (error * Counters).

Definition verifyPostInstall (v : StatusVerifier C) (visitor : Visitor)
    (filename : string) : V (Z * Z * Z * error) :=
  r <- visitor (visit v filename) (mkCounters 0 0 0) ;;
  let '(err, n) := r in
  vret (crdCount n, istioDeploymentCount n, daemonSetCount n, err).

(** ** verifyInstallIOPRevision *)

(** [multiErr.ErrorOrNil()] *)
Definition ErrorOrNil (errs : list GoError) : error :=
  match errs with
  | [] => None
  | _ => Some (errorString (multierror_Error C errs))
  end.

(** The loop over the operators of the cluster: an error of the rendering
    ends it, an error of the verification is kept and the loop goes on. *)
Fixpoint verify_operators (v : StatusVerifier C)
    (iops : list (IstioOperator C)) (crdTotal istioDeploymentTotal
    daemonSetTotal : Z) (multiErr : list GoError)
  : V (GoError + (Z * Z * Z * list GoError)) :=
  match iops with
  | [] =>
      vret (inr (crdTotal, istioDeploymentTotal, daemonSetTotal, multiErr))
  | iop :: iops' =>
      let iop :=
        if decide (manifestsPath v ≠ "")
        then iop_SetInstallPackagePath C (manifestsPath v) iop else iop in
      let profile := manifest_GetProfile C iop in
      match yaml_Marshal C iop with
      | inr err => vret (inl err)
      | inl by_ =>
          r <- reach_and_log (manifest_GetMergedIOP C by_ profile
                                (manifestsPath v) (Revision v)) ;;
          match r with
          | inr err => vret (inl err)
          | inl mergedIOP =>
              g <- verifyPostInstallIstioOperator mergedIOP
                     ("in cluster operator " +:+ iop_GetName C mergedIOP) ;;
              let '(crdCount, istioDeploymentCount, daemonSetCount, err) :=
                g in
              let multiErr :=
                match err with
                | Some e => multiErr ++ [e]
                | None => multiErr
                end in
              verify_operators v iops'
                (int_add crdTotal crdCount)
                (int_add istioDeploymentTotal istioDeploymentCount)
                (int_add daemonSetTotal daemonSetCount) multiErr
          end
      end
  end.

Definition with_Revision (v : StatusVerifier C) (revision : string)
  : StatusVerifier C :=
  mkStatusVerifier (istioNamespace v) (manifestsPath v) (filenames v)
    revision (iop v) (successMarker v) (failureMarker v).

(** It gives the error it returns and the verifier as it leaves it: it
    assigns [v.controlPlaneOpts.Revision]. *)
Definition verifyInstallIOPRevision (v : StatusVerifier C)
  : V (error * StatusVerifier C) :=
  r <-
    (if decide (Revision v = "") then
       g <- getRevision v ;;
       let '(revision, err) := g in
       vret (err, with_Revision v revision)
     else if decide (Revision v = "default") then
       vret (None, with_Revision v "")
     else vret (None, v)) ;;
  let '(err, v) := r in
  match err with
  | Some e => vret (Some e, v)
  | None =>
      r <- operatorsFromCluster v (Revision v) ;;
      match r with
      | inr err =>
          LogAndErrorf ("error while fetching revision " +:+ Revision v
                        +:+ ": " +:+ Error err) ;;;
          g <- injectorFromCluster v (Revision v) ;;
          let '(injector, err2) := g in
          match err2, injector with
          | None, Some _ =>
              vret (Some (errorString
                            "Istio present but verify-install needs an IstioOperator or manifest for comparison. Supply flag --filename <yaml>"),
                    v)
          | _, _ =>
              vret (Some (errorString
                            ("could not load IstioOperator from cluster: "
                             +:+ Error err +:+ ". Use --filename")),
                    v)
          end
      | inl iops =>
          r <- verify_operators v iops 0 0 0 [] ;;
          match r with
          | inl err => vret (Some err, v)
          | inr (crdTotal, istioDeploymentTotal, daemonSetTotal, multiErr) =>
              err <- reportStatus v crdTotal istioDeploymentTotal
                       daemonSetTotal (ErrorOrNil multiErr) ;;
              vret (err, v)
          end
      end
  end.

End with_cluster.

Arguments V : clear implicits.
Arguments ToLower : clear implicits.
Arguments Visitor : clear implicits.

(** ** A scripted cluster

    A cluster whose answers are read off a script; a resource says of
    itself whether the cluster holds it and whether it is ready, and an
    operator is the text of its revision. *)
Record Resource : Type := mkResource {
  r_kind : string;
  r_name : string;
  r_namespace : string;
  r_text : string;
  r_found : bool;
  r_ready : bool;
}.

Record Script : Type := mkScript {
  script_pods : list Pod + GoError;
  script_hooks : list MutatingWebhookConfiguration + GoError;
  script_operators : list Resource + GoError;
}.

Definition NotFound : GoError := errorString "not found".
Definition NotReady : GoError := errorString "not ready".

Definition ready (b : bool) : error := if b then None else Some NotReady.

Definition fetch (r : Resource) : bool + GoError :=
  if r_found r then inl (r_ready r) else inr NotFound.

Definition scripted : Cluster := {|
  CWorld := Script;
  IstioOperator := string;
  Unstructured := Resource;
  GroupVersionKind := string;
  Info := Resource;
  Deployment := bool;
  Job := bool;
  DaemonSet := bool;
  iop_Revision x := x;
  iop_GetName x := x;
  iop_SetInstallPackagePath _ x := x;
  iop_Namespace _ := "istio-system";
  iop_SetNamespace _ x := x;
  un_GetKind := r_kind;
  un_GetName := r_name;
  un_GetNamespace := r_namespace;
  un_GroupVersionKind := r_kind;
  un_SetCreationTimestamp_zero r := r;
  un_SetManagedFields_empty r := r;
  findResourceInSpec k := if decide (k = "Gateway") then "gateways" else "";
  util_ToYAML := r_text;
  util_ToYAML_Object := r_text;
  UnmarshalIstioOperator by_ _ :=
    if decide (by_ = "invalid") then inr (errorString "cannot unmarshal")
    else inl by_;
  manifest_GetProfile _ := "default";
  yaml_Marshal x := inl x;
  verifyDeploymentStatus := ready;
  verifyJobPostInstall := ready;
  verifyDaemonSetStatus := ready;
  multierror_Error _ := "errors occurred";
  ToUnstructured r := inl r;
  fmt_q s := dquote +:+ s +:+ dquote;
  unicode_ToLower s := s;
  client_PodsForSelector _ _ w := (script_pods w, w);
  client_ListMutatingWebhookConfigurations w := (script_hooks w, w);
  dynamic_List w := (script_operators w, w);
  manifest_GetMergedIOP by_ _ _ _ wl := (inl by_, wl);
  get_Deployment r _ _ _ w := (fetch r, w);
  get_Job r _ _ _ w := (fetch r, w);
  get_DaemonSet r _ _ _ w := (fetch r, w);
  get_Error r _ _ _ w := (if r_found r then None else Some NotFound, w);
|}.

Definition labelled (rev : string) : gmap string string :=
  {[ IoIstioRev_Name := rev ]}.

Definition operator (rev : string) : Resource :=
  mkResource "IstioOperator" "installed-state" "istio-system" rev true true.

(** A cluster with an istiod pod of revision canary and a default one, a
    webhook of revision canary, and operators of revisions default and
    canary. *)
Definition two_revisions : Script := {|
  script_pods := inl [ {| pod_Labels := labelled "canary" |};
                       {| pod_Labels := labelled "default" |} ];
  script_hooks := inl [ {| hook_Name := "istio-sidecar-injector-canary";
                           hook_Labels := labelled "canary" |} ];
  script_operators := inl [ operator "default"; operator "canary" ];
|}.

Definition checker : StatusVerifier scripted :=
  mkStatusVerifier "istio-system" "" [] "stable" None "ok" "ko".

Definition begin (w : Script) : VState scripted := mkVState (C:=scripted) w [].

(** A verification of an operator that finds nothing. *)
Definition nothing_rendered (i : IstioOperator scripted) (filename : string)
  : V scripted (Z * Z * Z * error) :=
  λ s, ((0, 0, 0, None), s).

End verifier.

(** A host where the command fails and writes to its standard error. *)
Definition denied_by_kernel : Sim.Host := {|
  Sim.getns_err := None; Sim.unshare_err := None; Sim.setns_err := None;
  Sim.remount_err := None; Sim.lockmount_err := None;
  Sim.nssmount_err := None;
  Sim.run_err := Some Sim.exit1; Sim.run_stdout := "";
  Sim.run_stderr := "Permission denied"; Sim.config := [];
|}.

(** * Properties *)

(** ** The order on versions *)

Section version_order.

Implicit Types (x y : N) (vs os : list N).

Lemma onlyZeros_nth vs : onlyZeros vs = true ↔ ∀ i, nth i vs 0%N = 0%N.
Proof.
  unfold onlyZeros. induction vs as [|x vs IH]; cbn [forallb nth].
  - split; [intros _ [|i]; reflexivity | reflexivity].
  - rewrite andb_true_iff, IH, N.eqb_eq. split.
    + intros [<- H] [|i]; [reflexivity | apply H].
    + intros H. split; [symmetry; apply (H 0%nat) | intros i; apply (H (S i))].
Qed.

Lemma compareComponents_cons x y vs os :
  compareComponents (x :: vs) (y :: os) =
  if (y <? x)%N then 1 else if (x <? y)%N then -1 else compareComponents vs os.
Proof.
  unfold compareComponents. cbn [compareCommon].
  destruct (y <? x)%N; [reflexivity|].
  destruct (x <? y)%N; reflexivity.
Qed.

Lemma lt_cons x y vs os :
  lt (generic (x :: vs)) (generic (y :: os))
  ↔ (x < y)%N ∨ (x = y ∧ lt (generic vs) (generic os)).
Proof.
  unfold lt, component; cbn [components]. split.
  - intros [[|i] [Hpre Hi]]; cbn [nth] in Hi.
    + left; exact Hi.
    + right. split; [apply (Hpre 0%nat); lia|].
      exists i. split; [|exact Hi].
      intros j Hj. apply (Hpre (S j)). lia.
  - intros [Hxy | [-> [i [Hpre Hi]]]].
    + exists 0%nat. split; [intros j Hj; lia | exact Hxy].
    + exists (S i). split; [|exact Hi].
      intros [|j] Hj; [reflexivity|]. cbn [nth]. apply Hpre. lia.
Qed.

Lemma equiv_cons x y vs os :
  equiv (generic (x :: vs)) (generic (y :: os))
  ↔ x = y ∧ equiv (generic vs) (generic os).
Proof.
  unfold equiv, component; cbn [components]. split.
  - intros H. split; [apply (H 0%nat) | intros i; apply (H (S i))].
  - intros [-> H] [|i]; [reflexivity | apply H].
Qed.

Lemma nth_nil_N i : nth i (@nil N) 0%N = 0%N.
Proof. destruct i; reflexivity. Qed.

Lemma lt_nil_r vs : ¬ lt (generic vs) (generic []).
Proof.
  intros [i [_ Hi]]. unfold component in Hi; cbn [components] in Hi.
  rewrite nth_nil_N in Hi. lia.
Qed.

Lemma lt_nil_l os : lt (generic []) (generic os) ↔ onlyZeros os = false.
Proof.
  induction os as [|y os IH].
  - split; [intros H; destruct (lt_nil_r _ H) | discriminate].
  - unfold onlyZeros in *. cbn [forallb]. split.
    + intros [[|i] [Hpre Hi]]; unfold component in *; cbn [components nth] in *.
      * destruct (N.eqb_spec 0 y); [lia | reflexivity].
      * rewrite ?nth_nil_N in Hi.
        assert (Hos : forallb (N.eqb 0) os = false).
        { apply IH. exists i. unfold component; cbn [components].
          rewrite nth_nil_N. split; [|exact Hi].
          intros j Hj. rewrite nth_nil_N.
          specialize (Hpre (S j)). cbn [nth] in Hpre.
          rewrite ?nth_nil_N in Hpre. apply Hpre. lia. }
        rewrite Hos. apply andb_false_r.
    + intros H. destruct (N.eqb_spec 0 y) as [<-|Hy].
      * cbn [andb] in H. apply IH in H. destruct H as [i [Hpre Hi]].
        unfold component in *; cbn [components] in *.
        exists (S i). split; [|rewrite nth_nil_N in *; exact Hi].
        intros [|j] Hj; [reflexivity|].
        specialize (Hpre j). rewrite nth_nil_N in *. cbn [nth]. apply Hpre. lia.
      * exists 0%nat. unfold component; cbn [components nth].
        split; [intros j Hj; lia | lia].
Qed.

Lemma equiv_nil_l os : equiv (generic []) (generic os) ↔ onlyZeros os = true.
Proof.
  rewrite onlyZeros_nth. unfold equiv, component; cbn [components].
  split; intros H i; specialize (H i); rewrite nth_nil_N in *; congruence.
Qed.

Lemma equiv_sym v w : equiv v w → equiv w v.
Proof. intros H i. symmetry. apply H. Qed.

(** [compareInternal] decides the order: it returns -1, 0 or 1, and says on
    which side of [other] the version lies. *)
Lemma compareComponents_spec vs os :
  (compareComponents vs os = -1 ∧ lt (generic vs) (generic os))
  ∨ (compareComponents vs os = 0 ∧ equiv (generic vs) (generic os))
  ∨ (compareComponents vs os = 1 ∧ lt (generic os) (generic vs)).
Proof.
  revert os. induction vs as [|x vs IH]; intros os.
  - unfold compareComponents. cbn [compareCommon length drop].
    destruct os as [|y os]; cbn [length].
    + right; left. split; [reflexivity | intros i; reflexivity].
    + replace (0 <? S (length os))%nat with true by reflexivity.
      cbn [Nat.ltb Nat.leb andb]. rewrite skipn_O.
      destruct (onlyZeros (y :: os)) eqn:E; cbn [negb].
      * right; left. split; [reflexivity | apply equiv_nil_l; exact E].
      * left. split; [reflexivity | apply lt_nil_l; exact E].
  - destruct os as [|y os].
    + unfold compareComponents. cbn [compareCommon length].
      replace (0 <? S (length vs))%nat with true by reflexivity.
      rewrite skipn_O. cbn [andb].
      destruct (onlyZeros (x :: vs)) eqn:E; cbn [negb].
      * right; left. split; [reflexivity|].
        apply equiv_sym, equiv_nil_l; exact E.
      * right; right. split; [reflexivity | apply lt_nil_l; exact E].
    + rewrite compareComponents_cons.
      destruct (N.ltb_spec y x) as [Hyx|Hyx].
      { right; right. split; [reflexivity | apply lt_cons; left; exact Hyx]. }
      destruct (N.ltb_spec x y) as [Hxy|Hxy].
      { left. split; [reflexivity | apply lt_cons; left; exact Hxy]. }
      assert (x = y) as -> by lia.
      destruct (IH os) as [[-> H] | [[-> H] | [-> H]]].
      * left. split; [reflexivity | apply lt_cons; right; auto].
      * right; left. split; [reflexivity | apply equiv_cons; auto].
      * right; right. split; [reflexivity | apply lt_cons; right; auto].
Qed.

Lemma lt_not_equiv v w : lt v w → ¬ equiv v w.
Proof. intros [i [_ Hi]] H. specialize (H i). lia. Qed.

Lemma lt_asym v w : lt v w → ¬ lt w v.
Proof.
  intros [i [Hpi Hi]] [j [Hpj Hj]].
  destruct (Nat.lt_trichotomy i j) as [H | [-> | H]].
  - specialize (Hpj i H). lia.
  - lia.
  - specialize (Hpi j H). lia.
Qed.

Lemma LessThan_lt v w : LessThan v w = true ↔ lt v w.
Proof.
  unfold LessThan, compareInternal. destruct v as [vs], w as [os].
  cbn [components]. rewrite Z.eqb_eq.
  destruct (compareComponents_spec vs os) as [[E H] | [[E H] | [E H]]];
    rewrite E; split; intros H'; try lia; try exact H.
  - destruct (lt_not_equiv _ _ H' H).
  - destruct (lt_asym _ _ H' H).
Qed.

Lemma LessThan_false_le v w : LessThan v w = false ↔ le w v.
Proof.
  unfold LessThan, compareInternal, le. destruct v as [vs], w as [os].
  cbn [components]. rewrite Z.eqb_neq.
  destruct (compareComponents_spec vs os) as [[E H] | [[E H] | [E H]]];
    rewrite E; split; intros H'; try lia; auto using equiv_sym.
  - destruct H' as [H' | H'].
    + destruct (lt_asym _ _ H' H).
    + destruct (lt_not_equiv _ _ H (equiv_sym _ _ H')).
Qed.

(** Every version lies on one side of a threshold. *)
Lemma lt_or_le v w : lt v w ∨ le w v.
Proof.
  destruct (LessThan v w) eqn:E.
  - left. apply LessThan_lt, E.
  - right. apply LessThan_false_le, E.
Qed.

Lemma lt_not_le v w : lt v w → ¬ le w v.
Proof.
  intros H [H' | H'].
  - exact (lt_asym _ _ H H').
  - exact (lt_not_equiv _ _ H (equiv_sym _ _ H')).
Qed.

(** On versions major.minor.patch the order reads as usual. *)
Lemma lt_three (a b c a' b' c' : N) :
  lt (generic [a; b; c]) (generic [a'; b'; c'])
  ↔ (a < a' ∨ (a = a' ∧ (b < b' ∨ (b = b' ∧ c < c'))))%N.
Proof.
  rewrite !lt_cons. split.
  - intros [H | [-> [H | [-> [H | [_ H]]]]]]; auto.
    destruct (lt_nil_r _ H).
  - intros [H | [-> [H | [-> H]]]]; auto 10.
Qed.

End version_order.

(** ** The version thresholds *)

(** C6.  [NoLocks v] is true exactly when [v] is strictly below the locking
    threshold 1.6.2, and false exactly when [v] is 1.6.2 or above; every
    version is in one of the two cases. *)
Theorem NoLocks_threshold (v : ToolVersion) :
  (NoLocks v = true ↔ lt (version v) (generic [1; 6; 2]%N))
  ∧ (NoLocks v = false ↔ le (generic [1; 6; 2]%N) (version v))
  ∧ (lt (version v) (generic [1; 6; 2]%N)
     ∨ le (generic [1; 6; 2]%N) (version v)).
Proof.
  unfold NoLocks, IptablesRestoreLocking.
  split; [apply LessThan_lt|].
  split; [apply LessThan_false_le | apply lt_or_le].
Qed.

(** On a version major.minor.patch the threshold reads as expected. *)
Lemma NoLocks_major_minor_patch (major minor patch : N) :
  NoLocks {| version := generic [major; minor; patch] |} = true
  ↔ (major < 1 ∨ (major = 1 ∧ (minor < 6 ∨ (minor = 6 ∧ patch < 2))))%N.
Proof.
  unfold NoLocks, IptablesRestoreLocking. cbn [version].
  rewrite LessThan_lt. apply lt_three.
Qed.

(** ** The sandbox *)

Section sandbox.

Context {P : Platform}.

Implicit Types (s : State P) (f : M P error) (n : NetNS P)
  (lockFile : string) (cs pre post : list Syscall).

Lemma setup_steps_calls lockFile :
  (setup_steps (P:=P) lockFile).*1 = setup_calls lockFile.
Proof. unfold setup_steps, setup_calls. destruct (decide _); reflexivity. Qed.

Lemma setupSandbox_steps n lockFile :
  setupSandbox n lockFile = run_steps n (setup_steps (P:=P) lockFile).
Proof.
  unfold setupSandbox, setup_steps. destruct (decide _); reflexivity.
Qed.

Lemma succeed_app n pre post (w : World P) :
  succeed n (pre ++ post) w
  = match succeed n pre w with Some w' => succeed n post w' | None => None end.
Proof.
  revert w. induction pre as [|c pre IH]; intros w; cbn [succeed app].
  - reflexivity.
  - destruct (perform n c w) as [[e|] w']; [reflexivity | apply IH].
Qed.

Lemma run_steps_ok n steps s w' :
  succeed n steps.*1 (world s) = Some w' →
  run_steps n steps s
  = (None, mkState w' (trace s ++ map EvSyscall steps.*1) (heap s)).
Proof.
  revert s. induction steps as [|[c wrap] steps IH]; intros s H.
  - cbn in *. injection H as <-. rewrite app_nil_r. destruct s; reflexivity.
  - cbn [fmap list_fmap fst succeed] in H.
    cbn [run_steps]. unfold check, bind, call.
    destruct (perform n c (world s)) as [[e|] w1]; [discriminate|].
    rewrite (IH (mkState w1 (trace s ++ [EvSyscall c]) (heap s)) H).
    cbn [world trace heap fmap list_fmap fst map].
    rewrite <- app_assoc. reflexivity.
Qed.

Lemma run_steps_fail n steps s pre c post wm e w' :
  steps.*1 = pre ++ c :: post →
  succeed n pre (world s) = Some wm →
  perform n c wm = (Some e, w') →
  ∃ e', run_steps n steps s
        = (Some e',
           mkState w' (trace s ++ map EvSyscall (pre ++ [c])) (heap s)).
Proof.
  revert s pre. induction steps as [|[c0 wrap] steps IH]; intros s pre Hs Hpre Hc.
  - destruct pre; discriminate.
  - cbn [run_steps]. unfold check, bind, call.
    destruct pre as [|c1 pre]; cbn [app fmap list_fmap fst] in Hs;
      injection Hs as Hc0 Hs; subst c0.
    + cbn in Hpre. injection Hpre as ->. rewrite Hc.
      eexists. reflexivity.
    + cbn [succeed] in Hpre.
      destruct (perform n c1 (world s)) as [[e1|] w1]; [discriminate|].
      destruct (IH (mkState w1 (trace s ++ [EvSyscall c1]) (heap s)) pre Hs Hpre Hc)
        as [e' ->].
      exists e'. cbn [world trace heap app map]. rewrite <- app_assoc.
      reflexivity.
Qed.

(** Either every step succeeds, or one step fails after those before it
    have succeeded. *)
Lemma succeed_or_fail n cs (w : World P) :
  (∃ w', succeed n cs w = Some w')
  ∨ (∃ pre c post wm e w',
       cs = pre ++ c :: post ∧ succeed n pre w = Some wm
       ∧ perform n c wm = (Some e, w')).
Proof.
  revert w. induction cs as [|c cs IH]; intros w.
  - left. exists w. reflexivity.
  - cbn [succeed]. destruct (perform n c w) as [[e|] w1] eqn:E.
    + right. exists [], c, cs, w, e, w1. auto.
    + destruct (IH w1) as [[w' H] | (pre & c' & post & wm & e & w' & -> & H1 & H2)].
      * left. exists w'. exact H.
      * right. exists (c :: pre), c', post, wm, e, w'.
        split; [reflexivity|]. split; [|exact H2].
        cbn [succeed]. rewrite E. exact H1.
Qed.

(** When a step of the setup fails, the operation is run where the failed
    setup has left the host, after one warning. *)
Lemma runInSandbox_setup_failure lockFile f s n w1 pre c post wm e w' :
  host_GetCurrentNS P (world s) = (inl n, w1) →
  setup_calls lockFile = pre ++ c :: post →
  succeed n pre (host_LockOSThread P w1) = Some wm →
  perform n c wm = (Some e, w') →
  ∃ detail,
    runInSandbox lockFile f s
    = f (mkState w'
           (trace s ++ [EvSyscall ScGetCurrentNS; EvSyscall ScLockOSThread]
            ++ map EvSyscall (pre ++ [c]) ++ [warning detail])
           (heap s)).
Proof.
  intros Hns Hcs Hpre Hc.
  unfold runInSandbox, bind, GetCurrentNS, call. rewrite Hns.
  unfold sandboxed, bind, LockOSThread, call. cbn [world trace heap].
  rewrite setupSandbox_steps.
  rewrite <- (setup_steps_calls lockFile) in Hcs.
  destruct (run_steps_fail n (setup_steps lockFile)
              (mkState (host_LockOSThread P w1)
                 ((trace s ++ [EvSyscall ScGetCurrentNS])
                  ++ [EvSyscall ScLockOSThread]) (heap s))
              pre c post wm e w' Hcs Hpre Hc) as [e' ->].
  exists (Error e'). unfold ret, logf. cbn [negb world trace heap].
  f_equal. f_equal. rewrite <- !app_assoc. reflexivity.
Qed.

(** When every step of the setup succeeds, the operation is run in the
    sandbox and what it gives is returned. *)
Lemma runInSandbox_setup_success lockFile f s n w1 w2 :
  host_GetCurrentNS P (world s) = (inl n, w1) →
  succeed n (setup_calls lockFile) (host_LockOSThread P w1) = Some w2 →
  runInSandbox lockFile f s
  = f (mkState w2
         (trace s ++ [EvSyscall ScGetCurrentNS; EvSyscall ScLockOSThread]
          ++ map EvSyscall (setup_calls lockFile))
         (heap s)).
Proof.
  intros Hns Hok.
  unfold runInSandbox, bind, GetCurrentNS, call. rewrite Hns.
  unfold sandboxed, bind, LockOSThread, call. cbn [world trace heap].
  rewrite setupSandbox_steps.
  rewrite <- (setup_steps_calls lockFile) in Hok.
  rewrite (run_steps_ok n (setup_steps lockFile)
             (mkState (host_LockOSThread P w1)
                ((trace s ++ [EvSyscall ScGetCurrentNS])
                 ++ [EvSyscall ScLockOSThread]) (heap s)) w2 Hok).
  cbn [world trace heap]. rewrite setup_steps_calls, <- !app_assoc.
  cbn [app].
  destruct (f _) as [[e|] s3]; reflexivity.
Qed.

(** When calls succeed, so do those that come first among them. *)
Lemma succeed_take n cs (w w' : World P) (i : nat) :
  succeed n cs w = Some w' → ∃ w'', succeed n (take i cs) w = Some w''.
Proof.
  intros H. rewrite <- (take_drop i cs), succeed_app in H.
  destruct (succeed n (take i cs) w) as [w''|]; [|discriminate].
  exists w''. reflexivity.
Qed.

(** No call is made after a call that has failed. *)
Lemma succeed_stops n pre c post (w wm w' w'' : World P) e (j : nat) :
  succeed n pre w = Some wm →
  perform n c wm = (Some e, w') →
  succeed n (take j (pre ++ c :: post)) w = Some w'' →
  (j ≤ length pre)%nat.
Proof.
  intros Hpre Hc Hj.
  destruct (decide (j ≤ length pre)%nat) as [|Hgt]; [assumption|].
  exfalso.
  replace j with (length pre + S (j - S (length pre)))%nat in Hj by lia.
  rewrite take_app_add in Hj. cbn [take] in Hj.
  rewrite succeed_app, Hpre in Hj. cbn [succeed] in Hj.
  rewrite Hc in Hj. discriminate.
Qed.

(** When the current namespace cannot be read, nothing else is done. *)
Lemma runInSandbox_no_namespace lockFile f s nerr w1 :
  host_GetCurrentNS P (world s) = (inr nerr, w1) →
  runInSandbox lockFile f s
  = (Some (Errorf "failed to get current namespace" nerr),
     mkState w1 (trace s ++ [EvSyscall ScGetCurrentNS]) (heap s)).
Proof.
  intros Hns. unfold runInSandbox, bind, GetCurrentNS, call.
  rewrite Hns. reflexivity.
Qed.

End sandbox.

Section sandbox_fallback.

Context {P : Platform}.

Implicit Types (s : State P) (op : World P → error * World P) (n : NetNS P)
  (lockFile : string).

Lemma invoked_syscalls (cs : list Syscall) : invoked (map EvSyscall cs) = [].
Proof. induction cs; [reflexivity | exact IHcs]. Qed.

Lemma logged_syscalls lvl (cs : list Syscall) :
  logged lvl (map EvSyscall cs) = [].
Proof. induction cs; [reflexivity | exact IHcs]. Qed.

(** C1.  When the unshare of the mount namespace fails, the operation is
    invoked exactly once, on the host as the failed call left it and after
    one warning, and [runInSandbox] returns what that invocation gave,
    whatever the lock file. *)
Theorem runInSandbox_unshare_fails lockFile op s n w1 e w2 :
  host_GetCurrentNS P (world s) = (inl n, w1) →
  host_Unshare P CLONE_NEWNS (host_LockOSThread P w1) = (Some e, w2) →
  let r := runInSandbox lockFile (invoke op) s in
  r.1 = (op w2).1
  ∧ world r.2 = (op w2).2
  ∧ invoked (trace r.2) = invoked (trace s) ++ [(op w2).1]
  ∧ invocations (trace r.2) = S (invocations (trace s))
  ∧ ∃ detail,
      trace r.2 = trace s ++
        [EvSyscall ScGetCurrentNS; EvSyscall ScLockOSThread;
         EvSyscall (ScUnshare CLONE_NEWNS); warning detail;
         EvInvoke (op w2).1].
Proof.
  intros Hns Hun r.
  destruct (runInSandbox_setup_failure lockFile (invoke op) s n w1
              [] (ScUnshare CLONE_NEWNS) (skipn 1 (setup_calls lockFile))
              (host_LockOSThread P w1) e w2 Hns eq_refl eq_refl Hun)
    as [detail Hr].
  subst r. rewrite Hr. unfold invoke, call. cbn [world trace heap].
  destruct (op w2) as [res w3]. cbn [fst snd world trace heap].
  assert (Hinv : invoked
            ((trace s ++
              [EvSyscall ScGetCurrentNS; EvSyscall ScLockOSThread] ++
              map EvSyscall ([] ++ [ScUnshare CLONE_NEWNS]) ++ [warning detail])
             ++ [EvInvoke res])
          = invoked (trace s) ++ [res]).
  { unfold invoked. rewrite !omap_app. cbn. rewrite app_nil_r. reflexivity. }
  repeat split.
  - exact Hinv.
  - unfold invocations. rewrite Hinv, length_app. cbn. lia.
  - exists detail. rewrite <- !app_assoc. reflexivity.
Qed.

(** C2.  When every step of the setup succeeds and the operation returns an
    error, [runInSandbox] returns that error; the operation has been invoked
    once, in the sandbox, and no warning has been logged. *)
Theorem runInSandbox_operation_error lockFile op s n w1 w2 e w3 :
  host_GetCurrentNS P (world s) = (inl n, w1) →
  succeed n (setup_calls lockFile) (host_LockOSThread P w1) = Some w2 →
  op w2 = (Some e, w3) →
  let r := runInSandbox lockFile (invoke op) s in
  r.1 = Some e
  ∧ invoked (trace r.2) = invoked (trace s) ++ [Some e]
  ∧ invocations (trace r.2) = S (invocations (trace s))
  ∧ logged WarnLevel (trace r.2) = logged WarnLevel (trace s)
  ∧ trace r.2 = trace s ++
      [EvSyscall ScGetCurrentNS; EvSyscall ScLockOSThread]
      ++ map EvSyscall (setup_calls lockFile) ++ [EvInvoke (Some e)].
Proof.
  intros Hns Hok Hop r. subst r.
  rewrite (runInSandbox_setup_success lockFile (invoke op) s n w1 w2 Hns Hok).
  unfold invoke, call. cbn [world trace heap]. rewrite Hop.
  cbn [fst snd world trace heap].
  assert (Hinv : invoked
            ((trace s ++
              [EvSyscall ScGetCurrentNS; EvSyscall ScLockOSThread] ++
              map EvSyscall (setup_calls lockFile)) ++ [EvInvoke (Some e)])
          = invoked (trace s) ++ [Some e]).
  { unfold invoked. rewrite !omap_app.
    fold (invoked (map EvSyscall (setup_calls lockFile))).
    rewrite invoked_syscalls. cbn. rewrite app_nil_r. reflexivity. }
  repeat split.
  - exact Hinv.
  - unfold invocations. rewrite Hinv, length_app. cbn. lia.
  - unfold logged. rewrite !omap_app.
    fold (logged WarnLevel (map EvSyscall (setup_calls lockFile))).
    rewrite logged_syscalls. cbn. rewrite !app_nil_r. reflexivity.
  - rewrite <- !app_assoc. reflexivity.
Qed.

(** C3, as amended.  When a step of [setupSandbox] fails (the unshare, the
    return to the network namespace, the remount of the root, the bind mount
    over the lock file or the one over nsswitch.conf) the steps before it
    having succeeded, [runInSandbox] logs one warning, invokes the operation
    once and returns what it gave.  When the current network namespace
    cannot be read, [runInSandbox] returns the error "failed to get current
    namespace" and neither logs a warning nor invokes the operation. *)
Theorem runInSandbox_fallback lockFile op s :
  (∀ n w1 pre c post wm e w',
     host_GetCurrentNS P (world s) = (inl n, w1) →
     setup_calls lockFile = pre ++ c :: post →
     succeed n pre (host_LockOSThread P w1) = Some wm →
     perform n c wm = (Some e, w') →
     let r := runInSandbox lockFile (invoke op) s in
     r.1 = (op w').1
     ∧ world r.2 = (op w').2
     ∧ ∃ detail,
         trace r.2 = trace s ++
           [EvSyscall ScGetCurrentNS; EvSyscall ScLockOSThread]
           ++ map EvSyscall (pre ++ [c])
           ++ [warning detail; EvInvoke (op w').1])
  ∧ (∀ nerr w1,
       host_GetCurrentNS P (world s) = (inr nerr, w1) →
       runInSandbox lockFile (invoke op) s
       = (Some (Errorf "failed to get current namespace" nerr),
          mkState w1 (trace s ++ [EvSyscall ScGetCurrentNS]) (heap s))).
Proof.
  split.
  - intros n w1 pre c post wm e w' Hns Hcs Hpre Hc r.
    destruct (runInSandbox_setup_failure lockFile (invoke op) s n w1
                pre c post wm e w' Hns Hcs Hpre Hc) as [detail Hr].
    subst r. rewrite Hr. unfold invoke, call. cbn [world trace heap].
    destruct (op w') as [res w3]. cbn [fst snd world trace heap].
    repeat split. exists detail. rewrite <- !app_assoc. reflexivity.
  - intros nerr w1 Hns. apply runInSandbox_no_namespace, Hns.
Qed.

End sandbox_fallback.

Lemma runInSandbox_unshare_fails_witness :
  let r := runInSandbox (P:=Sim.platform) "/proc/7/ns/net" (invoke Sim.op)
             (Sim.start (Sim.unshare_denied (Some Sim.exit1))) in
  r.1 = Some Sim.exit1
  ∧ world r.2 = Sim.unshare_denied (Some Sim.exit1)
  ∧ invoked (trace r.2) = [] ++ [Some Sim.exit1]
  ∧ invocations (trace r.2) = 1%nat
  ∧ ∃ detail,
      trace r.2 = [] ++
        [EvSyscall ScGetCurrentNS; EvSyscall ScLockOSThread;
         EvSyscall (ScUnshare CLONE_NEWNS); warning detail;
         EvInvoke (Some Sim.exit1)].
Proof.
  exact (runInSandbox_unshare_fails (P:=Sim.platform) "/proc/7/ns/net" Sim.op
           (Sim.start (Sim.unshare_denied (Some Sim.exit1))) tt
           (Sim.unshare_denied (Some Sim.exit1)) Sim.EPERM
           (Sim.unshare_denied (Some Sim.exit1)) eq_refl eq_refl).
Defined.

Lemma runInSandbox_operation_error_witness :
  let r := runInSandbox (P:=Sim.platform) "/proc/7/ns/net" (invoke Sim.op)
             (Sim.start (Sim.host (Some Sim.exit1))) in
  r.1 = Some Sim.exit1
  ∧ invoked (trace r.2) = [] ++ [Some Sim.exit1]
  ∧ invocations (trace r.2) = 1%nat
  ∧ logged WarnLevel (trace r.2) = logged WarnLevel []
  ∧ trace r.2 = [] ++
      [EvSyscall ScGetCurrentNS; EvSyscall ScLockOSThread]
      ++ map EvSyscall (setup_calls "/proc/7/ns/net")
      ++ [EvInvoke (Some Sim.exit1)].
Proof.
  exact (runInSandbox_operation_error (P:=Sim.platform) "/proc/7/ns/net"
           Sim.op (Sim.start (Sim.host (Some Sim.exit1))) tt
           (Sim.host (Some Sim.exit1)) (Sim.host (Some Sim.exit1)) Sim.exit1
           (Sim.host (Some Sim.exit1)) eq_refl eq_refl eq_refl).
Defined.

(** The claim of C3 fails at the capture of the namespace: on a host that
    denies it, the operation is not invoked, no warning is logged and the
    error of the capture is returned. *)
Lemma runInSandbox_namespace_capture_counterexample :
  let r := runInSandbox (P:=Sim.platform) "" (invoke Sim.op)
             (Sim.start (Sim.getns_denied None)) in
  r.1 = Some (errorString
                "failed to get current namespace: operation not permitted")
  ∧ invoked (trace r.2) = []
  ∧ logged WarnLevel (trace r.2) = []
  ∧ (Sim.op (Sim.getns_denied None)).1 = None.
Proof. repeat split. Qed.

Lemma runInSandbox_fallback_witness :
  (let r := runInSandbox (P:=Sim.platform) "" (invoke Sim.op)
              (Sim.start (Sim.unshare_denied None)) in
   r.1 = None ∧ invoked (trace r.2) = [None]
   ∧ length (logged WarnLevel (trace r.2)) = 1%nat)
  ∧ (runInSandbox (P:=Sim.platform) "" (invoke Sim.op)
       (Sim.start (Sim.getns_denied None))).1
    = Some (Errorf "failed to get current namespace" Sim.EPERM).
Proof.
  pose proof (runInSandbox_fallback (P:=Sim.platform) "" Sim.op
                (Sim.start (Sim.unshare_denied None))) as [HA _].
  pose proof (runInSandbox_fallback (P:=Sim.platform) "" Sim.op
                (Sim.start (Sim.getns_denied None))) as [_ HB].
  split.
  - specialize (HA tt (Sim.unshare_denied None) [] (ScUnshare CLONE_NEWNS)
                  (skipn 1 (setup_calls "")) (Sim.unshare_denied None)
                  Sim.EPERM (Sim.unshare_denied None)
                  eq_refl eq_refl eq_refl eq_refl).
    cbv zeta in HA. destruct HA as (Hr & _ & detail & Htr).
    cbv zeta. rewrite Hr, Htr. repeat split.
  - rewrite (HB Sim.EPERM (Sim.getns_denied None) eq_refl). reflexivity.
Defined.

(** ** What a run leaves in the log *)

Section observations.

Lemma executed_app tr1 tr2 :
  executed (tr1 ++ tr2) = executed tr1 ++ executed tr2.
Proof. apply omap_app. Qed.

Lemma syscalls_app tr1 tr2 :
  syscalls (tr1 ++ tr2) = syscalls tr1 ++ syscalls tr2.
Proof. apply omap_app. Qed.

Lemma logged_app lvl tr1 tr2 :
  logged lvl (tr1 ++ tr2) = logged lvl tr1 ++ logged lvl tr2.
Proof. apply omap_app. Qed.

Lemma executed_logs tr : forallb is_log tr = true → executed tr = [].
Proof.
  induction tr as [|[] tr IH]; cbn; try discriminate; auto.
Qed.

Lemma syscalls_logs tr : forallb is_log tr = true → syscalls tr = [].
Proof.
  induction tr as [|[] tr IH]; cbn; try discriminate; auto.
Qed.

Lemma executed_syscalls cs : executed (map EvSyscall cs) = [].
Proof. induction cs; [reflexivity | exact IHcs]. Qed.

Lemma syscalls_syscalls cs : syscalls (map EvSyscall cs) = cs.
Proof. induction cs as [|c cs IH]; [reflexivity | cbn; f_equal; exact IH]. Qed.

End observations.

Section runner.

Context {P : Platform}.

Implicit Types (s : State P) (f : M P error) (c : Cmd P) (lockFile : string).

(** The two ways [runInSandbox] can go: it stops at the capture of the
    namespace, or it runs the operation once, after a prefix of the calls of
    the setup and, when the setup has failed, a warning. *)
Lemma runInSandbox_shape lockFile f s :
  (∃ nerr w1,
     host_GetCurrentNS P (world s) = (inr nerr, w1)
     ∧ runInSandbox lockFile f s
       = (Some (Errorf "failed to get current namespace" nerr),
          mkState w1 (trace s ++ [EvSyscall ScGetCurrentNS]) (heap s)))
  ∨ (∃ w2 cs post warns,
       setup_calls lockFile = cs ++ post
       ∧ forallb is_log warns = true
       ∧ logged ErrorLevel warns = []
       ∧ runInSandbox lockFile f s
         = f (mkState w2
                (trace s ++ [EvSyscall ScGetCurrentNS; EvSyscall ScLockOSThread]
                 ++ map EvSyscall cs ++ warns)
                (heap s))).
Proof.
  destruct (host_GetCurrentNS P (world s)) as [[n|nerr] w1] eqn:Hns.
  - right.
    destruct (succeed_or_fail n (setup_calls lockFile) (host_LockOSThread P w1))
      as [[w2 Hok] | (pre & c & post & wm & e & w' & Hcs & Hpre & Hc)].
    + exists w2, (setup_calls lockFile), [], [].
      rewrite !app_nil_r. repeat split.
      rewrite (runInSandbox_setup_success lockFile f s n w1 w2 Hns Hok).
      reflexivity.
    + destruct (runInSandbox_setup_failure lockFile f s n w1 pre c post wm e w'
                  Hns Hcs Hpre Hc) as [detail Hr].
      exists w', (pre ++ [c]), post, [warning detail].
      rewrite <- app_assoc. repeat split; [exact Hcs | exact Hr].
  - left. exists nerr, w1. split; [reflexivity|].
    apply runInSandbox_no_namespace, Hns.
Qed.

(** Once the namespace is captured, the operation is run after the first
    [k] calls of the setup: each call that was made came after the success
    of all those before it, and after calls that have succeeded the next
    call is made. *)
Lemma runInSandbox_entered lockFile f s n w1 :
  host_GetCurrentNS P (world s) = (inl n, w1) →
  ∃ (k : nat) w2 warns,
    forallb is_log warns = true
    ∧ logged ErrorLevel warns = []
    ∧ (∀ i, (i < k)%nat →
         ∃ w', succeed n (take i (setup_calls lockFile))
                 (host_LockOSThread P w1) = Some w')
    ∧ (∀ j w', (j < length (setup_calls lockFile))%nat →
         succeed n (take j (setup_calls lockFile)) (host_LockOSThread P w1)
         = Some w' →
         (j < k)%nat)
    ∧ runInSandbox lockFile f s
      = f (mkState w2
             (trace s ++ [EvSyscall ScGetCurrentNS; EvSyscall ScLockOSThread]
              ++ map EvSyscall (take k (setup_calls lockFile)) ++ warns)
             (heap s)).
Proof.
  intros Hns.
  destruct (succeed_or_fail n (setup_calls lockFile) (host_LockOSThread P w1))
    as [[w2 Hok] | (pre & c & post & wm & e & w' & Hcs & Hpre & Hc)].
  - exists (length (setup_calls lockFile)), w2, [].
    split; [reflexivity|]. split; [reflexivity|]. split; [|split].
    + intros i _. exact (succeed_take n _ _ _ i Hok).
    + intros j w' Hj _. exact Hj.
    + rewrite firstn_all, app_nil_r.
      exact (runInSandbox_setup_success lockFile f s n w1 w2 Hns Hok).
  - destruct (runInSandbox_setup_failure lockFile f s n w1 pre c post wm e w'
                Hns Hcs Hpre Hc) as [detail Hr].
    exists (S (length pre)), w', [warning detail].
    split; [reflexivity|]. split; [reflexivity|]. split; [|split].
    + intros i Hi. rewrite Hcs, take_app_le by lia.
      exact (succeed_take n _ _ _ i Hpre).
    + intros j w'' _ Hj. rewrite Hcs in Hj.
      pose proof (succeed_stops n pre c post _ wm w' w'' e j Hpre Hc Hj). lia.
    + rewrite Hr, Hcs.
      replace (pre ++ c :: post) with ((pre ++ [c]) ++ post)
        by (rewrite <- app_assoc; reflexivity).
      rewrite take_app_length' by (rewrite length_app; cbn; lia).
      reflexivity.
Qed.

(** What a run of the command leaves in the log, with either runner: no
    line at the error level, a prefix of the calls of the runner, and the
    command at most once, in which case its error is the one returned. *)
Lemma run_observed (how : Runner) c s :
  let r := run how c s in
  logged ErrorLevel (trace r.2) = logged ErrorLevel (trace s)
  ∧ (∃ k, syscalls (trace r.2)
          = syscalls (trace s) ++ take k (sandbox_calls how))
  ∧ (executed (trace r.2) = executed (trace s) ++ [(Args c, Env c, r.1)]
     ∨ (how ≠ RunDirect ∧ executed (trace r.2) = executed (trace s)
        ∧ ∃ nerr w1, host_GetCurrentNS P (world s) = (inr nerr, w1)
            ∧ r.1 = Some (Errorf "failed to get current namespace" nerr))).
Proof.
  destruct how as [|lockFile]; cbn [run sandbox_calls]; cbv zeta.
  - unfold Cmd_Run.
    destruct (host_Run P (Args c) (Env c) (Stdin c) (world s))
      as [[[err out] errout] w].
    cbn [fst snd trace].
    rewrite logged_app, syscalls_app, executed_app. cbn.
    rewrite !app_nil_r. split; [reflexivity|]. split; [|left; reflexivity].
    exists 0%nat. rewrite app_nil_r. reflexivity.
  - destruct (runInSandbox_shape lockFile (Cmd_Run c) s)
      as [(nerr & w1 & Hns & ->) | (w2 & cs & post & warns & Hcs & Hw & Hwe & ->)].
    + cbn [fst snd trace].
      rewrite logged_app, syscalls_app, executed_app. cbn.
      rewrite !app_nil_r. split; [reflexivity|]. split.
      * exists 1%nat. reflexivity.
      * right. split; [discriminate|]. split; [reflexivity|].
        exists nerr, w1. split; [exact Hns | reflexivity].
    + unfold Cmd_Run. cbn [world trace heap].
      destruct (host_Run P (Args c) (Env c) (Stdin c) w2)
        as [[[err out] errout] w].
      cbn [fst snd trace]. rewrite Hcs.
      rewrite !logged_app, !syscalls_app, !executed_app.
      rewrite logged_syscalls, Hwe, syscalls_syscalls, executed_syscalls.
      rewrite (syscalls_logs _ Hw), (executed_logs _ Hw). cbn.
      rewrite !app_nil_r. split; [reflexivity|]. split; [|left; reflexivity].
      exists (2 + length cs)%nat. cbn [Nat.add take].
      rewrite take_app_length. reflexivity.
Qed.

End runner.

Section xtables.

Context {P : Platform}.
Context (XTablesWriteCmds : gset string).

Implicit Types (s : State P) (r : RealDependencies) (cmd : string)
  (args : list string) (stdin : option (Reader P))
  (T : string → GoError → string).

Lemma announce_logs r cmd args :
  forallb is_log (announce P XTablesWriteCmds r cmd args) = true.
Proof. unfold announce. destruct (_ && _); reflexivity. Qed.

Lemma announce_no_error r cmd args :
  logged ErrorLevel (announce P XTablesWriteCmds r cmd args) = [].
Proof. unfold announce. destruct (_ && _); reflexivity. Qed.

(** [executeXTables] announces the command, runs it with the runner and
    the command it has prepared, the streams being two fresh buffers, and
    returns the error of that run after it has logged what the buffers
    hold. *)
Lemma executeXTables_shape T r cmd (ignoreErrors : bool) stdin args s :
  let i := prepare (P:=P) XTablesWriteCmds r cmd args in
  let c :=
    with_streams (inv_c i) (length (heap s)) (S (length (heap s))) stdin in
  let r1 := run (inv_run i) c
              (mkState (world s)
                 (trace s ++ announce P XTablesWriteCmds r cmd args)
                 ((heap s ++ [""]) ++ [""])) in
  ∃ post,
    forallb is_log post = true
    ∧ (ignoreErrors = true → logged ErrorLevel post = [])
    ∧ executeXTables XTablesWriteCmds T r cmd ignoreErrors stdin args s
      = (r1.1, mkState (world r1.2) (trace r1.2 ++ post) (heap r1.2)).
Proof.
  cbv zeta. unfold executeXTables, announce.
  unfold bind at 1 2 3 4 5. unfold when at 1, logf, newBuffer, ret.
  destruct (negb (CNIMode r) && needLock XTablesWriteCmds r cmd);
    cbn [world trace heap app]; rewrite <- ?app_assoc; cbn [app];
    rewrite length_app, Nat.add_1_r; cbn [length];
    destruct (run _ _ _) as [err [w2 tr2 h2]]; cbn [fst snd];
    unfold bind, Buffer_String, when, logf, ret; cbn [world trace heap];
    destruct (negb (String.length _ =? 0)%nat);
    destruct ((bool_decide (err ≠ None) || _) && negb ignoreErrors) eqn:E;
    cbn [world trace heap]; rewrite <- ?app_assoc; cbn [app];
    first
      [ eexists [_; _]; split; [|split]; cycle 2; [reflexivity | reflexivity |]
      | eexists [_]; split; [|split]; cycle 2; [reflexivity | reflexivity |]
      | exists []; rewrite app_nil_r; split; [|split]; cycle 2;
        [reflexivity | reflexivity |] ];
    intros ->; try reflexivity;
    rewrite andb_false_r in E; discriminate.
Qed.

(** What a call of [executeXTables] leaves in the log. *)
Lemma executeXTables_observed T r cmd (ignoreErrors : bool) stdin args s :
  let i := prepare (P:=P) XTablesWriteCmds r cmd args in
  let res :=
    executeXTables XTablesWriteCmds T r cmd ignoreErrors stdin args s in
  (ignoreErrors = true →
   logged ErrorLevel (trace res.2) = logged ErrorLevel (trace s))
  ∧ (∃ k, syscalls (trace res.2)
          = syscalls (trace s) ++ take k (sandbox_calls (inv_run i)))
  ∧ (executed (trace res.2)
     = executed (trace s) ++ [(Args (inv_c i), Env (inv_c i), res.1)]
     ∨ (inv_run i ≠ RunDirect
        ∧ executed (trace res.2) = executed (trace s)
        ∧ ∃ nerr w1, host_GetCurrentNS P (world s) = (inr nerr, w1)
            ∧ res.1 = Some (Errorf "failed to get current namespace" nerr))).
Proof.
  cbv zeta.
  destruct (executeXTables_shape T r cmd ignoreErrors stdin args s)
    as (post & Hpost & Herr & ->).
  cbn [fst snd trace].
  pose proof (run_observed (inv_run (prepare (P:=P) XTablesWriteCmds r cmd args))
                (with_streams (inv_c (prepare (P:=P) XTablesWriteCmds r cmd args))
                   (length (heap s)) (S (length (heap s))) stdin)
                (mkState (world s) (trace s ++ announce P XTablesWriteCmds r cmd args)
                         ((heap s ++ [""]) ++ [""]))) as Hrun.
  cbv zeta in Hrun. cbn [trace Args Env with_streams] in Hrun.
  destruct Hrun as (Hlog & [k Hsys] & Hexec).
  rewrite logged_app, syscalls_app, executed_app.
  rewrite (syscalls_logs _ Hpost), (executed_logs _ Hpost), !app_nil_r.
  rewrite Hlog, Hsys.
  rewrite logged_app, syscalls_app, executed_app in *.
  rewrite announce_no_error, (syscalls_logs _ (announce_logs r cmd args)),
    (executed_logs _ (announce_logs r cmd args)), !app_nil_r in *.
  split; [|split].
  - intros Hi. rewrite (Herr Hi), app_nil_r. reflexivity.
  - exists k. reflexivity.
  - destruct Hexec as [-> | (Hne & -> & Hns)]; [left | right]; auto.
Qed.

(** In the sandbox, once the namespace is captured: the command is run
    exactly once, after the capture, the locking of the thread and the first
    [k] calls of the setup, which go on as long as they succeed. *)
Lemma executeXTables_entered T r cmd (ignoreErrors : bool) stdin args s
    lockFile n w1 :
  inv_run (prepare (P:=P) XTablesWriteCmds r cmd args)
  = RunInSandbox lockFile →
  host_GetCurrentNS P (world s) = (inl n, w1) →
  let i := prepare (P:=P) XTablesWriteCmds r cmd args in
  let res :=
    executeXTables XTablesWriteCmds T r cmd ignoreErrors stdin args s in
  executed (trace res.2)
  = executed (trace s) ++ [(Args (inv_c i), Env (inv_c i), res.1)]
  ∧ ∃ k : nat,
      syscalls (trace res.2)
      = syscalls (trace s)
        ++ ScGetCurrentNS :: ScLockOSThread :: take k (setup_calls lockFile)
      ∧ (∀ j, (j < k)%nat →
           ∃ w', succeed n (take j (setup_calls lockFile))
                   (host_LockOSThread P w1) = Some w')
      ∧ (∀ j w', (j < length (setup_calls lockFile))%nat →
           succeed n (take j (setup_calls lockFile)) (host_LockOSThread P w1)
           = Some w' →
           (j < k)%nat).
Proof.
  intros Hrun Hns. cbv zeta.
  destruct (executeXTables_shape T r cmd ignoreErrors stdin args s)
    as (post & Hpost & _ & ->).
  rewrite Hrun. cbn [run fst snd trace].
  destruct (runInSandbox_entered lockFile
              (Cmd_Run
                 (with_streams (inv_c (prepare (P:=P) XTablesWriteCmds r cmd args))
                    (length (heap s)) (S (length (heap s))) stdin))
              (mkState (world s)
                 (trace s ++ announce P XTablesWriteCmds r cmd args)
                 ((heap s ++ [""]) ++ [""])) n w1 Hns)
    as (k & w2 & warns & Hw & _ & Hbefore & Hnext & ->).
  unfold Cmd_Run. cbn [world trace heap Args Env Stdin with_streams].
  destruct (host_Run P _ _ _ w2) as [[[err out] errout] w].
  cbn [fst snd trace].
  rewrite !executed_app, !syscalls_app.
  rewrite executed_syscalls, syscalls_syscalls.
  rewrite (executed_logs _ Hw), (syscalls_logs _ Hw).
  rewrite (executed_logs _ Hpost), (syscalls_logs _ Hpost).
  rewrite (executed_logs _ (announce_logs r cmd args)),
    (syscalls_logs _ (announce_logs r cmd args)).
  cbn. rewrite !app_nil_r. split; [reflexivity|].
  exists k. split; [reflexivity|]. split; assumption.
Qed.

Lemma needLock_true r cmd :
  cmd ∈ XTablesWriteCmds → NoLocks (IptablesVersion r) = false →
  needLock XTablesWriteCmds r cmd = true.
Proof.
  intros Hw Hl. unfold needLock, isWriteCommand.
  rewrite (bool_decide_eq_true_2 _ Hw), Hl. reflexivity.
Qed.

Lemma needLock_NoLocks r cmd :
  NoLocks (IptablesVersion r) = true →
  needLock XTablesWriteCmds r cmd = false.
Proof.
  intros Hl. unfold needLock. rewrite Hl. apply andb_false_r.
Qed.

Lemma needLock_read_only r cmd :
  cmd ∉ XTablesWriteCmds → needLock XTablesWriteCmds r cmd = false.
Proof.
  intros Hw. unfold needLock, isWriteCommand.
  rewrite (bool_decide_eq_false_2 _ Hw). reflexivity.
Qed.

(** C4.  In CNI mode, for a write command that needs the lock.  From 1.8.6
    on, the command is given the environment XTABLES_LOCKFILE=<network
    namespace>, the sandbox is asked for no lock file, the calls of the
    kernel are a prefix of the setup without a mount over the lock file,
    and once the namespace is captured the command runs exactly once with
    that environment.  Below 1.8.6 the environment of the command is left
    empty and the sandbox is asked to mount the network namespace over the
    lock file: once the namespace is captured the command runs exactly
    once with an empty environment, and when the unshare, the return to
    the namespace and the remount of the root have succeeded, the
    read-only bind mount of the network namespace over /run/xtables.lock
    is made next (the name of the namespace being not empty). *)
Theorem executeXTables_cni_lock_strategy T r cmd (ignoreErrors : bool) stdin
    args s :
  CNIMode r = true → cmd ∈ XTablesWriteCmds →
  NoLocks (IptablesVersion r) = false →
  let i := prepare (P:=P) XTablesWriteCmds r cmd args in
  let res :=
    executeXTables XTablesWriteCmds T r cmd ignoreErrors stdin args s in
  let ns := NetworkNamespace r in
  (le (generic [1; 8; 6]%N) (version (IptablesVersion r)) →
   Env (inv_c i) = ["XTABLES_LOCKFILE=" +:+ ns]
   ∧ inv_run i = RunInSandbox ""
   ∧ (∃ k, syscalls (trace res.2) = syscalls (trace s) ++
        take k [ScGetCurrentNS; ScLockOSThread; ScUnshare CLONE_NEWNS;
                ScSetNS; ScMount "" "/" "" (Z.lor MS_PRIVATE MS_REC) "";
                ScMount "/dev/null" "/etc/nsswitch.conf" ""
                  (Z.lor MS_BIND MS_RDONLY) ""])
   ∧ (executed (trace res.2) = executed (trace s)
      ∨ executed (trace res.2) = executed (trace s) ++
          [(cmd :: args, ["XTABLES_LOCKFILE=" +:+ ns], res.1)])
   ∧ (∀ n w1, host_GetCurrentNS P (world s) = (inl n, w1) →
        executed (trace res.2) = executed (trace s) ++
          [(cmd :: args, ["XTABLES_LOCKFILE=" +:+ ns], res.1)]))
  ∧ (lt (version (IptablesVersion r)) (generic [1; 8; 6]%N) →
     Env (inv_c i) = []
     ∧ inv_run i = RunInSandbox ns
     ∧ (∃ k, syscalls (trace res.2) = syscalls (trace s) ++
          take k (ScGetCurrentNS :: ScLockOSThread :: setup_calls ns))
     ∧ (ns ≠ "" →
        setup_calls ns =
          [ScUnshare CLONE_NEWNS; ScSetNS;
           ScMount "" "/" "" (Z.lor MS_PRIVATE MS_REC) "";
           ScMount ns "/run/xtables.lock" "" (Z.lor MS_BIND MS_RDONLY) "";
           ScMount "/dev/null" "/etc/nsswitch.conf" ""
             (Z.lor MS_BIND MS_RDONLY) ""])
     ∧ (executed (trace res.2) = executed (trace s)
        ∨ executed (trace res.2) = executed (trace s) ++
            [(cmd :: args, [], res.1)])
     ∧ (∀ n w1, host_GetCurrentNS P (world s) = (inl n, w1) →
          executed (trace res.2) = executed (trace s) ++
            [(cmd :: args, [], res.1)]
          ∧ (∀ w2, ns ≠ "" →
               succeed n [ScUnshare CLONE_NEWNS; ScSetNS;
                          ScMount "" "/" "" (Z.lor MS_PRIVATE MS_REC) ""]
                 (host_LockOSThread P w1) = Some w2 →
               ∃ k, syscalls (trace res.2) = syscalls (trace s) ++
                      [ScGetCurrentNS; ScLockOSThread; ScUnshare CLONE_NEWNS;
                       ScSetNS;
                       ScMount "" "/" "" (Z.lor MS_PRIVATE MS_REC) "";
                       ScMount ns "/run/xtables.lock" ""
                         (Z.lor MS_BIND MS_RDONLY) ""]
                      ++ take k [ScMount "/dev/null" "/etc/nsswitch.conf" ""
                                   (Z.lor MS_BIND MS_RDONLY) ""]))).
Proof.
  intros Hcni Hw Hl i res ns.
  pose proof (executeXTables_observed T r cmd ignoreErrors stdin args s) as Hobs.
  cbv zeta in Hobs. fold res in Hobs. destruct Hobs as (_ & Hsys & Hexec).
  pose proof (executeXTables_entered T r cmd ignoreErrors stdin args s) as Hin.
  cbv zeta in Hin. fold res in Hin.
  assert (Hi : prepare (P:=P) XTablesWriteCmds r cmd args
               = if LessThan (version (IptablesVersion r)) IptablesLockfileEnv
                 then mkInvocation "without lock by mount and nss"
                        (exec_Command cmd args) args (RunInSandbox ns)
                 else mkInvocation "without lock by env and nss"
                        (with_Env (exec_Command cmd args)
                           ([] ++ ["XTABLES_LOCKFILE=" +:+ ns]))
                        args (RunInSandbox "")).
  { unfold prepare. rewrite Hcni, (needLock_true r cmd Hw Hl). reflexivity. }
  subst i. rewrite Hi in *. clear Hi. split.
  - intros Hle. apply LessThan_false_le in Hle.
    unfold IptablesLockfileEnv in *. rewrite Hle in *.
    cbn [inv_c inv_run Env Args with_Env exec_Command app sandbox_calls] in *.
    split; [reflexivity|]. split; [reflexivity|]. split; [exact Hsys|].
    split; [destruct Hexec as [-> | (_ & -> & _)]; auto|].
    intros n w1 Hns. exact (proj1 (Hin "" n w1 eq_refl Hns)).
  - intros Hlt. apply LessThan_lt in Hlt.
    unfold IptablesLockfileEnv in *. rewrite Hlt in *.
    cbn [inv_c inv_run Env Args with_Env exec_Command app sandbox_calls] in *.
    assert (Hcalls : ns ≠ "" →
              setup_calls ns =
                [ScUnshare CLONE_NEWNS; ScSetNS;
                 ScMount "" "/" "" (Z.lor MS_PRIVATE MS_REC) "";
                 ScMount ns "/run/xtables.lock" "" (Z.lor MS_BIND MS_RDONLY) "";
                 ScMount "/dev/null" "/etc/nsswitch.conf" ""
                   (Z.lor MS_BIND MS_RDONLY) ""]).
    { intros Hns. unfold setup_calls.
      destruct (decide (ns ≠ "")); [reflexivity | contradiction]. }
    split; [reflexivity|]. split; [reflexivity|]. split; [exact Hsys|].
    split; [exact Hcalls|].
    split; [destruct Hexec as [-> | (_ & -> & _)]; auto|].
    intros n w1 Hns.
    destruct (Hin ns n w1 eq_refl Hns) as (Hx & k & Hk & _ & Hnext).
    split; [exact Hx|].
    intros w2 Hne Hthree. rewrite (Hcalls Hne) in Hk, Hnext.
    assert (3 < k)%nat as Hk3 by (apply (Hnext 3%nat w2); [cbn; lia | exact Hthree]).
    destruct k as [|[|[|[|k]]]]; try lia.
    exists k. rewrite Hk. reflexivity.
Qed.

(** C5.  On the host (not in CNI mode), for a write command: when the
    version supports locking ([NoLocks] is false, which is the case from
    1.6.2 on) the command is run once with the arguments of the caller
    followed by [--wait=30]; otherwise ([NoLocks] is true, the case below
    1.6.2) it is run once with the arguments of the caller as they are.
    Either way its environment is left empty and the error of that run is
    the one returned. *)
Theorem executeXTables_host_wait T r cmd (ignoreErrors : bool) stdin args s :
  CNIMode r = false → cmd ∈ XTablesWriteCmds →
  let i := prepare (P:=P) XTablesWriteCmds r cmd args in
  let res :=
    executeXTables XTablesWriteCmds T r cmd ignoreErrors stdin args s in
  let v := version (IptablesVersion r) in
  (le (generic [1; 6; 2]%N) v → NoLocks (IptablesVersion r) = false)
  ∧ (lt v (generic [1; 6; 2]%N) → NoLocks (IptablesVersion r) = true)
  ∧ (NoLocks (IptablesVersion r) = false →
     Args (inv_c i) = cmd :: args ++ ["--wait=30"]
     ∧ inv_run i = RunDirect
     ∧ executed (trace res.2) = executed (trace s) ++
         [(cmd :: args ++ ["--wait=30"], [], res.1)])
  ∧ (NoLocks (IptablesVersion r) = true →
     Args (inv_c i) = cmd :: args
     ∧ inv_run i = RunDirect
     ∧ executed (trace res.2) = executed (trace s) ++
         [(cmd :: args, [], res.1)]).
Proof.
  intros Hcni Hw i res v.
  pose proof (executeXTables_observed T r cmd ignoreErrors stdin args s) as Hobs.
  cbv zeta in Hobs. fold res in Hobs. destruct Hobs as (_ & _ & Hexec).
  split; [apply LessThan_false_le|]. split; [apply LessThan_lt|].
  subst i. unfold prepare in *. rewrite Hcni in *. split; intros Hl.
  - rewrite (needLock_true r cmd Hw Hl) in *.
    cbn [inv_c inv_run Env Args exec_Command] in *.
    repeat split. destruct Hexec as [-> | [Hne _]]; [reflexivity|].
    destruct (Hne eq_refl).
  - rewrite (needLock_NoLocks r cmd Hl) in *.
    cbn [inv_c inv_run Env Args exec_Command] in *.
    repeat split. destruct Hexec as [-> | [Hne _]]; [reflexivity|].
    destruct (Hne eq_refl).
Qed.

(** C7.  For a command that is not a write command, whatever the version:
    no lock is needed, the arguments are those of the caller, the
    environment of the command is left empty, the sandbox (in CNI mode) is
    asked for no lock file, and no call of the kernel mounts over the lock
    file. *)
Theorem executeXTables_read_only T r cmd (ignoreErrors : bool) stdin args s :
  cmd ∉ XTablesWriteCmds →
  let i := prepare (P:=P) XTablesWriteCmds r cmd args in
  let res :=
    executeXTables XTablesWriteCmds T r cmd ignoreErrors stdin args s in
  needLock XTablesWriteCmds r cmd = false
  ∧ inv_args i = args
  ∧ Args (inv_c i) = cmd :: args
  ∧ Env (inv_c i) = []
  ∧ inv_run i = (if CNIMode r then RunInSandbox "" else RunDirect)
  ∧ (∃ k, syscalls (trace res.2) = syscalls (trace s) ++
       take k (if CNIMode r
               then [ScGetCurrentNS; ScLockOSThread; ScUnshare CLONE_NEWNS;
                     ScSetNS; ScMount "" "/" "" (Z.lor MS_PRIVATE MS_REC) "";
                     ScMount "/dev/null" "/etc/nsswitch.conf" ""
                       (Z.lor MS_BIND MS_RDONLY) ""]
               else []))
  ∧ (executed (trace res.2) = executed (trace s)
     ∨ executed (trace res.2)
       = executed (trace s) ++ [(cmd :: args, [], res.1)]).
Proof.
  intros Hw i res.
  pose proof (executeXTables_observed T r cmd ignoreErrors stdin args s) as Hobs.
  cbv zeta in Hobs. fold res in Hobs. destruct Hobs as (_ & Hsys & Hexec).
  subst i. unfold prepare in *. rewrite (needLock_read_only r cmd Hw) in *.
  destruct (CNIMode r);
    cbn [inv_c inv_run inv_args Env Args exec_Command sandbox_calls] in *;
    repeat split; try assumption;
    destruct Hexec as [-> | (_ & -> & _)]; auto.
Qed.

(** C8, as amended.  The error [executeXTables] returns is the same whether
    errors are ignored or not and whatever the translation of the error
    output, so it is never the translated text; so are the state of the
    host, the calls of the kernel and the commands run: the flag and the
    translation change lines of the log only, and when errors are ignored
    nothing is logged at the error level.  The error returned is the one
    the run of the command gave, the command being run exactly once, on
    the host and, in CNI mode, whenever the current network namespace is
    captured.  In CNI mode, when that capture fails, the command is not
    run and the error returned is that of the capture, wrapped as "failed to
    get current namespace". *)
Theorem executeXTables_returns_run_error r cmd stdin args s
    (ignoreErrors ignoreErrors' : bool) T T' :
  let i := prepare (P:=P) XTablesWriteCmds r cmd args in
  let c :=
    with_streams (inv_c i) (length (heap s)) (S (length (heap s))) stdin in
  let s1 := mkState (world s)
              (trace s ++ announce P XTablesWriteCmds r cmd args)
              ((heap s ++ [""]) ++ [""]) in
  let res :=
    executeXTables XTablesWriteCmds T r cmd ignoreErrors stdin args s in
  let res' :=
    executeXTables XTablesWriteCmds T' r cmd ignoreErrors' stdin args s in
  res.1 = (run (inv_run i) c s1).1
  ∧ res.1 = res'.1
  ∧ world res.2 = world res'.2
  ∧ syscalls (trace res.2) = syscalls (trace res'.2)
  ∧ executed (trace res.2) = executed (trace res'.2)
  ∧ (ignoreErrors = true →
     logged ErrorLevel (trace res.2) = logged ErrorLevel (trace s))
  ∧ (executed (trace res.2)
     = executed (trace s) ++ [(Args (inv_c i), Env (inv_c i), res.1)]
     ∨ (CNIMode r = true
        ∧ executed (trace res.2) = executed (trace s)
        ∧ ∃ nerr w1, host_GetCurrentNS P (world s) = (inr nerr, w1)
            ∧ res.1 = Some (Errorf "failed to get current namespace" nerr)))
  ∧ (inv_run i = RunDirect →
     res.1 = (host_Run P (Args c) (Env c) stdin (world s)).1.1.1)
  ∧ (CNIMode r = false → inv_run i = RunDirect)
  ∧ (CNIMode r = true →
     (∀ n w1, host_GetCurrentNS P (world s) = (inl n, w1) →
        executed (trace res.2)
        = executed (trace s) ++ [(Args (inv_c i), Env (inv_c i), res.1)])
     ∧ (∀ nerr w1, host_GetCurrentNS P (world s) = (inr nerr, w1) →
          executed (trace res.2) = executed (trace s)
          ∧ res.1 = Some (Errorf "failed to get current namespace" nerr))).
Proof.
  cbv zeta.
  pose proof (executeXTables_observed T r cmd ignoreErrors stdin args s) as Hobs.
  cbv zeta in Hobs. destruct Hobs as (Hlog & _ & Hexec).
  pose proof (executeXTables_entered T r cmd ignoreErrors stdin args s) as Hin.
  cbv zeta in Hin.
  assert (Hcni : inv_run (prepare (P:=P) XTablesWriteCmds r cmd args)
                 ≠ RunDirect → CNIMode r = true).
  { unfold prepare. destruct (CNIMode r); [reflexivity|].
    destruct (needLock XTablesWriteCmds r cmd); intros H; destruct (H eq_refl). }
  assert (Hsand : CNIMode r = true →
            ∃ lockFile, inv_run (prepare (P:=P) XTablesWriteCmds r cmd args)
                        = RunInSandbox lockFile).
  { intros E. unfold prepare. rewrite E.
    destruct (needLock XTablesWriteCmds r cmd);
      [destruct (LessThan _ _)|]; eexists; reflexivity. }
  assert (Hhost : CNIMode r = false →
            inv_run (prepare (P:=P) XTablesWriteCmds r cmd args) = RunDirect).
  { intros E. unfold prepare. rewrite E.
    destruct (needLock XTablesWriteCmds r cmd); reflexivity. }
  destruct (executeXTables_shape T r cmd ignoreErrors stdin args s)
    as (post & Hpost & _ & E).
  destruct (executeXTables_shape T' r cmd ignoreErrors' stdin args s)
    as (post' & Hpost' & _ & E').
  cbv zeta in E, E'. rewrite E in *. rewrite E'. cbn [fst snd world trace].
  repeat (split; [reflexivity|]).
  rewrite !syscalls_app, !executed_app.
  rewrite (syscalls_logs _ Hpost), (syscalls_logs _ Hpost'),
    (executed_logs _ Hpost), (executed_logs _ Hpost').
  repeat (split; [reflexivity|]).
  cbn [fst snd trace] in Hexec, Hin. rewrite executed_app in Hexec, Hin.
  rewrite (executed_logs _ Hpost) in Hexec, Hin.
  split; [exact Hlog|]. split.
  { destruct Hexec as [Hx | (Hne & Hx & Hns)]; [left; exact Hx|].
    right. split; [exact (Hcni Hne)|]. split; [exact Hx | exact Hns]. }
  split.
  { intros ->. cbn [run]. unfold Cmd_Run.
    cbn [world Args Env Stdin with_streams].
    destruct (host_Run P _ _ stdin (world s)) as [[[err out] errout] w].
    reflexivity. }
  split; [exact Hhost|].
  intros Hc. destruct (Hsand Hc) as [lockFile Hrun]. split.
  - intros n w1 Hns. exact (proj1 (Hin lockFile n w1 Hrun Hns)).
  - intros nerr w1 Hns. rewrite Hrun. cbn [run].
    rewrite (runInSandbox_no_namespace lockFile _
               (mkState (world s)
                  (trace s ++ announce P XTablesWriteCmds r cmd args)
                  ((heap s ++ [""]) ++ [""])) nerr w1 Hns).
    cbn [fst snd trace]. rewrite !executed_app.
    rewrite (executed_logs _ (announce_logs r cmd args)).
    cbn. rewrite !app_nil_r. split; reflexivity.
Qed.

(** C10.  In CNI mode the environment set on the command is the single
    entry XTABLES_LOCKFILE=<network namespace> when the lock is needed and
    the version is 1.8.6 or above, and is left empty otherwise; whatever the
    configuration store holds, the command runs at most once and with that
    environment. *)
Theorem executeXTables_cni_environment T r cmd (ignoreErrors : bool) stdin
    args s :
  CNIMode r = true →
  let i := prepare (P:=P) XTablesWriteCmds r cmd args in
  let res :=
    executeXTables XTablesWriteCmds T r cmd ignoreErrors stdin args s in
  let env :=
    if needLock XTablesWriteCmds r cmd
       && negb (LessThan (version (IptablesVersion r)) IptablesLockfileEnv)
    then ["XTABLES_LOCKFILE=" +:+ NetworkNamespace r] else [] in
  Env (inv_c i) = env
  ∧ (executed (trace res.2) = executed (trace s)
     ∨ executed (trace res.2)
       = executed (trace s) ++ [(cmd :: args, env, res.1)]).
Proof.
  intros Hcni i res env.
  pose proof (executeXTables_observed T r cmd ignoreErrors stdin args s) as Hobs.
  cbv zeta in Hobs. fold res in Hobs. destruct Hobs as (_ & _ & Hexec).
  subst i env. unfold prepare in *. rewrite Hcni in *.
  destruct (needLock XTablesWriteCmds r cmd);
    [destruct (LessThan (version (IptablesVersion r)) IptablesLockfileEnv)|];
    cbn [andb negb inv_c inv_run Env Args with_Env exec_Command app] in *;
    (split; [reflexivity|]);
    destruct Hexec as [-> | (_ & -> & _)]; auto.
Qed.

End xtables.

(** ** execute *)

Section executor.

Context {P : Platform}.

Implicit Types (s : State P) (c : Cmd P) (keys : list string).

Lemma string_map_get (f : ascii → ascii) (k : string) (i : nat) :
  String.get i (string_map f k) = f <$> String.get i k.
Proof.
  revert i. induction k as [|a k IH]; intros [|i]; cbn; auto.
Qed.

Lemma string_map_length (f : ascii → ascii) (k : string) :
  String.length (string_map f k) = String.length k.
Proof. induction k as [|a k IH]; cbn; auto. Qed.

Lemma isASCII_repl_Replace (k : string) :
  isASCII (repl_Replace k) = isASCII k.
Proof.
  induction k as [|a k IH]; cbn [repl_Replace string_map isASCII];
    [reflexivity|].
  fold (repl_Replace k). rewrite IH. unfold dash_to_underscore.
  destruct (decide (a = "-"%char)) as [->|]; reflexivity.
Qed.

(** On a key of ASCII characters the name is computed byte by byte. *)
Lemma ToUpper_repl_Replace_ascii (k : string) :
  isASCII k = true →
  ToUpper P (repl_Replace k) = string_map upper_ascii (repl_Replace k).
Proof. intros Hk. unfold ToUpper. rewrite isASCII_repl_Replace, Hk. reflexivity. Qed.

(** The loop appends, in the order of the keys, one entry for each key
    that has a value, and leaves the state as it is. *)
Lemma propagate_config_spec keys c s :
  propagate_config keys c s
  = (with_Env c (Env c ++ omap (config_entry (world s)) keys), s).
Proof.
  revert c. induction keys as [|k keys IH]; intros c.
  - cbn. unfold ret, with_Env. rewrite app_nil_r. destruct c; reflexivity.
  - cbn [propagate_config omap list_omap]. unfold bind, viper_Get.
    unfold config_entry at 1.
    destruct (host_Get P k (world s)) as [v|].
    + rewrite IH. cbn [Env with_Env Args Stdin Stdout Stderr].
      unfold with_Env. cbn [Env Args Stdin Stdout Stderr].
      rewrite <- app_assoc. reflexivity.
    + apply IH.
Qed.

(** [execute] announces the command, runs it once with the environment
    the loop has built, and returns the error of that run after it has
    logged what the buffers hold. *)
Lemma execute_shape cmd (ignoreErrors : bool) (stdin : option (Reader P))
    args s :
  ∃ line err w' h' post,
    forallb is_log post = true
    ∧ execute cmd ignoreErrors stdin args s
      = (err,
         mkState w'
           (trace s ++
            [EvLog InfoLevel line;
             EvExec (cmd :: args)
               (omap (config_entry (world s)) (host_AllKeys P (world s)))
               err] ++ post)
           h').
Proof.
  unfold execute.
  unfold bind at 1 2 3 4 5. unfold logf at 1, newBuffer, viper_AllKeys.
  cbn [world trace heap]. rewrite propagate_config_spec.
  cbn [world trace heap]. unfold bind at 1. unfold Cmd_Run.
  cbn [world trace heap Args Env Stdin Stdout Stderr with_Env with_streams
       exec_Command app].
  destruct (host_Run P _ _ _ _) as [[[err out] errout] w'].
  unfold bind, Buffer_String, when, logf, ret. cbn [world trace heap].
  destruct (negb (String.length _ =? 0)%nat);
    destruct (negb ignoreErrors && _);
    cbn [fst snd world trace heap]; rewrite <- ?app_assoc; cbn [app];
    first
      [ eexists _, _, _, _, [_; _]; split; [|reflexivity]; reflexivity
      | eexists _, _, _, _, [_]; split; [|reflexivity]; reflexivity
      | eexists _, _, _, _, []; split; [|reflexivity]; reflexivity ].
Qed.

(** C9, as amended.  [execute] runs the command once, with the arguments of
    the caller and an environment that holds, in the order of the keys of
    the configuration store, one entry NAME=value for each key whose value
    is not nil, the value as printed by %v, an empty string included; NAME
    is [strings.ToUpper] of the key with each hyphen turned into an
    underscore.  For a key of ASCII characters that is the key with each
    hyphen turned into an underscore and each letter a to z into its upper
    case, every other character, a dot for one, being kept; for any other
    key the upper case is that of package [unicode]. *)
Theorem execute_environment cmd (ignoreErrors : bool)
    (stdin : option (Reader P)) args s :
  let res := execute cmd ignoreErrors stdin args s in
  let w := world s in
  executed (trace res.2) = executed (trace s) ++
    [(cmd :: args, omap (config_entry w) (host_AllKeys P w), res.1)]
  ∧ (∀ k, config_entry w k
          = (λ v, ToUpper P (repl_Replace k) +:+ "=" +:+ fmt_v P v)
            <$> host_Get P k w)
  ∧ (∀ k, isASCII k = true →
       String.length (ToUpper P (repl_Replace k)) = String.length k)
  ∧ (∀ k i a, isASCII k = true → String.get i k = Some a →
       String.get i (ToUpper P (repl_Replace k))
       = Some (if decide (a = "-"%char) then "_"%char
               else if (97 <=? N_of_ascii a)%N && (N_of_ascii a <=? 122)%N
                    then ascii_of_N (N_of_ascii a - 32)
                    else a))
  ∧ (∀ k, isASCII k = false →
       ToUpper P (repl_Replace k) = unicode_ToUpper P (repl_Replace k)).
Proof.
  cbv zeta. split; [|split; [|split; [|split]]].
  - destruct (execute_shape cmd ignoreErrors stdin args s)
      as (line & err & w' & h' & post & Hpost & ->).
    cbn [fst snd trace]. rewrite !executed_app, (executed_logs _ Hpost).
    reflexivity.
  - intros k. unfold config_entry. destruct (host_Get P k (world s)); reflexivity.
  - intros k Hk. rewrite (ToUpper_repl_Replace_ascii k Hk).
    unfold repl_Replace. rewrite !string_map_length. reflexivity.
  - intros k i a Hascii Hk. rewrite (ToUpper_repl_Replace_ascii k Hascii).
    unfold repl_Replace.
    rewrite !string_map_get, Hk. cbn [fmap option_fmap option_map].
    unfold dash_to_underscore, upper_ascii.
    destruct (decide (a = "-"%char)) as [->|]; reflexivity.
  - intros k Hk. unfold ToUpper. rewrite isASCII_repl_Replace, Hk. reflexivity.
Qed.

End executor.

(** The claim of C9 fails on a store that holds a key with a dot and a key
    with an empty value: the dot is kept and the empty value is passed on,
    where the claim has an underscore and no entry. *)
Lemma execute_environment_counterexample :
  let w := Sim.configured [("log.level", Some "debug"); ("tag", Some "")] in
  let res := execute (P:=Sim.platform) "iptables" false None ["-L"]
               (Sim.start w) in
  executed (trace res.2)
  = [(["iptables"; "-L"], ["LOG.LEVEL=debug"; "TAG="], None)]
  ∧ claimed_environment (P:=Sim.platform) w = ["LOG_LEVEL=debug"]
  ∧ ["LOG.LEVEL=debug"; "TAG="] ≠ claimed_environment (P:=Sim.platform) w.
Proof. repeat split. discriminate. Qed.

(** ** Runs on the scripted host *)

Lemma write_command_iptables : "iptables" ∈ Sim.writeCmds.
Proof. apply (bool_decide_unpack _). vm_compute. exact I. Qed.

Lemma read_command_iptables_save : "iptables-save" ∉ Sim.writeCmds.
Proof. apply (bool_decide_unpack _). vm_compute. exact I. Qed.

Lemma version_le_refl v : le v v.
Proof. right. intros i. reflexivity. Qed.

Lemma version_lt_computed v w : LessThan v w = true → lt v w.
Proof. apply LessThan_lt. Qed.

Example NoLocks_examples :
  NoLocks {| version := generic [1; 6; 1]%N |} = true
  ∧ NoLocks {| version := generic [1; 4; 21]%N |} = true
  ∧ NoLocks {| version := generic [1; 6; 2]%N |} = false
  ∧ NoLocks {| version := generic [1; 8; 9]%N |} = false
  ∧ NoLocks {| version := generic [1; 10]%N |} = false.
Proof. repeat split. Qed.

Lemma executeXTables_cni_lock_strategy_witness :
  (let res := executeXTables (P:=Sim.platform) Sim.writeCmds Sim.translate
                (Sim.deps [1; 8; 6]%N true) "iptables" false None
                ["-t"; "nat"] (Sim.start (Sim.host None)) in
   executed (trace res.2)
   = [] ++ [("iptables" :: ["-t"; "nat"],
             ["XTABLES_LOCKFILE=" +:+ "/var/run/netns/pod1"], res.1)])
  ∧ (let res := executeXTables (P:=Sim.platform) Sim.writeCmds Sim.translate
                  (Sim.deps [1; 8; 5]%N true) "iptables" false None
                  ["-t"; "nat"] (Sim.start (Sim.host None)) in
     executed (trace res.2) = [] ++ [("iptables" :: ["-t"; "nat"], [], res.1)]
     ∧ ∃ k, syscalls (trace res.2)
            = [] ++ [ScGetCurrentNS; ScLockOSThread; ScUnshare CLONE_NEWNS;
                     ScSetNS;
                     ScMount "" "/" "" (Z.lor MS_PRIVATE MS_REC) "";
                     ScMount "/var/run/netns/pod1" "/run/xtables.lock" ""
                       (Z.lor MS_BIND MS_RDONLY) ""]
              ++ take k [ScMount "/dev/null" "/etc/nsswitch.conf" ""
                           (Z.lor MS_BIND MS_RDONLY) ""]).
Proof.
  split.
  - destruct (executeXTables_cni_lock_strategy (P:=Sim.platform)
                Sim.writeCmds Sim.translate (Sim.deps [1; 8; 6]%N true)
                "iptables" false None ["-t"; "nat"] (Sim.start (Sim.host None))
                eq_refl write_command_iptables eq_refl) as [H _].
    destruct (H (version_le_refl _)) as (_ & _ & _ & _ & HX).
    exact (HX tt (Sim.host None) eq_refl).
  - destruct (executeXTables_cni_lock_strategy (P:=Sim.platform)
                Sim.writeCmds Sim.translate (Sim.deps [1; 8; 5]%N true)
                "iptables" false None ["-t"; "nat"] (Sim.start (Sim.host None))
                eq_refl write_command_iptables eq_refl) as [_ H].
    destruct (H (version_lt_computed (generic [1; 8; 5]%N)
                   (generic [1; 8; 6]%N) eq_refl)) as (_ & _ & _ & _ & _ & HX).
    destruct (HX tt (Sim.host None) eq_refl) as [Hrun Hmount].
    split; [exact Hrun|].
    assert ("/var/run/netns/pod1" ≠ "") as Hne by discriminate.
    exact (Hmount (Sim.host None) Hne eq_refl).
Defined.

Lemma executeXTables_host_wait_witness :
  (let res := executeXTables (P:=Sim.platform) Sim.writeCmds Sim.translate
                (Sim.deps [1; 6; 2]%N false) "iptables" false None
                ["-t"; "nat"] (Sim.start (Sim.host None)) in
   executed (trace res.2)
   = [] ++ [("iptables" :: ["-t"; "nat"] ++ ["--wait=30"], [], res.1)])
  ∧ (let res := executeXTables (P:=Sim.platform) Sim.writeCmds Sim.translate
                  (Sim.deps [1; 6; 1]%N false) "iptables" false None
                  ["-t"; "nat"] (Sim.start (Sim.host None)) in
     executed (trace res.2) = [] ++ [("iptables" :: ["-t"; "nat"], [], res.1)]).
Proof.
  split.
  - destruct (executeXTables_host_wait (P:=Sim.platform)
                Sim.writeCmds Sim.translate (Sim.deps [1; 6; 2]%N false)
                "iptables" false None ["-t"; "nat"] (Sim.start (Sim.host None))
                eq_refl write_command_iptables) as (Hle & _ & H & _).
    destruct (H (Hle (version_le_refl _))) as (_ & _ & HE). exact HE.
  - destruct (executeXTables_host_wait (P:=Sim.platform)
                Sim.writeCmds Sim.translate (Sim.deps [1; 6; 1]%N false)
                "iptables" false None ["-t"; "nat"] (Sim.start (Sim.host None))
                eq_refl write_command_iptables) as (_ & Hlt & _ & H).
    destruct (H (Hlt (version_lt_computed (generic [1; 6; 1]%N)
                        (generic [1; 6; 2]%N) eq_refl))) as (_ & _ & HE).
    exact HE.
Defined.

Lemma executeXTables_read_only_witness :
  let r := Sim.deps [1; 8; 9]%N true in
  let i := prepare (P:=Sim.platform) Sim.writeCmds r "iptables-save"
             ["-t"; "nat"] in
  needLock Sim.writeCmds r "iptables-save" = false
  ∧ inv_args i = ["-t"; "nat"]
  ∧ Args (inv_c i) = ["iptables-save"; "-t"; "nat"]
  ∧ Env (inv_c i) = []
  ∧ inv_run i = RunInSandbox "".
Proof.
  destruct (executeXTables_read_only (P:=Sim.platform)
              Sim.writeCmds Sim.translate (Sim.deps [1; 8; 9]%N true)
              "iptables-save" false None ["-t"; "nat"]
              (Sim.start (Sim.host None)) read_command_iptables_save)
    as (H1 & H2 & H3 & H4 & H5 & _).
  repeat split; assumption.
Defined.

Lemma executeXTables_cni_environment_witness :
  let w := Sim.configured [("log-level", Some "debug")] in
  let res := executeXTables (P:=Sim.platform) Sim.writeCmds Sim.translate
               (Sim.deps [1; 8; 9]%N true) "iptables" false None
               ["-t"; "nat"] (Sim.start w) in
  executed (trace res.2) = []
  ∨ executed (trace res.2)
    = [] ++ [("iptables" :: ["-t"; "nat"],
              ["XTABLES_LOCKFILE=/var/run/netns/pod1"], res.1)].
Proof.
  exact (proj2 (executeXTables_cni_environment (P:=Sim.platform)
                  Sim.writeCmds Sim.translate (Sim.deps [1; 8; 9]%N true)
                  "iptables" false None ["-t"; "nat"]
                  (Sim.start (Sim.configured [("log-level", Some "debug")]))
                  eq_refl)).
Defined.

(** On the same host and store, [execute] passes the store on and
    [executeXTables] in CNI mode does not. *)
Example environment_of_execute_and_executeXTables :
  let w := Sim.configured [("log-level", Some "debug")] in
  executed (trace (execute (P:=Sim.platform) "iptables" false None
                     ["-t"; "nat"] (Sim.start w)).2)
  = [(["iptables"; "-t"; "nat"], ["LOG_LEVEL=debug"], None)]
  ∧ executed (trace (executeXTables (P:=Sim.platform) Sim.writeCmds
                       Sim.translate (Sim.deps [1; 8; 9]%N true) "iptables"
                       false None ["-t"; "nat"] (Sim.start w)).2)
    = [(["iptables"; "-t"; "nat"],
        ["XTABLES_LOCKFILE=/var/run/netns/pod1"], None)].
Proof. split; reflexivity. Qed.

(** The claim of C8 fails in CNI mode on a host that denies the capture of
    the namespace: the command, which would have succeeded, is not run, and
    the error of the capture is what [executeXTables] returns. *)
Lemma executeXTables_returns_run_error_counterexample :
  let res := executeXTables (P:=Sim.platform) Sim.writeCmds Sim.translate
               (Sim.deps [1; 8; 9]%N true) "iptables" false None
               ["-t"; "nat"] (Sim.start (Sim.getns_denied None)) in
  res.1 = Some (errorString
                  "failed to get current namespace: operation not permitted")
  ∧ executed (trace res.2) = []
  ∧ (host_Run Sim.platform ["iptables"; "-t"; "nat"]
       ["XTABLES_LOCKFILE=/var/run/netns/pod1"] None
       (Sim.getns_denied None)).1.1.1 = None.
Proof. repeat split. Qed.

(** * Further properties of the execution core *)

Section buffers.

Lemma buffers_written (h : list string) (out errout : string) :
  write_to (Some (S (length h))) errout
    (write_to (Some (length h)) out ((h ++ [""]) ++ [""]))
  = h ++ [out; errout].
Proof.
  unfold write_to. rewrite <- app_assoc. cbn [app].
  rewrite <- (Nat.add_0_r (length h)) at 2. rewrite alter_app_r.
  rewrite <- (Nat.add_1_r (length h)). rewrite alter_app_r. reflexivity.
Qed.

Lemma buffer_lookup_out (h : list string) (out errout : string) :
  default "" ((h ++ [out; errout]) !! length h) = out.
Proof.
  rewrite lookup_app_r by lia. rewrite Nat.sub_diag. reflexivity.
Qed.

Lemma buffer_lookup_err (h : list string) (out errout : string) :
  default "" ((h ++ [out; errout]) !! S (length h)) = errout.
Proof.
  rewrite lookup_app_r by lia.
  replace (S (length h) - length h)%nat with 1%nat by lia. reflexivity.
Qed.

Lemma invoked_logs tr : forallb is_log tr = true → invoked tr = [].
Proof.
  induction tr as [|[] tr IH]; cbn; try discriminate; auto.
Qed.

Lemma invoked_app tr1 tr2 : invoked (tr1 ++ tr2) = invoked tr1 ++ invoked tr2.
Proof. apply omap_app. Qed.

End buffers.

Section sandbox_more.

Context {P : Platform}.

Implicit Types (s : State P) (op : World P → error * World P)
  (lockFile : string).

(** X1.  [runInSandbox] never invokes the operation twice.  Either the
    capture of the namespace has failed, the operation has not been invoked
    and the error of the capture is returned; or the operation has been
    invoked exactly once and what it gave is what [runInSandbox] returns. *)
Theorem runInSandbox_at_most_once lockFile op s :
  let r := runInSandbox lockFile (invoke op) s in
  (invoked (trace r.2) = invoked (trace s)
   ∧ ∃ nerr w1, host_GetCurrentNS P (world s) = (inr nerr, w1)
       ∧ r.1 = Some (Errorf "failed to get current namespace" nerr))
  ∨ invoked (trace r.2) = invoked (trace s) ++ [r.1].
Proof.
  cbv zeta.
  destruct (runInSandbox_shape lockFile (invoke op) s)
    as [(nerr & w1 & Hns & ->) | (w2 & cs & post & warns & Hcs & Hw & _ & ->)].
  - left. cbn [fst snd trace]. rewrite invoked_app. cbn.
    rewrite app_nil_r. split; [reflexivity|].
    exists nerr, w1. split; [exact Hns | reflexivity].
  - right. unfold invoke, call. cbn [world trace heap].
    destruct (op w2) as [res w3]. cbn [fst snd trace].
    rewrite !invoked_app, invoked_syscalls, (invoked_logs _ Hw). cbn.
    rewrite !app_nil_r. reflexivity.
Qed.

(** X2.  The calls of the kernel made by [runInSandbox].  When the capture
    of the namespace fails it is the only call.  Otherwise the thread is
    locked and the first [k] calls of the setup are made (the unshare, the
    return to the network namespace, the remount of the root, the bind
    mounts): each call that is made comes after the success of every call
    before it, and after calls that have succeeded the next one is made.
    So a mount is made only when the unshare and the return to the
    namespace have both succeeded, and every mount is either the private,
    recursive remount of the root or a read-only bind mount, of the lock
    file over /run/xtables.lock or of /dev/null over /etc/nsswitch.conf. *)
Theorem runInSandbox_calls lockFile op s :
  let r := runInSandbox lockFile (invoke op) s in
  let captured := host_GetCurrentNS P (world s) in
  let w := host_LockOSThread P captured.2 in
  match captured.1 with
  | inr _ => syscalls (trace r.2) = syscalls (trace s) ++ [ScGetCurrentNS]
  | inl n =>
      ∃ k : nat,
        syscalls (trace r.2)
        = syscalls (trace s)
          ++ ScGetCurrentNS :: ScLockOSThread :: take k (setup_calls lockFile)
        ∧ (∀ i, (i < k)%nat →
             ∃ w', succeed n (take i (setup_calls lockFile)) w = Some w')
        ∧ (∀ j w', (j < length (setup_calls lockFile))%nat →
             succeed n (take j (setup_calls lockFile)) w = Some w' →
             (j < k)%nat)
        ∧ ∀ source target fstype flags data,
            ScMount source target fstype flags data
              ∈ take k (setup_calls lockFile) →
            (host_Unshare P CLONE_NEWNS w).1 = None
            ∧ (host_SetNS P n (host_Unshare P CLONE_NEWNS w).2).1 = None
            ∧ fstype = "" ∧ data = ""
            ∧ ((source = "" ∧ target = "/"
                ∧ flags = Z.lor MS_PRIVATE MS_REC)
               ∨ (Z.testbit flags 0 = true ∧ Z.land flags MS_BIND = MS_BIND
                  ∧ ((source = lockFile ∧ lockFile ≠ ""
                      ∧ target = "/run/xtables.lock")
                     ∨ (source = "/dev/null"
                        ∧ target = "/etc/nsswitch.conf"))))
  end.
Proof.
  cbv zeta.
  destruct (host_GetCurrentNS P (world s)) as [[n|nerr] w1] eqn:Hns;
    cbn [fst snd].
  2: { rewrite (runInSandbox_no_namespace lockFile _ s nerr w1 Hns).
       cbn [fst snd trace]. rewrite syscalls_app. reflexivity. }
  destruct (runInSandbox_entered lockFile (invoke op) s n w1 Hns)
    as (k & w2 & warns & Hw & _ & Hbefore & Hnext & ->).
  exists k. split; [|split; [exact Hbefore|split; [exact Hnext|]]].
  { unfold invoke, call. cbn [world trace heap].
    destruct (op w2) as [res w3]. cbn [fst snd trace].
    rewrite !syscalls_app, syscalls_syscalls, (syscalls_logs _ Hw). cbn.
    rewrite !app_nil_r. reflexivity. }
  intros source target fstype flags data Hin.
  assert (2 < k)%nat as Hk.
  { destruct k as [|[|[|k]]]; [| | |lia]; exfalso; revert Hin;
      unfold setup_calls; cbn [take app];
      rewrite ?elem_of_cons, elem_of_nil; intros H;
      repeat match goal with
             | H : _ ∨ _ |- _ => destruct H
             | H : False |- _ => destruct H
             | H : ScMount _ _ _ _ _ = _ |- _ => discriminate H
             end. }
  destruct (Hbefore 2%nat Hk) as [w' Htwo].
  unfold setup_calls in Htwo. cbn [take app succeed perform] in Htwo.
  destruct (host_Unshare P CLONE_NEWNS (host_LockOSThread P w1))
    as [[e|] wu]; [discriminate|].
  cbn [fst snd].
  destruct (host_SetNS P n wu) as [[e|] wn]; [discriminate|].
  cbn [fst snd]. split; [reflexivity|]. split; [reflexivity|].
  apply subseteq_take in Hin. unfold setup_calls in Hin.
  rewrite !elem_of_app in Hin.
  destruct (decide (lockFile ≠ "")) as [Hlock|Hlock];
    rewrite ?elem_of_cons, ?elem_of_nil in Hin;
    repeat match goal with
    | H : _ ∨ _ |- _ => destruct H
    | H : False |- _ => destruct H
    | H : ScMount _ _ _ _ _ = _ |- _ =>
        first [discriminate H | injection H as -> -> -> -> ->]
    end;
    (split; [reflexivity|]; split; [reflexivity|]);
    first [ left; by repeat split
          | right; split; [reflexivity|]; split; [reflexivity|];
            first [ left; by repeat split | right; by split ] ].
Qed.

End sandbox_more.

Section executor_more.

Context {P : Platform}.

Implicit Types (s : State P) (cmd : string) (args : list string)
  (stdin : option (Reader P)).

(** [execute], step by step: the line that announces the command, the run,
    the line for the standard output and the line for the standard error;
    the two buffers end up holding what the process wrote. *)
Lemma execute_run cmd (ignoreErrors : bool) stdin args s :
  let env := omap (config_entry (world s)) (host_AllKeys P (world s)) in
  let ran := host_Run P (cmd :: args) env stdin (world s) in
  let err := ran.1.1.1 in
  let out := ran.1.1.2 in
  let errout := ran.1.2 in
  execute cmd ignoreErrors stdin args s
  = (err,
     mkState ran.2
       (trace s ++
        [EvLog InfoLevel
           ("Running command: " +:+ cmd +:+ " " +:+ Join args " ");
         EvExec (cmd :: args) env err]
        ++ (if negb (String.length out =? 0)%nat
            then [EvLog InfoLevel ("Command output: " +:+ newline +:+ out)]
            else [])
        ++ (if negb ignoreErrors && negb (String.length errout =? 0)%nat
            then [EvLog ErrorLevel
                    ("Command error output: " +:+ newline +:+ errout)]
            else []))
       (heap s ++ [out; errout])).
Proof.
  cbv zeta. unfold execute.
  unfold bind at 1 2 3 4 5. unfold logf at 1, newBuffer, viper_AllKeys.
  cbn [world trace heap]. rewrite propagate_config_spec.
  cbn [world trace heap]. unfold bind at 1. unfold Cmd_Run.
  cbn [world trace heap Args Env Stdin Stdout Stderr with_Env with_streams
       exec_Command app].
  rewrite length_app, Nat.add_1_r. cbn [length].
  destruct (host_Run P _ _ _ _) as [[[err out] errout] w'].
  rewrite buffers_written.
  unfold bind, Buffer_String, when, logf, ret. cbn [world trace heap fst snd].
  rewrite buffer_lookup_out.
  destruct (negb (String.length out =? 0)%nat);
    cbn [world trace heap]; rewrite buffer_lookup_err;
    destruct (negb ignoreErrors && negb (String.length errout =? 0)%nat);
    cbn [world trace heap]; rewrite <- ?app_assoc; cbn [app];
    rewrite ?app_nil_r; reflexivity.
Qed.

(** X3.  [execute] returns the error that [Cmd.Run] gave, as it is: the
    flag [ignoreErrors] changes neither the error returned nor the state in
    which the host is left.  [execute] runs the command on the host
    directly: it makes no call of the kernel for a namespace or a mount. *)
Theorem execute_returns_run_error cmd stdin args s
    (ignoreErrors ignoreErrors' : bool) :
  let env := omap (config_entry (world s)) (host_AllKeys P (world s)) in
  let ran := host_Run P (cmd :: args) env stdin (world s) in
  let res := execute cmd ignoreErrors stdin args s in
  let res' := execute cmd ignoreErrors' stdin args s in
  res.1 = ran.1.1.1
  ∧ world res.2 = ran.2
  ∧ res'.1 = res.1
  ∧ world res'.2 = world res.2
  ∧ syscalls (trace res.2) = syscalls (trace s).
Proof.
  cbv zeta. rewrite !execute_run. cbn [fst snd world trace].
  repeat (split; [reflexivity|]).
  rewrite !syscalls_app.
  destruct (negb (String.length _ =? 0)%nat);
    destruct (negb ignoreErrors && _); cbn; rewrite ?app_nil_r; reflexivity.
Qed.

(** X4.  What [execute] logs.  The standard output of the command is logged
    at the info level when it is not empty, whatever the flag.  The
    standard error is logged at the error level exactly when errors are not
    ignored and the command wrote to it: a command that fails without
    writing to its standard error leaves no line at the error level. *)
Theorem execute_logging cmd (ignoreErrors : bool) stdin args s :
  let env := omap (config_entry (world s)) (host_AllKeys P (world s)) in
  let ran := host_Run P (cmd :: args) env stdin (world s) in
  let out := ran.1.1.2 in
  let errout := ran.1.2 in
  let res := execute cmd ignoreErrors stdin args s in
  logged InfoLevel (trace res.2)
  = logged InfoLevel (trace s)
    ++ ["Running command: " +:+ cmd +:+ " " +:+ Join args " "]
    ++ (if decide (out = "") then []
        else ["Command output: " +:+ newline +:+ out])
  ∧ logged ErrorLevel (trace res.2)
    = logged ErrorLevel (trace s)
      ++ (if decide (ignoreErrors = false ∧ errout ≠ "")
          then ["Command error output: " +:+ newline +:+ errout]
          else []).
Proof.
  cbv zeta. rewrite execute_run. cbn [fst snd trace].
  destruct (host_Run P _ _ _ _) as [[[err out] errout] w'].
  cbn [fst snd]. rewrite !logged_app.
  assert (Hlen : ∀ x : string,
            negb (String.length x =? 0)%nat = bool_decide (x ≠ "")).
  { intros [|a x]; reflexivity. }
  rewrite !Hlen. split.
  - destruct (decide (out = "")) as [->|Hout].
    + cbn. destruct (negb ignoreErrors && _); reflexivity.
    + rewrite (bool_decide_eq_true_2 _ Hout).
      destruct (negb ignoreErrors && _); reflexivity.
  - destruct (decide (ignoreErrors = false ∧ errout ≠ "")) as [[-> Herr]|Hno].
    + rewrite (bool_decide_eq_true_2 _ Herr).
      destruct (bool_decide (out ≠ "")); reflexivity.
    + assert (E : negb ignoreErrors && bool_decide (errout ≠ "") = false).
      { destruct ignoreErrors; [reflexivity|]. cbn [negb andb].
        apply bool_decide_eq_false_2. intros H. apply Hno. split; auto. }
      rewrite E. destruct (bool_decide (out ≠ "")); cbn;
        rewrite ?app_nil_r; reflexivity.
Qed.

(** On a key of ASCII characters, the name has the length of the key and
    holds neither a hyphen nor a letter a to z. *)
Lemma ascii_name_shape (k : string) :
  String.length (string_map upper_ascii (repl_Replace k)) = String.length k
  ∧ ∀ i a, String.get i (string_map upper_ascii (repl_Replace k)) = Some a →
      a ≠ "-"%char
      ∧ ¬ (97 ≤ N_of_ascii a ∧ N_of_ascii a ≤ 122)%N.
Proof.
  split.
  - unfold repl_Replace. rewrite !string_map_length. reflexivity.
  - intros i a. unfold repl_Replace. rewrite !string_map_get.
    destruct (String.get i k) as [b|]; [|discriminate].
    cbn [fmap option_fmap option_map]. intros [= <-].
    unfold dash_to_underscore.
    destruct (decide (b = "-"%char)) as [->|Hb].
    + change (upper_ascii "_") with "_"%char.
      change (N_of_ascii "_") with 95%N. split; [discriminate | lia].
    + unfold upper_ascii.
      destruct ((97 <=? N_of_ascii b)%N && (N_of_ascii b <=? 122)%N) eqn:E.
      * apply andb_true_iff in E as [E1 E2].
        apply N.leb_le in E1, E2.
        assert (Hn : N_of_ascii (ascii_of_N (N_of_ascii b - 32))
                     = (N_of_ascii b - 32)%N).
        { apply N_ascii_embedding. lia. }
        split.
        -- intros H. apply (f_equal N_of_ascii) in H. rewrite Hn in H.
           change (N_of_ascii "-") with 45%N in H. lia.
        -- rewrite Hn. lia.
      * split; [exact Hb|]. intros [H1 H2].
        apply N.leb_le in H1, H2. rewrite H1, H2 in E. discriminate.
Qed.

(** X5.  The command [execute] runs is handed, for every key of the
    configuration store that is made of ASCII characters and has a value,
    an entry NAME=value whose NAME has the length of the key and holds
    neither a hyphen nor a letter a to z. *)
Theorem execute_environment_names cmd (ignoreErrors : bool) stdin args s :
  let res := execute cmd ignoreErrors stdin args s in
  ∃ env,
    executed (trace res.2) = executed (trace s) ++ [(cmd :: args, env, res.1)]
    ∧ ∀ k v,
        k ∈ host_AllKeys P (world s) → isASCII k = true →
        host_Get P k (world s) = Some v →
        ∃ name,
          name +:+ "=" +:+ fmt_v P v ∈ env
          ∧ String.length name = String.length k
          ∧ ∀ i a, String.get i name = Some a →
              a ≠ "-"%char
              ∧ ¬ (97 ≤ N_of_ascii a ∧ N_of_ascii a ≤ 122)%N.
Proof.
  cbv zeta.
  exists (omap (config_entry (world s)) (host_AllKeys P (world s))). split.
  - rewrite execute_run. cbn [fst snd trace]. rewrite !executed_app.
    destruct (negb (String.length _ =? 0)%nat);
      destruct (negb ignoreErrors && _); cbn; rewrite ?app_nil_r; reflexivity.
  - intros k v Hin Hascii Hget.
    exists (string_map upper_ascii (repl_Replace k)). split.
    + apply list_elem_of_omap. exists k. split; [exact Hin|].
      unfold config_entry. rewrite Hget.
      rewrite (ToUpper_repl_Replace_ascii k Hascii). reflexivity.
    + exact (ascii_name_shape k).
Qed.

End executor_more.

Section xtables_more.

Context {P : Platform}.
Context (XTablesWriteCmds : gset string).

Implicit Types (s : State P) (r : RealDependencies) (cmd : string)
  (args : list string) (stdin : option (Reader P))
  (T : string → GoError → string).

(** [executeXTables] on the host, step by step. *)
Lemma executeXTables_host_run T r cmd (ignoreErrors : bool) stdin args s :
  CNIMode r = false →
  let i := prepare (P:=P) XTablesWriteCmds r cmd args in
  let ran := host_Run P (Args (inv_c i)) [] stdin (world s) in
  let err := ran.1.1.1 in
  let out := ran.1.1.2 in
  let errout := ran.1.2 in
  executeXTables XTablesWriteCmds T r cmd ignoreErrors stdin args s
  = (err,
     mkState ran.2
       (trace s ++ announce P XTablesWriteCmds r cmd args
        ++ [EvExec (Args (inv_c i)) [] err]
        ++ (if negb (String.length out =? 0)%nat
            then [EvLog InfoLevel ("Command output: " +:+ newline +:+ out)]
            else [])
        ++ (if (bool_decide (err ≠ None)
                || negb (String.length errout =? 0)%nat)
               && negb ignoreErrors
            then [EvLog ErrorLevel
                    ("Command error output: "
                     +:+ match err with
                         | Some e => T errout e
                         | None => errout
                         end)]
            else []))
       (heap s ++ [out; errout])).
Proof.
  intros Hcni. cbv zeta. unfold executeXTables, announce, prepare.
  rewrite Hcni. cbn [negb andb].
  unfold bind at 1 2 3 4 5. unfold when at 1, logf, newBuffer, ret.
  destruct (needLock XTablesWriteCmds r cmd);
    cbn [world trace heap app inv_c inv_run inv_args inv_mode run];
    unfold Cmd_Run;
    cbn [world trace heap Args Env Stdin Stdout Stderr with_streams
         exec_Command];
    rewrite length_app, Nat.add_1_r; cbn [length];
    destruct (host_Run P _ _ _ _) as [[[err out] errout] w'];
    rewrite buffers_written;
    unfold bind, Buffer_String, when, logf, ret;
    cbn [world trace heap fst snd];
    rewrite buffer_lookup_out;
    destruct (negb (String.length out =? 0)%nat);
    cbn [world trace heap]; rewrite buffer_lookup_err;
    destruct ((bool_decide (err ≠ None)
               || negb (String.length errout =? 0)%nat) && negb ignoreErrors);
    cbn [world trace heap]; rewrite <- ?app_assoc; cbn [app];
    rewrite ?app_nil_r; reflexivity.
Qed.

(** X6.  In CNI mode the arguments of the caller are never changed: no
    [--wait] flag is added, whatever the command and the version.  The
    command goes through the sandbox, asked for no lock file or for the
    network namespace of the pod, and runs at most once, with the name of
    the command followed by the arguments of the caller. *)
Theorem executeXTables_cni_arguments T r cmd (ignoreErrors : bool) stdin
    args s :
  CNIMode r = true →
  let i := prepare (P:=P) XTablesWriteCmds r cmd args in
  let res :=
    executeXTables XTablesWriteCmds T r cmd ignoreErrors stdin args s in
  Args (inv_c i) = cmd :: args
  ∧ inv_args i = args
  ∧ (inv_run i = RunInSandbox ""
     ∨ inv_run i = RunInSandbox (NetworkNamespace r))
  ∧ (executed (trace res.2) = executed (trace s)
     ∨ ∃ env, executed (trace res.2)
              = executed (trace s) ++ [(cmd :: args, env, res.1)]).
Proof.
  intros Hcni i res.
  pose proof (executeXTables_observed XTablesWriteCmds T r cmd ignoreErrors
                stdin args s) as Hobs.
  cbv zeta in Hobs. fold res in Hobs. destruct Hobs as (_ & _ & Hexec).
  subst i. unfold prepare in *. rewrite Hcni in *.
  destruct (needLock XTablesWriteCmds r cmd);
    [destruct (LessThan (version (IptablesVersion r)) IptablesLockfileEnv)|];
    cbn [inv_c inv_run inv_args Env Args with_Env exec_Command] in *;
    (split; [reflexivity|]); (split; [reflexivity|]);
    (split; [auto|]);
    (destruct Hexec as [Hx | (_ & Hx & _)]; [right; eexists; exact Hx | left; exact Hx]).
Qed.

(** X7.  On the host (not in CNI mode) [executeXTables] never goes through
    the sandbox: it makes no call of the kernel for a namespace or a mount,
    sets no environment on the command, and runs the command exactly once,
    with the arguments of the caller, followed by [--wait=30] or not. *)
Theorem executeXTables_host_direct T r cmd (ignoreErrors : bool) stdin
    args s :
  CNIMode r = false →
  let i := prepare (P:=P) XTablesWriteCmds r cmd args in
  let res :=
    executeXTables XTablesWriteCmds T r cmd ignoreErrors stdin args s in
  inv_run i = RunDirect
  ∧ syscalls (trace res.2) = syscalls (trace s)
  ∧ (∃ extra, (extra = [] ∨ extra = ["--wait=30"])
       ∧ executed (trace res.2)
         = executed (trace s) ++ [(cmd :: args ++ extra, [], res.1)]).
Proof.
  intros Hcni i res.
  pose proof (executeXTables_observed XTablesWriteCmds T r cmd ignoreErrors
                stdin args s) as Hobs.
  cbv zeta in Hobs. fold res in Hobs. destruct Hobs as (_ & [k Hsys] & Hexec).
  subst i. unfold prepare in *. rewrite Hcni in *.
  destruct (needLock XTablesWriteCmds r cmd);
    cbn [inv_c inv_run inv_args Env Args exec_Command sandbox_calls] in *;
    (split; [reflexivity|]);
    (split; [rewrite Hsys, take_nil, app_nil_r; reflexivity|]);
    (destruct Hexec as [Hx | (Hne & _)]; [|destruct (Hne eq_refl)]).
  - exists ["--wait=30"]. split; [right; reflexivity | exact Hx].
  - exists []. rewrite app_nil_r. split; [left; reflexivity | exact Hx].
Qed.

(** X8.  What [executeXTables] logs at the error level on the host.  With
    errors ignored, nothing.  Otherwise one line when the run gave an error
    or the command wrote to its standard error, and none when neither
    happened.  The line holds the translation of the error output when the
    run gave an error, and the error output as it is when the run gave
    none: the translation is applied to failures only. *)
Theorem executeXTables_host_error_log T r cmd (ignoreErrors : bool) stdin
    args s :
  CNIMode r = false →
  let i := prepare (P:=P) XTablesWriteCmds r cmd args in
  let ran := host_Run P (Args (inv_c i)) [] stdin (world s) in
  let err := ran.1.1.1 in
  let errout := ran.1.2 in
  let res :=
    executeXTables XTablesWriteCmds T r cmd ignoreErrors stdin args s in
  logged ErrorLevel (trace res.2)
  = logged ErrorLevel (trace s)
    ++ match ignoreErrors, err with
       | true, _ => []
       | false, Some e => ["Command error output: " +:+ T errout e]
       | false, None =>
           if decide (errout = "") then []
           else ["Command error output: " +:+ errout]
       end.
Proof.
  intros Hcni. cbv zeta.
  rewrite (executeXTables_host_run T r cmd ignoreErrors stdin args s Hcni).
  cbn [fst snd trace].
  destruct (host_Run P _ _ _ _) as [[[err out] errout] w'].
  cbn [fst snd]. rewrite !logged_app, announce_no_error.
  destruct (negb (String.length out =? 0)%nat);
    destruct ignoreErrors; cbn [negb andb];
    rewrite ?andb_false_r, ?andb_true_r;
    destruct err as [e|]; cbn; try reflexivity;
    destruct errout as [|a errout]; reflexivity.
Qed.

End xtables_more.

Lemma executeXTables_cni_arguments_witness :
  let r := Sim.deps [1; 6; 2]%N true in
  let i := prepare (P:=Sim.platform) Sim.writeCmds r "iptables" ["-t"; "nat"] in
  Args (inv_c i) = ["iptables"; "-t"; "nat"] ∧ inv_args i = ["-t"; "nat"].
Proof.
  destruct (executeXTables_cni_arguments (P:=Sim.platform) Sim.writeCmds
              Sim.translate (Sim.deps [1; 6; 2]%N true) "iptables" false None
              ["-t"; "nat"] (Sim.start (Sim.host None)) eq_refl)
    as (H1 & H2 & _).
  split; assumption.
Defined.

Lemma executeXTables_host_direct_witness :
  let res := executeXTables (P:=Sim.platform) Sim.writeCmds Sim.translate
               (Sim.deps [1; 8; 9]%N false) "iptables-save" false None
               ["-t"; "nat"] (Sim.start (Sim.host None)) in
  syscalls (trace res.2) = [].
Proof.
  exact (proj1 (proj2 (executeXTables_host_direct (P:=Sim.platform)
                         Sim.writeCmds Sim.translate
                         (Sim.deps [1; 8; 9]%N false) "iptables-save" false
                         None ["-t"; "nat"] (Sim.start (Sim.host None))
                         eq_refl))).
Defined.

Lemma executeXTables_host_error_log_witness :
  let res := executeXTables (P:=Sim.platform) Sim.writeCmds Sim.translate
               (Sim.deps [1; 8; 9]%N false) "iptables" false None
               ["-t"; "nat"] (Sim.start denied_by_kernel) in
  logged ErrorLevel (trace res.2)
  = [] ++ ["Command error output: "
           +:+ Sim.translate "Permission denied" Sim.exit1].
Proof.
  exact (executeXTables_host_error_log (P:=Sim.platform) Sim.writeCmds
           Sim.translate (Sim.deps [1; 8; 9]%N false) "iptables" false None
           ["-t"; "nat"] (Sim.start denied_by_kernel) eq_refl).
Defined.

(** * Properties of the installation verifier *)

Import verifier.

Lemma wrap_add_l (a b : Z) : wrap (wrap a + b) = wrap (a + b).
Proof.
  unfold wrap.
  replace ((a + 2 ^ 63) `mod` 2 ^ 64 - 2 ^ 63 + b + 2 ^ 63)
    with ((a + 2 ^ 63) `mod` 2 ^ 64 + b) by lia.
  rewrite Zplus_mod_idemp_l. do 2 f_equal. lia.
Qed.

Lemma last_filter_cons {A} (P : A → Prop) `{∀ x, Decision (P x)} (x : A) l d :
  default d (last (filter P (x :: l)))
  = default (if decide (P x) then x else d) (last (filter P l)).
Proof.
  rewrite filter_cons. destruct (decide (P x)); [|done].
  rewrite last_cons. by destruct (last (filter P l)).
Qed.

Section verifier_properties.

Context {C : Cluster}.

Lemma getRevision_loop_spec (items : list Pod) (revision : string) (c : Z) :
  getRevision_loop items revision (wrap c)
  = (default revision (last (filter (λ rev, rev ≠ "default") (rev_of_pod <$> items))),
     wrap (c + Z.of_nat (length items))).
Proof.
  revert revision c. induction items as [|pod items IH]; intros revision c.
  - cbn. by rewrite Z.add_0_r.
  - cbn [getRevision_loop]. unfold incr, int_add. rewrite wrap_add_l.
    rewrite fmap_cons, last_filter_cons.
    replace (c + Z.of_nat (length (pod :: items)))
      with (c + 1 + Z.of_nat (length items)) by (cbn [length]; lia).
    destruct (decide (rev_of_pod pod = "default")) as [E|E].
    + rewrite IH. by rewrite decide_False by (by intros ?).
    + rewrite IH. by rewrite decide_True.
Qed.


(** X9. [getRevision] gives the revision label of the last istiod pod whose
    label is not default, the empty string when there is none, and never
    default; it counts every pod it is given, and the line it prints says
    default for the empty revision.  When the pods cannot be listed it
    prints nothing and wraps the error. *)
Theorem getRevision_result (v : StatusVerifier C) (s : VState C) :
  let listed :=
    client_PodsForSelector C (istioNamespace v) "app=istiod" (cluster s) in
  let res := getRevision v s in
  cluster res.2 = listed.2 ∧
  res.1.1 ≠ "default" ∧
  match listed.1 with
  | inr err =>
      res.1 = ("", Some (errorString ("failed to fetch istiod pod, error: "
                                      +:+ Error err)))
      ∧ output res.2 = output s
  | inl pods =>
      let revision :=
        default "" (last (filter (λ rev, rev ≠ "default")
                            (rev_of_pod <$> pods))) in
      res.1 = (revision, None)
      ∧ output res.2
        = output s
          ++ [Printed (pretty (wrap (Z.of_nat (length pods)))
                       +:+ " Istio control planes detected, checking --revision "
                       +:+ fmt_q C (if decide (revision = "") then "default"
                                    else revision)
                       +:+ " only")]
  end.
Proof.
  cbn zeta. unfold getRevision, vbind, reach.
  destruct (client_PodsForSelector C (istioNamespace v) "app=istiod"
              (cluster s)) as [[pods|err] w] eqn:Hl; cbn [fst snd].
  - change 0 with (wrap 0). rewrite getRevision_loop_spec.
    cbn [vret LogAndPrintf fst snd cluster output Z.add].
    split; [done|]. split; [|done].
    destruct (last _) as [rev|] eqn:Hlast; [|done].
    apply last_Some_elem_of, list_elem_of_filter in Hlast. cbn. tauto.
  - cbn. done.
Qed.

Lemma injector_loop_spec (items : list MutatingWebhookConfiguration)
    (revision : string) (c : Z)
    (hookmatch : option MutatingWebhookConfiguration) :
  injector_loop items revision (wrap c) hookmatch
  = let labelled := filter (λ h, rev_of_hook h ≠ "") items in
    (default revision (last (rev_of_hook <$> labelled)),
     wrap (c + Z.of_nat (length labelled)),
     from_option Some hookmatch (last labelled)).
Proof.
  cbn zeta. revert revision c hookmatch.
  induction items as [|hook items IH]; intros revision c hookmatch.
  - cbn. by rewrite Z.add_0_r.
  - cbn [injector_loop]. rewrite filter_cons.
    destruct (decide (rev_of_hook hook ≠ "")) as [E|E]; [|apply IH].
    rewrite decide_True by (by right).
    unfold incr, int_add. rewrite wrap_add_l, IH.
    rewrite fmap_cons, !last_cons.
    replace (c + Z.of_nat (length (hook :: filter (λ h, rev_of_hook h ≠ "") items)))
      with (c + 1 + Z.of_nat (length (filter (λ h, rev_of_hook h ≠ "") items)))
      by (cbn [length]; lia).
    rewrite fmap_last.
    by destruct (last (filter _ items)).
Qed.

(** X10. [injectorFromCluster] gives the last webhook configuration that
    carries a non-empty revision label, and fails only when the listing
    fails or no configuration carries one; it prints how many carry one. *)
Theorem injectorFromCluster_result (v : StatusVerifier C) (revision : string)
    (s : VState C) :
  let listed := client_ListMutatingWebhookConfigurations C (cluster s) in
  let res := injectorFromCluster v revision s in
  cluster res.2 = listed.2 ∧
  match listed.1 with
  | inr err => res.1 = (None, Some err) ∧ output res.2 = output s
  | inl hooks =>
      let labelled := filter (λ h, rev_of_hook h ≠ "") hooks in
      output res.2
      = output s ++ [Printed (pretty (wrap (Z.of_nat (length labelled)))
                              +:+ " Istio injectors detected")]
      ∧ match last labelled with
        | Some hook => res.1 = (Some hook, None)
        | None =>
            res.1 = (None, Some (errorString ("Istio injector revision "
                                              +:+ fmt_q C revision
                                              +:+ " not found")))
        end
  end.
Proof.
  cbn zeta. unfold injectorFromCluster, vbind, reach.
  destruct (client_ListMutatingWebhookConfigurations C (cluster s))
    as [[hooks|err] w] eqn:Hl; cbn [fst snd]; [|done].
  change 0 with (wrap 0). rewrite injector_loop_spec. cbn zeta.
  rewrite fmap_last.
  destruct (last (filter _ hooks)) as [hook|]; cbn; done.
Qed.

(** X11. The revision asked of [injectorFromCluster] has no say in what it
    finds: for any two revisions it gives the same webhook configuration,
    fails in the same cases and leaves the same cluster and the same lines;
    only the text of the error can differ. *)
Theorem injectorFromCluster_any_revision (v : StatusVerifier C)
    (revision revision' : string) (s : VState C) :
  let res := injectorFromCluster v revision s in
  let res' := injectorFromCluster v revision' s in
  res.1.1 = res'.1.1 ∧ res.2 = res'.2 ∧ (res.1.2 = None ↔ res'.1.2 = None).
Proof.
  cbn zeta. unfold injectorFromCluster, vbind, reach.
  destruct (client_ListMutatingWebhookConfigurations C (cluster s))
    as [[hooks|err] w] eqn:Hl; cbn [fst snd]; [|done].
  change 0 with (wrap 0). rewrite !injector_loop_spec. cbn zeta.
  destruct (last (filter _ hooks)) as [hook|]; cbn; done.
Qed.

Lemma unmarshal_items_spec (items : list (Unstructured C))
    (retval : list (IstioOperator C)) :
  let parse un :=
    UnmarshalIstioOperator C
      (util_ToYAML_Object C (fixTimestampRelatedUnmarshalIssues un)) true in
  match unmarshal_items items retval with
  | inl iops =>
      ∃ new, iops = retval ++ new
             ∧ Forall2 (λ un iop, parse un = inl iop) items new
  | inr err =>
      ∃ before un after,
        items = before ++ un :: after
        ∧ parse un = inr err
        ∧ Forall (λ un, ∃ iop, parse un = inl iop) before
  end.
Proof.
  cbn zeta. revert retval.
  induction items as [|un items IH]; intros retval; cbn [unmarshal_items].
  - exists []. by rewrite app_nil_r.
  - destruct (UnmarshalIstioOperator C _ true) as [iop|err] eqn:Hp.
    + specialize (IH (retval ++ [iop])).
      destruct (unmarshal_items items (retval ++ [iop])) as [iops|err].
      * destruct IH as (new & -> & Hall). exists (iop :: new).
        split; [by rewrite <- app_assoc|]. by constructor.
      * destruct IH as (before & un' & after & -> & Hun & Hall).
        exists (un :: before), un', after. split; [done|]. split; [done|].
        constructor; [by exists iop|done].
    + exists [], un, items. by repeat split.
Qed.

(** X12. [AllOperatorsInCluster] is all or nothing: it gives one operator
    for each item listed, in the order of the listing, each unmarshalled
    from the item once its creation timestamp and managed fields are
    cleared; or it gives the error of the first item that does not
    unmarshal, or the error of the listing, and no operator at all. *)
Theorem AllOperatorsInCluster_all_or_nothing (s : VState C) :
  let parse un :=
    UnmarshalIstioOperator C
      (util_ToYAML_Object C (fixTimestampRelatedUnmarshalIssues un)) true in
  let listed := dynamic_List C (cluster s) in
  let res := AllOperatorsInCluster s in
  res.2 = mkVState listed.2 (output s) ∧
  match listed.1 with
  | inr err => res.1 = inr err
  | inl items =>
      match res.1 with
      | inl iops => Forall2 (λ un iop, parse un = inl iop) items iops
      | inr err =>
          ∃ before un after,
            items = before ++ un :: after
            ∧ parse un = inr err
            ∧ Forall (λ un, ∃ iop, parse un = inl iop) before
      end
  end.
Proof.
  cbn zeta. unfold AllOperatorsInCluster, vbind, reach.
  destruct (dynamic_List C (cluster s)) as [[items|err] w] eqn:Hl;
    cbn [fst snd vret]; [|done].
  split; [done|].
  pose proof (unmarshal_items_spec items []) as H. cbn zeta in H.
  destruct (unmarshal_items items []) as [iops|err]; [|done].
  by destruct H as (new & -> & H).
Qed.

Lemma operators_loop_spec (iops iopsMatch : list (IstioOperator C))
    (revision : string) :
  operators_loop iops iopsMatch revision
  = iopsMatch
    ++ filter (λ iop, revision_matches (iop_Revision C iop) revision = true)
         iops.
Proof.
  revert iopsMatch. induction iops as [|iop iops IH]; intros iopsMatch.
  - cbn. by rewrite app_nil_r.
  - cbn [operators_loop]. rewrite filter_cons.
    destruct (revision_matches (iop_Revision C iop) revision) eqn:E.
    + rewrite IH, decide_True by done. by rewrite <- app_assoc.
    + rewrite IH, decide_False by done. done.
Qed.

(** X13. What [operatorsFromCluster] gives is never an empty list: it is
    the operators of the cluster whose revision matches, in the order of
    the cluster, when there is one; otherwise the error of
    [AllOperatorsInCluster], or an error that names the revision when the
    cluster was read and nothing matches. *)
Theorem operatorsFromCluster_result (v : StatusVerifier C) (revision : string)
    (s : VState C) :
  let all := AllOperatorsInCluster s in
  let res := operatorsFromCluster v revision s in
  res.2 = all.2 ∧
  match res.1 with
  | inl iopsMatch =>
      iopsMatch ≠ []
      ∧ ∃ iops, all.1 = inl iops
                ∧ iopsMatch
                  = filter (λ iop, revision_matches (iop_Revision C iop)
                                     revision = true) iops
  | inr err =>
      all.1 = inr err
      ∨ ∃ iops, all.1 = inl iops
                ∧ Forall (λ iop, revision_matches (iop_Revision C iop)
                                   revision = false) iops
                ∧ err = errorString ("control plane revision "
                                     +:+ fmt_q C revision +:+ " not found")
  end.
Proof.
  cbn zeta. unfold operatorsFromCluster, vbind.
  destruct (AllOperatorsInCluster s) as [[iops|err] s'] eqn:Ha;
    cbn [fst snd vret]; [|by split; [|left]].
  rewrite operators_loop_spec, app_nil_l.
  destruct (filter _ iops) as [|iop l] eqn:Hf; cbn [length Nat.ltb Nat.leb fst snd].
  - split; [done|]. right. exists iops. split; [done|]. split; [|done].
    apply Forall_forall. intros iop Hin.
    destruct (revision_matches _ _) eqn:Hm; [|done].
    by destruct (filter_nil_not_elem_of _ _ iop Hf Hm).
  - split; [done|]. split; [done|]. by exists iops.
Qed.

Lemma revision_matches_default (specRevision : string) :
  revision_matches specRevision "" = revision_matches specRevision "default".
Proof.
  unfold revision_matches.
  repeat case_bool_decide; subst; try done.
Qed.

(** X14. For [operatorsFromCluster] the empty revision and the revision
    default are the same: both select the operators whose revision is empty
    or default, so they give the same operators and fail in the same cases,
    with the same effect on the cluster. *)
Theorem operatorsFromCluster_default (v : StatusVerifier C) (s : VState C) :
  let res := operatorsFromCluster v "" s in
  let res' := operatorsFromCluster v "default" s in
  res.2 = res'.2 ∧
  match res.1, res'.1 with
  | inl iopsMatch, inl iopsMatch' =>
      iopsMatch = iopsMatch'
      ∧ Forall (λ iop, iop_Revision C iop = ""
                       ∨ iop_Revision C iop = "default") iopsMatch
  | inr _, inr _ => True
  | _, _ => False
  end.
Proof.
  cbn zeta. unfold operatorsFromCluster, vbind.
  destruct (AllOperatorsInCluster s) as [[iops|err] s'] eqn:Ha;
    cbn [fst snd vret]; [|done].
  rewrite !operators_loop_spec, !app_nil_l.
  assert (filter (λ iop, revision_matches (iop_Revision C iop) "" = true) iops
          = filter (λ iop, revision_matches (iop_Revision C iop) "default"
                           = true) iops) as Heq.
  { apply list_filter_iff. intros iop. by rewrite revision_matches_default. }
  rewrite Heq. clear Heq.
  destruct (filter _ iops) as [|iop l] eqn:Hf;
    cbn [length Nat.ltb Nat.leb fst snd]; [done|].
  split; [done|]. split; [done|].
  rewrite <- Hf. apply Forall_forall. intros iop' Hin.
  apply list_elem_of_filter in Hin as [Hm _].
  unfold revision_matches in Hm.
  repeat case_bool_decide; subst; cbn in Hm; try done; auto.
Qed.

(** X15. The verdict of [reportStatus] is nil or one of two fixed errors,
    and the error handed in bears on it only by being nil or not: two
    errors that are both not nil give the same verdict, whatever they
    say.  The verdict is nil exactly
    when an Istio deployment was counted and no error was handed in, the
    error installation failed when one was counted and an error was handed
    in, and the error no installation found whenever none was counted,
    with or without an error.  [reportStatus] does not reach the cluster,
    and it adds lines to the output without touching the old ones. *)
Theorem reportStatus_verdict (v : StatusVerifier C)
    (crdCount istioDeploymentCount daemonSetCount : Z) (err : error)
    (s : VState C) :
  let res := reportStatus v crdCount istioDeploymentCount daemonSetCount err s in
  (res.1 = None ↔ istioDeploymentCount ≠ 0 ∧ err = None)
  ∧ (istioDeploymentCount = 0
     → res.1 = Some (errorString "no Istio installation found"))
  ∧ (istioDeploymentCount ≠ 0 → err ≠ None
     → res.1 = Some (errorString "Istio installation failed"))
  ∧ (∀ err' : error,
       (err = None ↔ err' = None)
       → (reportStatus v crdCount istioDeploymentCount daemonSetCount err' s).1
         = res.1)
  ∧ cluster res.2 = cluster s
  ∧ ∃ lines,
      output res.2
      = output s
        ++ Printed ("Checked " +:+ pretty crdCount
                    +:+ " custom resource definitions")
        :: Printed ("Checked " +:+ pretty istioDeploymentCount
                    +:+ " Istio Deployments") :: lines.
Proof.
  cbn zeta. unfold reportStatus, vbind, LogAndPrintf, vret.
  cbn [cluster output fst snd].
  split_and!.
  - destruct (Z.eqb_spec istioDeploymentCount 0) as [E|E];
      destruct (0 <? daemonSetCount); destruct err as [e|];
      cbn [fst snd]; split; try done; try (by intros []).
  - intros ->. cbn. by destruct (0 <? daemonSetCount), err.
  - intros E Herr. destruct (Z.eqb_spec istioDeploymentCount 0) as [|_]; [done|].
    destruct err as [e|]; [|done]. by destruct (0 <? daemonSetCount).
  - intros err' Hsame.
    destruct (istioDeploymentCount =? 0); destruct (0 <? daemonSetCount);
      destruct err as [e|], err' as [e'|]; cbn [fst snd]; try reflexivity;
      destruct Hsame as [H1 H2]; first [by discriminate (H1 eq_refl)
                                       | by discriminate (H2 eq_refl)].
  - destruct (istioDeploymentCount =? 0); destruct (0 <? daemonSetCount);
      by destruct err.
  - destruct (istioDeploymentCount =? 0); destruct (0 <? daemonSetCount);
      destruct err as [e|]; cbn [cluster output fst snd];
      rewrite <- ?app_assoc; cbn [app]; eauto.
Qed.

Lemma append_nonempty (s t : string) : t ≠ "" → s +:+ t ≠ "".
Proof. intros Ht. destruct s; [done|]. cbn. done. Qed.

(** X16. [resourceKinds] never gives the empty string: it gives the special
    name for a NetworkAttachmentDefinition whatever [findResourceInSpec]
    says, and for any other kind what [findResourceInSpec] says, or the
    lower-cased kind followed by s when that is empty. *)
Theorem resourceKinds_result (un : Unstructured C) :
  resourceKinds un ≠ ""
  ∧ (un_GetKind C un = "NetworkAttachmentDefinition"
     → resourceKinds un = "network-attachment-definitions")
  ∧ (un_GetKind C un ≠ "NetworkAttachmentDefinition"
     → resourceKinds un
       = if decide (findResourceInSpec C (un_GroupVersionKind C un) = "")
         then ToLower C (un_GetKind C un) +:+ "s"
         else findResourceInSpec C (un_GroupVersionKind C un)).
Proof.
  unfold resourceKinds, specialKinds.
  destruct (decide (un_GetKind C un = "NetworkAttachmentDefinition")) as [E|E].
  - rewrite E, lookup_singleton_eq. by repeat split.
  - rewrite lookup_singleton_ne by done.
    split; [|by split].
    destruct (decide _) as [E'|E']; [|done].
    by apply append_nonempty.
Qed.

End verifier_properties.

Section visiting.

Context {C : Cluster}.
Context (nested : IstioOperator C → string → V C (Z * Z * Z * error)).

(** X17. A Deployment is fetched once, in its own namespace or in the Istio
    namespace when it names none.  It is counted only when it was fetched,
    its status verifies, it lies in the Istio namespace (as every
    Deployment that names no namespace does) and its name starts with
    istio; a failure leaves the counters as they were. *)
Theorem visit_deployment (v : StatusVerifier C) (filename : string)
    (info : Info C) (un : Unstructured C) (n : Counters) (s : VState C) :
  ToUnstructured C info = inl un →
  un_GetKind C un = "Deployment" →
  let name := un_GetName C un in
  let namespace :=
    if decide (un_GetNamespace C un = "") then istioNamespace v
    else un_GetNamespace C un in
  let got :=
    get_Deployment C info (resourceKinds un) namespace name (cluster s) in
  let res := visit nested v filename info None n s in
  let counted :=
    mkCounters (crdCount n) (incr (istioDeploymentCount n))
      (daemonSetCount n) in
  cluster res.2 = got.2 ∧
  match got.1 with
  | inr e => res.1 = (Some e, n)
  | inl deployment =>
      match verifyDeploymentStatus C deployment with
      | Some e =>
          res.1 = (Some (istioVerificationFailureError filename (Some e)), n)
      | None =>
          res.1.1 = None
          ∧ (un_GetNamespace C un = ""
             ∨ un_GetNamespace C un = istioNamespace v
             → HasPrefix name "istio" = true → res.1.2 = counted)
          ∧ (un_GetNamespace C un ≠ ""
             → un_GetNamespace C un ≠ istioNamespace v → res.1.2 = n)
          ∧ (HasPrefix name "istio" = false → res.1.2 = n)
      end
  end.
Proof.
  intros HU Hk. cbn zeta. unfold visit. rewrite HU. cbn zeta. rewrite Hk.
  rewrite decide_True by done.
  unfold vbind, reach, reportFailure, LogAndPrintf, vret.
  destruct (get_Deployment C info _ _ _ (cluster s)) as [[d|e] w] eqn:Hg;
    cbn [fst snd]; [|done].
  destruct (verifyDeploymentStatus C d) as [e|]; [done|].
  destruct (HasPrefix (un_GetName C un) "istio") eqn:Hp;
    destruct (decide (un_GetNamespace C un = "")) as [E|E];
    case_bool_decide; cbn; repeat split; try done; try tauto;
    try (by intros; congruence).
Qed.

(** X18. A DaemonSet that is fetched is counted whether or not its status
    verifies: a DaemonSet that is there but not ready gives an error and is
    counted all the same; one that cannot be fetched is not counted. *)
Theorem visit_daemonset (v : StatusVerifier C) (filename : string)
    (info : Info C) (un : Unstructured C) (n : Counters) (s : VState C) :
  ToUnstructured C info = inl un →
  un_GetKind C un = "DaemonSet" →
  let name := un_GetName C un in
  let namespace :=
    if decide (un_GetNamespace C un = "") then istioNamespace v
    else un_GetNamespace C un in
  let got :=
    get_DaemonSet C info (resourceKinds un) namespace name (cluster s) in
  let res := visit nested v filename info None n s in
  cluster res.2 = got.2 ∧
  match got.1 with
  | inr e => res.1 = (Some e, n)
  | inl ds =>
      res.1
      = ((λ e, istioVerificationFailureError filename (Some e))
           <$> verifyDaemonSetStatus C ds,
         mkCounters (crdCount n) (istioDeploymentCount n)
           (incr (daemonSetCount n)))
  end.
Proof.
  intros HU Hk. cbn zeta. unfold visit. rewrite HU. cbn zeta. rewrite Hk.
  rewrite decide_False by done. rewrite decide_False by done.
  rewrite decide_False by done. rewrite decide_True by done.
  unfold vbind, reach, reportFailure, LogAndPrintf, vret.
  destruct (get_DaemonSet C info _ _ _ (cluster s)) as [[d|e] w] eqn:Hg;
    cbn [fst snd]; [|done].
  destruct (verifyDaemonSetStatus C d) as [e|]; done.
Qed.

(** X19. A resource of any other kind is first asked for without a
    namespace; only when that fails is it asked for in its namespace (the
    Istio namespace when it names none), and then the error of the second
    request alone decides and is the one reported: the error of the first
    is dropped.  Only a CustomResourceDefinition that was found is
    counted. *)
Theorem visit_other_kinds (v : StatusVerifier C) (filename : string)
    (info : Info C) (un : Unstructured C) (n : Counters) (s : VState C) :
  ToUnstructured C info = inl un →
  un_GetKind C un ∉ ["Deployment"; "Job"; "IstioOperator"; "DaemonSet"] →
  let kind := un_GetKind C un in
  let name := un_GetName C un in
  let namespace :=
    if decide (un_GetNamespace C un = "") then istioNamespace v
    else un_GetNamespace C un in
  let first := get_Error C info (resourceKinds un) None name (cluster s) in
  let second :=
    get_Error C info (resourceKinds un) (Some namespace) name first.2 in
  let res := visit nested v filename info None n s in
  match first.1 with
  | None => cluster res.2 = first.2 ∧ res.1.1 = None
  | Some _ =>
      cluster res.2 = second.2
      ∧ res.1.1
        = (λ e, istioVerificationFailureError filename
                  (Some (errorString ("the required " +:+ kind +:+ ":"
                                      +:+ name +:+ " is not ready due to: "
                                      +:+ Error e)))) <$> second.1
  end
  ∧ (res.1.1 = None → kind = "CustomResourceDefinition"
     → res.1.2 = mkCounters (incr (crdCount n)) (istioDeploymentCount n)
                   (daemonSetCount n))
  ∧ (res.1.1 ≠ None ∨ kind ≠ "CustomResourceDefinition" → res.1.2 = n).
Proof.
  intros HU Hk. cbn zeta. unfold visit. rewrite HU. cbn zeta.
  rewrite !not_elem_of_cons in Hk. destruct Hk as (H1 & H2 & H3 & H4 & _).
  rewrite decide_False by done. rewrite decide_False by done.
  rewrite decide_False by done. rewrite decide_False by done.
  unfold vbind, reach, reportFailure, LogAndPrintf, vret.
  destruct (get_Error C info _ None _ (cluster s)) as [[e1|] w] eqn:Hg1;
    cbn [fst snd cluster output].
  - destruct (get_Error C info _ (Some _) _ w) as [[e2|] w'] eqn:Hg2;
      cbn [fst snd vret cluster].
    + cbn. by split_and!.
    + destruct (decide (un_GetKind C un = "CustomResourceDefinition"));
        cbn; split_and!; try done; by intros [|].
  - destruct (decide (un_GetKind C un = "CustomResourceDefinition"));
      cbn; split_and!; try done; by intros [|].
Qed.

(** X20. For an IstioOperator whose text unmarshals and merges, the
    operator itself is never asked of the cluster: the merged operator is
    verified, and what that verification counted is added to the counters
    whether it failed or not; its error is returned as it is, and the
    success line is printed only when there is none. *)
Theorem visit_operator (v : StatusVerifier C) (filename : string)
    (info : Info C) (un : Unstructured C) (n : Counters) (s : VState C)
    (unmergedIOP merged : IstioOperator C) (w : CWorld C) (out : list Line) :
  ToUnstructured C info = inl un →
  un_GetKind C un = "IstioOperator" →
  let by_ := util_ToYAML C (fixTimestampRelatedUnmarshalIssues un) in
  UnmarshalIstioOperator C by_ true = inl unmergedIOP →
  manifest_GetMergedIOP C by_ (manifest_GetProfile C unmergedIOP)
    (manifestsPath v) (Revision v) (cluster s, output s)
  = (inl merged, (w, out)) →
  let iop1 :=
    if decide (manifestsPath v ≠ "")
    then iop_SetInstallPackagePath C (manifestsPath v) merged else merged in
  let iop2 :=
    if decide (iop_Namespace C iop1 = "")
    then iop_SetNamespace C (istioNamespace v) iop1 else iop1 in
  let namespace :=
    if decide (un_GetNamespace C un = "") then istioNamespace v
    else un_GetNamespace C un in
  let g := nested iop2 filename (mkVState w out) in
  let res := visit nested v filename info None n s in
  res.1
  = (g.1.2,
     mkCounters (int_add (crdCount n) g.1.1.1.1)
       (int_add (istioDeploymentCount n) g.1.1.1.2)
       (int_add (daemonSetCount n) g.1.1.2))
  ∧ cluster res.2 = cluster g.2
  ∧ output res.2
    = output g.2
      ++ match g.1.2 with
         | None =>
             [Printed (success_line v "IstioOperator" (un_GetName C un)
                         namespace)]
         | Some _ => []
         end.
Proof.
  intros HU Hk by_ Hp Hm. cbn zeta. unfold visit. rewrite HU. cbn zeta.
  rewrite Hk.
  rewrite decide_False by done. rewrite decide_False by done.
  rewrite decide_True by done.
  fold by_. rewrite Hp.
  unfold vbind, reach_and_log, reportFailure, LogAndPrintf, vret.
  rewrite Hm.
  destruct (nested _ filename (mkVState w out)) as [[[[a b] c] [e|]] s'];
    cbn; by rewrite ?app_nil_r.
Qed.

(** X21. The visit of a resource that is not an IstioOperator leaves
    exactly one line: the success line when it returns nil, and otherwise a
    failure line, with the failure marker, the kind, the name and the
    namespace (the Istio namespace when the resource names none). *)
Theorem visit_one_line (v : StatusVerifier C) (filename : string)
    (info : Info C) (un : Unstructured C) (n : Counters) (s : VState C) :
  ToUnstructured C info = inl un →
  un_GetKind C un ≠ "IstioOperator" →
  let kind := un_GetKind C un in
  let name := un_GetName C un in
  let namespace :=
    if decide (un_GetNamespace C un = "") then istioNamespace v
    else un_GetNamespace C un in
  let res := visit nested v filename info None n s in
  ∃ line,
    output res.2 = output s ++ [Printed line]
    ∧ match res.1.1 with
      | None => line = success_line v kind name namespace
      | Some _ =>
          ∃ reason,
            line = failureMarker v +:+ " " +:+ kind +:+ ": " +:+ name +:+ "."
                   +:+ namespace +:+ ": " +:+ Error reason
      end.
Proof.
  intros HU Hk. cbn zeta. unfold visit. rewrite HU. cbn zeta.
  destruct (decide (un_GetKind C un = "Deployment")) as [E1|E1].
  { unfold vbind, reach, reportFailure, LogAndPrintf, vret.
    destruct (get_Deployment C info _ _ _ (cluster s)) as [[d|e] w];
      [destruct (verifyDeploymentStatus C d) as [e|];
       [|destruct (_ && _)]|];
      cbn; eexists; (split; [reflexivity|]);
      first [reflexivity | eexists; reflexivity
            | eexists (errorString _); reflexivity]. }
  destruct (decide (un_GetKind C un = "Job")) as [E2|E2].
  { unfold vbind, reach, reportFailure, LogAndPrintf, vret.
    destruct (get_Job C info _ _ _ (cluster s)) as [[d|e] w];
      [destruct (verifyJobPostInstall C d) as [e|]|];
      cbn; eexists; (split; [reflexivity|]);
      first [reflexivity | eexists; reflexivity
            | eexists (errorString _); reflexivity]. }
  rewrite decide_False by done.
  destruct (decide (un_GetKind C un = "DaemonSet")) as [E3|E3].
  { unfold vbind, reach, reportFailure, LogAndPrintf, vret.
    destruct (get_DaemonSet C info _ _ _ (cluster s)) as [[d|e] w];
      [destruct (verifyDaemonSetStatus C d) as [e|]|];
      cbn; eexists; (split; [reflexivity|]);
      first [reflexivity | eexists; reflexivity
            | eexists (errorString _); reflexivity]. }
  unfold vbind, reach, reportFailure, LogAndPrintf, vret.
  destruct (get_Error C info _ None _ (cluster s)) as [[e1|] w];
    cbn [fst snd cluster output];
    [destruct (get_Error C info _ (Some _) _ w) as [[e2|] w']|];
    try destruct (decide (un_GetKind C un = "CustomResourceDefinition"));
    cbn; eexists; (split; [reflexivity|]);
      first [reflexivity | eexists; reflexivity
            | eexists (errorString _); reflexivity].
Qed.

Lemma injectorFromCluster_cases (v : StatusVerifier C) (revision : string)
    (s : VState C) :
  let listed := client_ListMutatingWebhookConfigurations C (cluster s) in
  let res := injectorFromCluster v revision s in
  cluster res.2 = listed.2
  ∧ (∃ lines, output res.2 = output s ++ lines)
  ∧ match listed.1 with
    | inl hooks =>
        if decide (Exists (λ h, rev_of_hook h ≠ "") hooks)
        then ∃ hook, res.1 = (Some hook, None)
        else ∃ err, res.1 = (None, Some err)
    | inr _ => ∃ err, res.1 = (None, Some err)
    end.
Proof.
  cbn zeta. unfold injectorFromCluster, vbind, reach.
  destruct (client_ListMutatingWebhookConfigurations C (cluster s))
    as [[hooks|err] w] eqn:Hl; cbn [fst snd].
  2: { split_and!; [done| |by eauto]. exists []. by rewrite app_nil_r. }
  change 0 with (wrap 0). rewrite injector_loop_spec. cbn zeta.
  split; [by destruct (last _)|].
  split; [destruct (last _); cbn; by eauto|].
  destruct (last (filter _ hooks)) as [hook|] eqn:Hlast; cbn.
  - apply last_Some_elem_of, list_elem_of_filter in Hlast as [Hrev Hin].
    rewrite decide_True; [by eauto|]. apply Exists_exists. by exists hook.
  - apply last_None in Hlast.
    rewrite decide_False; [by eauto|]. rewrite Exists_exists.
    intros (hook & Hin & Hrev).
    by destruct (filter_nil_not_elem_of _ _ hook Hlast Hrev).
Qed.

Lemma reportStatus_nil (v : StatusVerifier C) (a b c : Z) (err : error)
    (s : VState C) :
  (reportStatus v a b c err s).1 = None →
  last (output (reportStatus v a b c err s).2)
  = Some (Printed (successMarker v
                   +:+ " Istio is installed and verified successfully")).
Proof.
  unfold reportStatus, vbind, LogAndPrintf, vret.
  destruct (b =? 0); destruct (0 <? c); destruct err as [e|];
    cbn; try done; intros _; by rewrite last_snoc.
Qed.

(** X22. With a revision given, when no operator of the cluster matches it
    (default being looked for as the empty revision),
    [verifyInstallIOPRevision] verifies nothing: it logs the failure as an
    error, lists the webhook configurations once, and says that Istio is
    present when one of them carries a revision label, whichever revision
    that is, and that no operator could be loaded otherwise. *)
Theorem verifyInstallIOPRevision_no_operator (v : StatusVerifier C)
    (s : VState C) (err : GoError) :
  Revision v ≠ "" →
  let revision := if decide (Revision v = "default") then "" else Revision v in
  let found := operatorsFromCluster v revision s in
  found.1 = inr err →
  let listed := client_ListMutatingWebhookConfigurations C (cluster found.2) in
  let not_loaded :=
    "could not load IstioOperator from cluster: " +:+ Error err
    +:+ ". Use --filename" in
  let res := verifyInstallIOPRevision nested v s in
  Revision res.1.2 = revision
  ∧ cluster res.2 = listed.2
  ∧ res.1.1
    = Some (errorString
              match listed.1 with
              | inl hooks =>
                  if decide (Exists (λ h, rev_of_hook h ≠ "") hooks)
                  then "Istio present but verify-install needs an IstioOperator or manifest for comparison. Supply flag --filename <yaml>"
                  else not_loaded
              | inr _ => not_loaded
              end)
  ∧ ∃ lines,
      output res.2
      = output found.2
        ++ Errored ("error while fetching revision " +:+ revision +:+ ": "
                    +:+ Error err) :: lines.
Proof.
  intros Hne revision found Hfound listed not_loaded res.
  assert (∃ v1, Revision v1 = revision
                ∧ res
                  = (let '(r, s1) := operatorsFromCluster v1 (Revision v1) s in
                     match r with
                     | inr err =>
                         let s2 :=
                           mkVState (cluster s1)
                             (output s1
                              ++ [Errored ("error while fetching revision "
                                           +:+ Revision v1 +:+ ": "
                                           +:+ Error err)]) in
                         let '(g, s3) :=
                           injectorFromCluster v1 (Revision v1) s2 in
                         (match g.2, g.1 with
                          | None, Some _ =>
                              (Some (errorString
                                       "Istio present but verify-install needs an IstioOperator or manifest for comparison. Supply flag --filename <yaml>"),
                               v1)
                          | _, _ =>
                              (Some (errorString
                                       ("could not load IstioOperator from cluster: "
                                        +:+ Error err +:+ ". Use --filename")),
                               v1)
                          end, s3)
                     | inl iops => res
                     end)) as (v1 & Hv1 & Hres).
  { subst res revision. unfold verifyInstallIOPRevision.
    rewrite (decide_False (P := Revision v = "")) by done.
    destruct (decide (Revision v = "default")) as [E|E].
    - exists (with_Revision v ""). split; [done|].
      unfold vbind at 1. unfold vret at 1. cbn [Revision with_Revision].
      unfold vbind at 1.
      destruct (operatorsFromCluster _ "" s) as [[iops|e] s1]; [done|].
      unfold vbind, LogAndErrorf. cbn [cluster output].
      by destruct (injectorFromCluster _ "" _) as [[[h|] [e2|]] s3].
    - exists v. split; [done|].
      unfold vbind at 1. unfold vret at 1.
      unfold vbind at 1.
      destruct (operatorsFromCluster _ _ s) as [[iops|e] s1]; [done|].
      unfold vbind, LogAndErrorf. cbn [cluster output].
      by destruct (injectorFromCluster _ _ _) as [[[h|] [e2|]] s3]. }
  rewrite Hv1 in Hres.
  change (operatorsFromCluster v1 revision s) with found in Hres.
  destruct found as [[iops|e] s1] eqn:Hf; cbn in Hfound; [done|].
  injection Hfound as ->. cbn zeta in Hres.
  subst listed. cbn [snd].
  pose proof (injectorFromCluster_cases v1 revision
                (mkVState (cluster s1)
                   (output s1
                    ++ [Errored ("error while fetching revision "
                                 +:+ revision +:+ ": " +:+ Error err)])))
    as (Hcl & (lines & Hlines) & Hcase).
  cbn [cluster output] in Hcl, Hlines, Hcase.
  destruct (injectorFromCluster v1 revision _) as [[h e2] s3].
  cbn [fst snd] in *. rewrite Hres. clear Hres. cbn [fst snd].
  split_and!.
  - by destruct e2, h.
  - done.
  - revert Hcase.
    destruct (client_ListMutatingWebhookConfigurations C (cluster s1))
      as [[hooks|e] w]; cbn [fst];
      [destruct (decide (Exists _ hooks))|]; by intros [x [= -> ->]].
  - exists lines. rewrite Hlines. by rewrite <- app_assoc.
Qed.

(** X23. Whatever the verification of an operator does,
    [verifyInstallIOPRevision] returns nil only when the last line it
    printed is the line that says Istio is installed and verified: every
    other way out of it returns an error. *)
Theorem verifyInstallIOPRevision_nil (v : StatusVerifier C) (s : VState C) :
  let res := verifyInstallIOPRevision nested v s in
  res.1.1 = None →
  last (output res.2)
  = Some (Printed (successMarker v
                   +:+ " Istio is installed and verified successfully")).
Proof.
  cbn zeta. unfold verifyInstallIOPRevision, vbind, vret, LogAndErrorf.
  destruct (decide (Revision v = "")) as [E|E];
    [destruct (getRevision v s) as [[rev [e0|]] s1]; [done|]
    |destruct (decide (Revision v = "default")) as [E'|E']].
  all: destruct (operatorsFromCluster _ _ _) as [[iops|err] s2];
    [|by destruct (injectorFromCluster _ _ _) as [[[h|] [e2|]] s3]].
  all: destruct (verify_operators _ _ _ _ _ _ _ _)
         as [[e|[[[a b] c] errs]] s3]; [done|].
  all: match goal with
       | |- context [reportStatus ?v1 ?a ?b ?c ?e ?s3] =>
           pose proof (reportStatus_nil v1 a b c e s3) as H;
           destruct (reportStatus v1 a b c e s3) as [r s4]; exact H
       end.
Qed.

End visiting.

(** ** The scripted cluster at work *)

Lemma visit_deployment_witness :
  let res :=
    visit (C:=scripted) nothing_rendered checker "istio.yaml"
      (mkResource "Deployment" "istiod" "" "" true true) None
      (mkCounters 0 0 0) (begin two_revisions) in
  res.1.1 = None ∧ res.1.2 = mkCounters 0 1 0.
Proof.
  destruct (visit_deployment (C:=scripted) nothing_rendered checker
              "istio.yaml" (mkResource "Deployment" "istiod" "" "" true true)
              (mkResource "Deployment" "istiod" "" "" true true)
              (mkCounters 0 0 0) (begin two_revisions) eq_refl eq_refl)
    as (_ & Hnil & Hcount & _).
  exact (conj Hnil (Hcount (or_introl eq_refl) eq_refl)).
Defined.

Lemma visit_daemonset_witness :
  let res :=
    visit (C:=scripted) nothing_rendered checker "istio.yaml"
      (mkResource "DaemonSet" "istio-cni-node" "kube-system" "" true false)
      None (mkCounters 0 0 0) (begin two_revisions) in
  res.1 = (Some (istioVerificationFailureError "istio.yaml" (Some NotReady)),
           mkCounters 0 0 1).
Proof.
  exact (proj2 (visit_daemonset (C:=scripted) nothing_rendered checker
                  "istio.yaml"
                  (mkResource "DaemonSet" "istio-cni-node" "kube-system" ""
                     true false)
                  (mkResource "DaemonSet" "istio-cni-node" "kube-system" ""
                     true false)
                  (mkCounters 0 0 0) (begin two_revisions) eq_refl eq_refl)).
Defined.

Lemma visit_other_kinds_witness :
  let res :=
    visit (C:=scripted) nothing_rendered checker "istio.yaml"
      (mkResource "CustomResourceDefinition" "gateways.networking.istio.io"
         "" "" true true)
      None (mkCounters 0 0 0) (begin two_revisions) in
  res.1.1 = None ∧ res.1.2 = mkCounters 1 0 0.
Proof.
  assert ("CustomResourceDefinition"
          ∉ ["Deployment"; "Job"; "IstioOperator"; "DaemonSet"]) as Hk.
  { apply (bool_decide_unpack _). vm_compute. exact I. }
  destruct (visit_other_kinds (C:=scripted) nothing_rendered checker
              "istio.yaml"
              (mkResource "CustomResourceDefinition"
                 "gateways.networking.istio.io" "" "" true true)
              (mkResource "CustomResourceDefinition"
                 "gateways.networking.istio.io" "" "" true true)
              (mkCounters 0 0 0) (begin two_revisions) eq_refl Hk)
    as ((_ & Hnil) & Hcount & _).
  exact (conj Hnil (Hcount Hnil eq_refl)).
Defined.

Lemma visit_operator_witness :
  let res :=
    visit (C:=scripted) nothing_rendered checker "istio.yaml"
      (operator "canary") None (mkCounters 0 0 0) (begin two_revisions) in
  res.1 = (None, mkCounters 0 0 0).
Proof.
  exact (proj1 (visit_operator (C:=scripted) nothing_rendered checker
                  "istio.yaml" (operator "canary") (operator "canary")
                  (mkCounters 0 0 0) (begin two_revisions) "canary" "canary"
                  two_revisions [] eq_refl eq_refl eq_refl eq_refl)).
Defined.

Lemma visit_one_line_witness :
  let res :=
    visit (C:=scripted) nothing_rendered checker "istio.yaml"
      (mkResource "Job" "istio-cleanup" "" "" false false) None
      (mkCounters 0 0 0) (begin two_revisions) in
  length (output res.2) = 1%nat.
Proof.
  assert ("Job" ≠ "IstioOperator") as Hk by discriminate.
  destruct (visit_one_line (C:=scripted) nothing_rendered checker
              "istio.yaml" (mkResource "Job" "istio-cleanup" "" "" false false)
              (mkResource "Job" "istio-cleanup" "" "" false false)
              (mkCounters 0 0 0) (begin two_revisions) eq_refl Hk)
    as (line & Hout & _).
  cbn zeta. rewrite Hout. reflexivity.
Defined.

Lemma verifyInstallIOPRevision_no_operator_witness :
  let res :=
    verifyInstallIOPRevision (C:=scripted) nothing_rendered checker
      (begin two_revisions) in
  res.1.1
  = Some (errorString
            "Istio present but verify-install needs an IstioOperator or manifest for comparison. Supply flag --filename <yaml>").
Proof.
  assert (Revision checker ≠ "") as Hne by discriminate.
  destruct (verifyInstallIOPRevision_no_operator (C:=scripted)
              nothing_rendered checker (begin two_revisions)
              (errorString ("control plane revision "
                            +:+ fmt_q scripted "stable" +:+ " not found"))
              Hne eq_refl)
    as (_ & _ & H & _).
  exact H.
Defined.

Lemma verifyInstallIOPRevision_nil_witness :
  let res :=
    verifyInstallIOPRevision (C:=scripted) (λ _ _ s, ((0, 1, 0, None), s))
      (with_Revision checker "canary") (begin two_revisions) in
  last (output res.2)
  = Some (Printed "ok Istio is installed and verified successfully").
Proof.
  exact (verifyInstallIOPRevision_nil (C:=scripted)
           (λ _ _ s, ((0, 1, 0, None), s))
           (with_Revision checker "canary") (begin two_revisions) eq_refl).
Defined.
